(** * StickyLand: the sticky code cell ([src/code.ts])

    A shallow embedding of the [StickyCode] class: the mirror of a notebook
    code cell kept in the StickyLand panel or in a floating window.  The
    page is an explicit [World]: the DOM nodes, the notebook's cells and
    their shared models, the mirrors, the timers of the event loop, and a
    trace of the calls made to the host.  Every method of the class is a
    function that takes the mirror it is called on ([this]) and the world,
    and returns the new world. *)

From Stdlib Require Import ZArith String DecimalString DecimalZ DecimalPos.
From stdpp Require Import base numbers list strings gmap option.

Set Default Proof Using "Type".

(** ** Identities

    JavaScript objects are references.  DOM nodes, cell widgets, cell
    models, mirrors and timers are named by numbers; the stores of the
    [World] hold their current state.  A cell widget is named by its root
    node ([cell.node]): the source only ever compares cells through that
    node. *)

Abbreviation NodeId := nat (only parsing).
Abbreviation CellId := nat (only parsing).
Abbreviation ModelId := nat (only parsing).
Abbreviation MirrorId := nat (only parsing).
Abbreviation TimerId := nat (only parsing).

(** Modelled from the spec: the enumeration [ContentType] of [./content],
    which is not among the sources at hand.  [code.ts] uses [ContentType.Code];
    the other constructors are the other kinds of content of a panel. *)
Inductive ContentType := Dropzone | Code | Markdown.

Global Instance ContentType_eq_dec : EqDecision ContentType.
Proof. solve_decision. Defined.

(** ** Object stores

    A store maps the name of an object to its current state.  A reference
    always leads to an object, so reading is total ([m !!! k]) and [upd]
    writes the changed object back under its name. *)
Definition upd {A} `{Inhabited A} (k : nat) (f : A → A) (m : gmap nat A) : gmap nat A :=
  partial_alter (λ o, Some (f (default inhabitant o))) k m.

(** ** Events *)

(** A DOM event as the handlers see it: the pressed key and its modifiers
    (for keyboard events) and the two flags the handlers set. *)
Record Event := {
  key : string;
  shiftKey : bool;
  ctrlKey : bool;
  defaultPrevented : bool;
  propagationStopped : bool
}.

Definition preventDefault (e : Event) : Event :=
  {| key := key e; shiftKey := shiftKey e; ctrlKey := ctrlKey e;
     defaultPrevented := true; propagationStopped := propagationStopped e |}.

Definition stopPropagation (e : Event) : Event :=
  {| key := key e; shiftKey := shiftKey e; ctrlKey := ctrlKey e;
     defaultPrevented := defaultPrevented e; propagationStopped := true |}.

(** The closures the class registers as listeners: which handler, of which
    mirror. *)
Inductive Listener :=
  | RunClicked (this : MirrorId)
  | CollapseClicked (this : MirrorId)
  | ExpandClicked (this : MirrorId)
  | LaunchClicked (this : MirrorId)
  | CloseClicked (this : MirrorId)
  | KeydownHandler (this : MirrorId)
  | SwitchHandleEvent (this : MirrorId).

(** ** The DOM *)

Record Element := {
  tagName : string;
  classList : list string;
  attributes : list (string * string);
  childNodes : list NodeId;
  innerText : string;
  listeners : list (string * Listener)
}.

Definition set_tagName (v : string) (e : Element) : Element :=
  {| tagName := v; classList := classList e; attributes := attributes e; childNodes :=
     childNodes e; innerText := innerText e; listeners := listeners e |}.

Definition set_classList (v : list string) (e : Element) : Element :=
  {| tagName := tagName e; classList := v; attributes := attributes e; childNodes :=
     childNodes e; innerText := innerText e; listeners := listeners e |}.

Definition set_attributes (v : list (string * string)) (e : Element) : Element :=
  {| tagName := tagName e; classList := classList e; attributes := v; childNodes :=
     childNodes e; innerText := innerText e; listeners := listeners e |}.

Definition set_childNodes (v : list NodeId) (e : Element) : Element :=
  {| tagName := tagName e; classList := classList e; attributes := attributes e; childNodes
     := v; innerText := innerText e; listeners := listeners e |}.

Definition set_innerText (v : string) (e : Element) : Element :=
  {| tagName := tagName e; classList := classList e; attributes := attributes e; childNodes
     := childNodes e; innerText := v; listeners := listeners e |}.

Definition set_listeners (v : list (string * Listener)) (e : Element) : Element :=
  {| tagName := tagName e; classList := classList e; attributes := attributes e; childNodes
     := childNodes e; innerText := innerText e; listeners := v |}.

Definition newElement (tag : string) : Element :=
  {| tagName := tag; classList := []; attributes := []; childNodes := [];
     innerText := EmptyString; listeners := [] |}.

Global Instance Element_inhabited : Inhabited Element := populate (newElement "div").

(** Operations on the node store.  A node has at most one parent: the
    element whose [childNodes] lists it. *)
Module Dom.

Definition update (n : NodeId) (f : Element → Element)
    (d : gmap NodeId Element) : gmap NodeId Element :=
  upd n f d.

(** Take [n] out of the child list of its parent. *)
Definition detach (n : NodeId) (d : gmap NodeId Element) : gmap NodeId Element :=
  (λ e, set_childNodes (filter (λ c, c ≠ n) (childNodes e)) e) <$> d.

(** [n.remove()] *)
Definition remove (n : NodeId) (d : gmap NodeId Element) : gmap NodeId Element :=
  detach n d.

(** [p.appendChild(c)] and [p.append(c)]: [c] leaves its former parent
    and becomes the last child of [p]. *)
Definition appendChild (p c : NodeId) (d : gmap NodeId Element)
    : gmap NodeId Element :=
  update p (λ e, set_childNodes (childNodes e ++ [c]) e) (detach c d).

(** [p.append(...cs)] *)
Definition append (p : NodeId) (cs : list NodeId) (d : gmap NodeId Element)
    : gmap NodeId Element :=
  foldl (λ d c, appendChild p c d) d cs.

Fixpoint insert_before (new ref : NodeId) (l : list NodeId) : list NodeId :=
  match l with
  | [] => [new]
  | c :: l' => if decide (c = ref) then new :: c :: l' else c :: insert_before new ref l'
  end.

(** [p.insertBefore(new, ref)] *)
Definition insertBefore (p new ref : NodeId) (d : gmap NodeId Element)
    : gmap NodeId Element :=
  update p (λ e, set_childNodes (insert_before new ref (childNodes e)) e) (detach new d).

Definition add_class (cls : string) (l : list string) : list string :=
  if decide (cls ∈ l) then l else l ++ [cls].

(** [n.classList.add(...cls)] *)
Definition classList_add (n : NodeId) (cls : list string) (d : gmap NodeId Element)
    : gmap NodeId Element :=
  update n (λ e, set_classList (foldl (λ l c, add_class c l) (classList e) cls) e) d.

(** [n.classList.remove(cls)] *)
Definition classList_remove (n : NodeId) (cls : string) (d : gmap NodeId Element)
    : gmap NodeId Element :=
  update n (λ e, set_classList (filter (λ c, c ≠ cls) (classList e)) e) d.

(** [n.classList.contains(cls)] *)
Definition classList_contains (n : NodeId) (cls : string) (d : gmap NodeId Element)
    : bool :=
  bool_decide (cls ∈ classList (d !!! n)).

(** [n.setAttribute(k, v)] *)
Definition setAttribute (n : NodeId) (k v : string) (d : gmap NodeId Element)
    : gmap NodeId Element :=
  update n (λ e, set_attributes ((k, v) :: filter (λ a, a.1 ≠ k) (attributes e)) e) d.

(** [n.addEventListener(type, l)] *)
Definition addEventListener (n : NodeId) (type : string) (l : Listener)
    (d : gmap NodeId Element) : gmap NodeId Element :=
  update n (λ e, set_listeners (listeners e ++ [(type, l)]) e) d.

(** [o?.f()]: the call is made when [o] is a node. *)
Definition opt (o : option NodeId) (f : NodeId → gmap NodeId Element → gmap NodeId Element)
    (d : gmap NodeId Element) : gmap NodeId Element :=
  match o with
  | Some n => f n d
  | None => d
  end.

(** The subtree the rendering engine builds for a cell: one node per part,
    each with its class. *)
Definition render (ps : list (string * NodeId)) (d : gmap NodeId Element)
    : gmap NodeId Element :=
  foldl (λ d p, <[p.2 := set_classList [p.1] (newElement "div")]> d) d ps.

(** [n.innerText = s] *)
Definition set_text (n : NodeId) (s : string) (d : gmap NodeId Element)
    : gmap NodeId Element :=
  update n (set_innerText s) d.

(** The parents of [n]: the nodes that list it as a child. *)
Definition parents (n : NodeId) (d : gmap NodeId Element) : list NodeId :=
  (map_to_list (filter (λ kv, n ∈ childNodes kv.2) d)).*1.

End Dom.

(** ** The host document *)

(** A value of JavaScript's [any], as far as the state-change signal
    carries one. *)
Inductive JsValue := JsNull | JsBool (b : bool) | JsNumber (n : Z).

Definition truthy (v : JsValue) : bool :=
  match v with
  | JsNull => false
  | JsBool b => b
  | JsNumber n => negb (n =? 0)%Z
  end.

(** [IChangedArgs<any, any, string>] *)
Record IChangedArgs := {
  name : string;
  oldValue : JsValue;
  newValue : JsValue
}.

(** [ICodeCellModel]: the content model the canonical cell and its clone
    share.  [stateChanged] lists the mirrors whose [handleStateChange] is
    connected to the model's signal, in connection order. *)
Record CodeCellModel := {
  executionCount : option Z;
  isDirty : bool;
  stateChanged : list MirrorId
}.

Global Instance CodeCellModel_inhabited : Inhabited CodeCellModel :=
  populate {| executionCount := None; isDirty := false; stateChanged := [] |}.

(** [CodeCell]: a rendered cell widget, stored under its root node.
    The rendering engine owns the subtree below that node; [parts] lists,
    in document order, the descendants that carry one of the class names
    the mirror selects on, each with that class name.  [hasFocus] is the
    focus of the cell's editor, [lineWrapping] the option of its CodeMirror
    instance. *)
Record CodeCell := {
  model : ModelId;
  inputHidden : bool;
  outputHidden : bool;
  parts : list (string * NodeId);
  hasFocus : bool;
  lineWrapping : bool
}.

Definition set_model (v : ModelId) (c : CodeCell) : CodeCell :=
  {| model := v; inputHidden := inputHidden c; outputHidden := outputHidden c; parts := parts
     c; hasFocus := hasFocus c; lineWrapping := lineWrapping c |}.

Definition set_inputHidden (v : bool) (c : CodeCell) : CodeCell :=
  {| model := model c; inputHidden := v; outputHidden := outputHidden c; parts := parts c;
     hasFocus := hasFocus c; lineWrapping := lineWrapping c |}.

Definition set_outputHidden (v : bool) (c : CodeCell) : CodeCell :=
  {| model := model c; inputHidden := inputHidden c; outputHidden := v; parts := parts c;
     hasFocus := hasFocus c; lineWrapping := lineWrapping c |}.

Definition set_parts (v : list (string * NodeId)) (c : CodeCell) : CodeCell :=
  {| model := model c; inputHidden := inputHidden c; outputHidden := outputHidden c; parts :=
     v; hasFocus := hasFocus c; lineWrapping := lineWrapping c |}.

Definition set_hasFocus (v : bool) (c : CodeCell) : CodeCell :=
  {| model := model c; inputHidden := inputHidden c; outputHidden := outputHidden c; parts :=
     parts c; hasFocus := v; lineWrapping := lineWrapping c |}.

Definition set_lineWrapping (v : bool) (c : CodeCell) : CodeCell :=
  {| model := model c; inputHidden := inputHidden c; outputHidden := outputHidden c; parts :=
     parts c; hasFocus := hasFocus c; lineWrapping := v |}.

Global Instance CodeCell_inhabited : Inhabited CodeCell :=
  populate {| model := 0; inputHidden := false; outputHidden := false; parts := [];
              hasFocus := false; lineWrapping := true |}.

(** [root.querySelector('.' + cls)] on the subtree of a cell. *)
Definition querySelector (cls : string) (c : CodeCell) : option NodeId :=
  snd <$> find (λ p, bool_decide (p.1 = cls)) (parts c).

(** [notebook.content]: the cell widgets in document order and the index
    of the active one. *)
Record Notebook := {
  widgets : list CellId;
  activeCellIndex : Z
}.

(** [ArrayExt.findFirstIndex]: the index of the first element that
    satisfies [p], or [-1]. *)
Fixpoint findFirstIndex {A} (p : A → bool) (l : list A) : Z :=
  match l with
  | [] => -1
  | x :: l' =>
      if p x then 0
      else let i := findFirstIndex p l' in
           if (i =? -1)%Z then (-1)%Z else (i + 1)%Z
  end.

(** ** The collaborators of the class *)

(** [Switch] of [@jupyterlab/ui-components]: the auto-run toggle. *)
Module Switch.
Record t := {
  node : NodeId;
  value : bool;
  label : string;
  isDisposed : bool
}.
Definition set_value (v : bool) (s : t) : t :=
  {| node := node s; value := v; label := label s; isDisposed := isDisposed s |}.
Definition set_label (v : string) (s : t) : t :=
  {| node := node s; value := value s; label := v; isDisposed := isDisposed s |}.
(** [toggle.dispose()]; a disposed widget has lost the connections of its
    signals. *)
Definition dispose (s : t) : t :=
  {| node := node s; value := value s; label := label s; isDisposed := true |}.
End Switch.

(** [MutationObserver]: the callback and the nodes it currently observes,
    each with the kind of change it is observed for. *)
Module MutationObserver.
Inductive Callback := CodeClassMutationHandler | CodeOutputMutationHandler.
Inductive Init := Attributes | ChildList.
Record t := {
  callback : Callback;
  targets : list (NodeId * Init)
}.
(** [new MutationObserver(callback)] *)
Definition new (cb : Callback) : t := {| callback := cb; targets := [] |}.
(** [observer.observe(target, init)] *)
Definition observe (target : NodeId) (init : Init) (o : t) : t :=
  {| callback := callback o; targets := targets o ++ [(target, init)] |}.
(** [observer.disconnect()] *)
Definition disconnect (o : t) : t := {| callback := callback o; targets := [] |}.
End MutationObserver.

(** Modelled from the spec: the class [StickyContent] of [./content],
    which is not among the sources at hand, as the nodes of the panel that
    [code.ts] and [dropzone.ts] reach through it. *)
Record StickyContent := {
  wrapperNode : NodeId;
  headerNode : NodeId;
  contentNode : NodeId
}.

(** Modelled from the spec: the class [FloatingWindow] of [./floating],
    which is not among the sources at hand: the floating container with
    its content kind, its cell and its stacking index, the arguments
    [float()] constructs it with. *)
Module FloatingWindow.
Record t := {
  node : NodeId;
  cellType : ContentType;
  stickyCell : MirrorId;
  floatIndex : nat
}.
End FloatingWindow.

(** ** The sticky code cell *)

(** The fields of [class StickyCode].  ([renderer] is never assigned and
    [notebook] is the one notebook of the world.)  [codemirror] names the
    node the CodeMirror instance hangs on. *)
Record StickyCode := {
  node : NodeId;
  toolbar : NodeId;
  cellNode : NodeId;
  editorNode : option NodeId;
  outputNode : option NodeId;
  originalExecutionCounter : option NodeId;
  _executionCount : option Z;
  executionCounter : NodeId;
  placeholder : NodeId;
  stickyContent : StickyContent;
  originalCell : CellId;
  cell : CellId;
  toggle : Switch.t;
  codemirror : NodeId;
  codeObserver : MutationObserver.t;
  outputObserver : MutationObserver.t;
  autoRun : bool;
  autoRunTimeout : option TimerId;
  isDisposed : bool;
  isFloating : bool;
  floatingWindow : option FloatingWindow.t
}.

Definition set_node (v : NodeId) (cd : StickyCode) : StickyCode :=
  {| node := v; toolbar := toolbar cd; cellNode := cellNode cd; editorNode := editorNode cd;
     outputNode := outputNode cd; originalExecutionCounter := originalExecutionCounter cd;
     _executionCount := _executionCount cd; executionCounter := executionCounter cd;
     placeholder := placeholder cd; stickyContent := stickyContent cd; originalCell :=
     originalCell cd; cell := cell cd; toggle := toggle cd; codemirror := codemirror cd;
     codeObserver := codeObserver cd; outputObserver := outputObserver cd; autoRun := autoRun
     cd; autoRunTimeout := autoRunTimeout cd; isDisposed := isDisposed cd; isFloating :=
     isFloating cd; floatingWindow := floatingWindow cd |}.

Definition set_toolbar (v : NodeId) (cd : StickyCode) : StickyCode :=
  {| node := node cd; toolbar := v; cellNode := cellNode cd; editorNode := editorNode cd;
     outputNode := outputNode cd; originalExecutionCounter := originalExecutionCounter cd;
     _executionCount := _executionCount cd; executionCounter := executionCounter cd;
     placeholder := placeholder cd; stickyContent := stickyContent cd; originalCell :=
     originalCell cd; cell := cell cd; toggle := toggle cd; codemirror := codemirror cd;
     codeObserver := codeObserver cd; outputObserver := outputObserver cd; autoRun := autoRun
     cd; autoRunTimeout := autoRunTimeout cd; isDisposed := isDisposed cd; isFloating :=
     isFloating cd; floatingWindow := floatingWindow cd |}.

Definition set_cellNode (v : NodeId) (cd : StickyCode) : StickyCode :=
  {| node := node cd; toolbar := toolbar cd; cellNode := v; editorNode := editorNode cd;
     outputNode := outputNode cd; originalExecutionCounter := originalExecutionCounter cd;
     _executionCount := _executionCount cd; executionCounter := executionCounter cd;
     placeholder := placeholder cd; stickyContent := stickyContent cd; originalCell :=
     originalCell cd; cell := cell cd; toggle := toggle cd; codemirror := codemirror cd;
     codeObserver := codeObserver cd; outputObserver := outputObserver cd; autoRun := autoRun
     cd; autoRunTimeout := autoRunTimeout cd; isDisposed := isDisposed cd; isFloating :=
     isFloating cd; floatingWindow := floatingWindow cd |}.

Definition set_editorNode (v : option NodeId) (cd : StickyCode) : StickyCode :=
  {| node := node cd; toolbar := toolbar cd; cellNode := cellNode cd; editorNode := v;
     outputNode := outputNode cd; originalExecutionCounter := originalExecutionCounter cd;
     _executionCount := _executionCount cd; executionCounter := executionCounter cd;
     placeholder := placeholder cd; stickyContent := stickyContent cd; originalCell :=
     originalCell cd; cell := cell cd; toggle := toggle cd; codemirror := codemirror cd;
     codeObserver := codeObserver cd; outputObserver := outputObserver cd; autoRun := autoRun
     cd; autoRunTimeout := autoRunTimeout cd; isDisposed := isDisposed cd; isFloating :=
     isFloating cd; floatingWindow := floatingWindow cd |}.

Definition set_outputNode (v : option NodeId) (cd : StickyCode) : StickyCode :=
  {| node := node cd; toolbar := toolbar cd; cellNode := cellNode cd; editorNode :=
     editorNode cd; outputNode := v; originalExecutionCounter := originalExecutionCounter cd;
     _executionCount := _executionCount cd; executionCounter := executionCounter cd;
     placeholder := placeholder cd; stickyContent := stickyContent cd; originalCell :=
     originalCell cd; cell := cell cd; toggle := toggle cd; codemirror := codemirror cd;
     codeObserver := codeObserver cd; outputObserver := outputObserver cd; autoRun := autoRun
     cd; autoRunTimeout := autoRunTimeout cd; isDisposed := isDisposed cd; isFloating :=
     isFloating cd; floatingWindow := floatingWindow cd |}.

Definition set_originalExecutionCounter (v : option NodeId) (cd : StickyCode) : StickyCode :=
  {| node := node cd; toolbar := toolbar cd; cellNode := cellNode cd; editorNode :=
     editorNode cd; outputNode := outputNode cd; originalExecutionCounter := v;
     _executionCount := _executionCount cd; executionCounter := executionCounter cd;
     placeholder := placeholder cd; stickyContent := stickyContent cd; originalCell :=
     originalCell cd; cell := cell cd; toggle := toggle cd; codemirror := codemirror cd;
     codeObserver := codeObserver cd; outputObserver := outputObserver cd; autoRun := autoRun
     cd; autoRunTimeout := autoRunTimeout cd; isDisposed := isDisposed cd; isFloating :=
     isFloating cd; floatingWindow := floatingWindow cd |}.

Definition set__executionCount (v : option Z) (cd : StickyCode) : StickyCode :=
  {| node := node cd; toolbar := toolbar cd; cellNode := cellNode cd; editorNode :=
     editorNode cd; outputNode := outputNode cd; originalExecutionCounter :=
     originalExecutionCounter cd; _executionCount := v; executionCounter := executionCounter
     cd; placeholder := placeholder cd; stickyContent := stickyContent cd; originalCell :=
     originalCell cd; cell := cell cd; toggle := toggle cd; codemirror := codemirror cd;
     codeObserver := codeObserver cd; outputObserver := outputObserver cd; autoRun := autoRun
     cd; autoRunTimeout := autoRunTimeout cd; isDisposed := isDisposed cd; isFloating :=
     isFloating cd; floatingWindow := floatingWindow cd |}.

Definition set_executionCounter (v : NodeId) (cd : StickyCode) : StickyCode :=
  {| node := node cd; toolbar := toolbar cd; cellNode := cellNode cd; editorNode :=
     editorNode cd; outputNode := outputNode cd; originalExecutionCounter :=
     originalExecutionCounter cd; _executionCount := _executionCount cd; executionCounter :=
     v; placeholder := placeholder cd; stickyContent := stickyContent cd; originalCell :=
     originalCell cd; cell := cell cd; toggle := toggle cd; codemirror := codemirror cd;
     codeObserver := codeObserver cd; outputObserver := outputObserver cd; autoRun := autoRun
     cd; autoRunTimeout := autoRunTimeout cd; isDisposed := isDisposed cd; isFloating :=
     isFloating cd; floatingWindow := floatingWindow cd |}.

Definition set_placeholder (v : NodeId) (cd : StickyCode) : StickyCode :=
  {| node := node cd; toolbar := toolbar cd; cellNode := cellNode cd; editorNode :=
     editorNode cd; outputNode := outputNode cd; originalExecutionCounter :=
     originalExecutionCounter cd; _executionCount := _executionCount cd; executionCounter :=
     executionCounter cd; placeholder := v; stickyContent := stickyContent cd; originalCell
     := originalCell cd; cell := cell cd; toggle := toggle cd; codemirror := codemirror cd;
     codeObserver := codeObserver cd; outputObserver := outputObserver cd; autoRun := autoRun
     cd; autoRunTimeout := autoRunTimeout cd; isDisposed := isDisposed cd; isFloating :=
     isFloating cd; floatingWindow := floatingWindow cd |}.

Definition set_stickyContent (v : StickyContent) (cd : StickyCode) : StickyCode :=
  {| node := node cd; toolbar := toolbar cd; cellNode := cellNode cd; editorNode :=
     editorNode cd; outputNode := outputNode cd; originalExecutionCounter :=
     originalExecutionCounter cd; _executionCount := _executionCount cd; executionCounter :=
     executionCounter cd; placeholder := placeholder cd; stickyContent := v; originalCell :=
     originalCell cd; cell := cell cd; toggle := toggle cd; codemirror := codemirror cd;
     codeObserver := codeObserver cd; outputObserver := outputObserver cd; autoRun := autoRun
     cd; autoRunTimeout := autoRunTimeout cd; isDisposed := isDisposed cd; isFloating :=
     isFloating cd; floatingWindow := floatingWindow cd |}.

Definition set_originalCell (v : CellId) (cd : StickyCode) : StickyCode :=
  {| node := node cd; toolbar := toolbar cd; cellNode := cellNode cd; editorNode :=
     editorNode cd; outputNode := outputNode cd; originalExecutionCounter :=
     originalExecutionCounter cd; _executionCount := _executionCount cd; executionCounter :=
     executionCounter cd; placeholder := placeholder cd; stickyContent := stickyContent cd;
     originalCell := v; cell := cell cd; toggle := toggle cd; codemirror := codemirror cd;
     codeObserver := codeObserver cd; outputObserver := outputObserver cd; autoRun := autoRun
     cd; autoRunTimeout := autoRunTimeout cd; isDisposed := isDisposed cd; isFloating :=
     isFloating cd; floatingWindow := floatingWindow cd |}.

Definition set_cell (v : CellId) (cd : StickyCode) : StickyCode :=
  {| node := node cd; toolbar := toolbar cd; cellNode := cellNode cd; editorNode :=
     editorNode cd; outputNode := outputNode cd; originalExecutionCounter :=
     originalExecutionCounter cd; _executionCount := _executionCount cd; executionCounter :=
     executionCounter cd; placeholder := placeholder cd; stickyContent := stickyContent cd;
     originalCell := originalCell cd; cell := v; toggle := toggle cd; codemirror :=
     codemirror cd; codeObserver := codeObserver cd; outputObserver := outputObserver cd;
     autoRun := autoRun cd; autoRunTimeout := autoRunTimeout cd; isDisposed := isDisposed cd;
     isFloating := isFloating cd; floatingWindow := floatingWindow cd |}.

Definition set_toggle (v : Switch.t) (cd : StickyCode) : StickyCode :=
  {| node := node cd; toolbar := toolbar cd; cellNode := cellNode cd; editorNode :=
     editorNode cd; outputNode := outputNode cd; originalExecutionCounter :=
     originalExecutionCounter cd; _executionCount := _executionCount cd; executionCounter :=
     executionCounter cd; placeholder := placeholder cd; stickyContent := stickyContent cd;
     originalCell := originalCell cd; cell := cell cd; toggle := v; codemirror := codemirror
     cd; codeObserver := codeObserver cd; outputObserver := outputObserver cd; autoRun :=
     autoRun cd; autoRunTimeout := autoRunTimeout cd; isDisposed := isDisposed cd; isFloating
     := isFloating cd; floatingWindow := floatingWindow cd |}.

Definition set_codemirror (v : NodeId) (cd : StickyCode) : StickyCode :=
  {| node := node cd; toolbar := toolbar cd; cellNode := cellNode cd; editorNode :=
     editorNode cd; outputNode := outputNode cd; originalExecutionCounter :=
     originalExecutionCounter cd; _executionCount := _executionCount cd; executionCounter :=
     executionCounter cd; placeholder := placeholder cd; stickyContent := stickyContent cd;
     originalCell := originalCell cd; cell := cell cd; toggle := toggle cd; codemirror := v;
     codeObserver := codeObserver cd; outputObserver := outputObserver cd; autoRun := autoRun
     cd; autoRunTimeout := autoRunTimeout cd; isDisposed := isDisposed cd; isFloating :=
     isFloating cd; floatingWindow := floatingWindow cd |}.

Definition set_codeObserver (v : MutationObserver.t) (cd : StickyCode) : StickyCode :=
  {| node := node cd; toolbar := toolbar cd; cellNode := cellNode cd; editorNode :=
     editorNode cd; outputNode := outputNode cd; originalExecutionCounter :=
     originalExecutionCounter cd; _executionCount := _executionCount cd; executionCounter :=
     executionCounter cd; placeholder := placeholder cd; stickyContent := stickyContent cd;
     originalCell := originalCell cd; cell := cell cd; toggle := toggle cd; codemirror :=
     codemirror cd; codeObserver := v; outputObserver := outputObserver cd; autoRun :=
     autoRun cd; autoRunTimeout := autoRunTimeout cd; isDisposed := isDisposed cd; isFloating
     := isFloating cd; floatingWindow := floatingWindow cd |}.

Definition set_outputObserver (v : MutationObserver.t) (cd : StickyCode) : StickyCode :=
  {| node := node cd; toolbar := toolbar cd; cellNode := cellNode cd; editorNode :=
     editorNode cd; outputNode := outputNode cd; originalExecutionCounter :=
     originalExecutionCounter cd; _executionCount := _executionCount cd; executionCounter :=
     executionCounter cd; placeholder := placeholder cd; stickyContent := stickyContent cd;
     originalCell := originalCell cd; cell := cell cd; toggle := toggle cd; codemirror :=
     codemirror cd; codeObserver := codeObserver cd; outputObserver := v; autoRun := autoRun
     cd; autoRunTimeout := autoRunTimeout cd; isDisposed := isDisposed cd; isFloating :=
     isFloating cd; floatingWindow := floatingWindow cd |}.

Definition set_autoRun (v : bool) (cd : StickyCode) : StickyCode :=
  {| node := node cd; toolbar := toolbar cd; cellNode := cellNode cd; editorNode :=
     editorNode cd; outputNode := outputNode cd; originalExecutionCounter :=
     originalExecutionCounter cd; _executionCount := _executionCount cd; executionCounter :=
     executionCounter cd; placeholder := placeholder cd; stickyContent := stickyContent cd;
     originalCell := originalCell cd; cell := cell cd; toggle := toggle cd; codemirror :=
     codemirror cd; codeObserver := codeObserver cd; outputObserver := outputObserver cd;
     autoRun := v; autoRunTimeout := autoRunTimeout cd; isDisposed := isDisposed cd;
     isFloating := isFloating cd; floatingWindow := floatingWindow cd |}.

Definition set_autoRunTimeout (v : option TimerId) (cd : StickyCode) : StickyCode :=
  {| node := node cd; toolbar := toolbar cd; cellNode := cellNode cd; editorNode :=
     editorNode cd; outputNode := outputNode cd; originalExecutionCounter :=
     originalExecutionCounter cd; _executionCount := _executionCount cd; executionCounter :=
     executionCounter cd; placeholder := placeholder cd; stickyContent := stickyContent cd;
     originalCell := originalCell cd; cell := cell cd; toggle := toggle cd; codemirror :=
     codemirror cd; codeObserver := codeObserver cd; outputObserver := outputObserver cd;
     autoRun := autoRun cd; autoRunTimeout := v; isDisposed := isDisposed cd; isFloating :=
     isFloating cd; floatingWindow := floatingWindow cd |}.

Definition set_isDisposed (v : bool) (cd : StickyCode) : StickyCode :=
  {| node := node cd; toolbar := toolbar cd; cellNode := cellNode cd; editorNode :=
     editorNode cd; outputNode := outputNode cd; originalExecutionCounter :=
     originalExecutionCounter cd; _executionCount := _executionCount cd; executionCounter :=
     executionCounter cd; placeholder := placeholder cd; stickyContent := stickyContent cd;
     originalCell := originalCell cd; cell := cell cd; toggle := toggle cd; codemirror :=
     codemirror cd; codeObserver := codeObserver cd; outputObserver := outputObserver cd;
     autoRun := autoRun cd; autoRunTimeout := autoRunTimeout cd; isDisposed := v; isFloating
     := isFloating cd; floatingWindow := floatingWindow cd |}.

Definition set_isFloating (v : bool) (cd : StickyCode) : StickyCode :=
  {| node := node cd; toolbar := toolbar cd; cellNode := cellNode cd; editorNode :=
     editorNode cd; outputNode := outputNode cd; originalExecutionCounter :=
     originalExecutionCounter cd; _executionCount := _executionCount cd; executionCounter :=
     executionCounter cd; placeholder := placeholder cd; stickyContent := stickyContent cd;
     originalCell := originalCell cd; cell := cell cd; toggle := toggle cd; codemirror :=
     codemirror cd; codeObserver := codeObserver cd; outputObserver := outputObserver cd;
     autoRun := autoRun cd; autoRunTimeout := autoRunTimeout cd; isDisposed := isDisposed cd;
     isFloating := v; floatingWindow := floatingWindow cd |}.

Definition set_floatingWindow (v : option FloatingWindow.t) (cd : StickyCode) : StickyCode :=
  {| node := node cd; toolbar := toolbar cd; cellNode := cellNode cd; editorNode :=
     editorNode cd; outputNode := outputNode cd; originalExecutionCounter :=
     originalExecutionCounter cd; _executionCount := _executionCount cd; executionCounter :=
     executionCounter cd; placeholder := placeholder cd; stickyContent := stickyContent cd;
     originalCell := originalCell cd; cell := cell cd; toggle := toggle cd; codemirror :=
     codemirror cd; codeObserver := codeObserver cd; outputObserver := outputObserver cd;
     autoRun := autoRun cd; autoRunTimeout := autoRunTimeout cd; isDisposed := isDisposed cd;
     isFloating := isFloating cd; floatingWindow := v |}.

(** [new StickyCode()]: the field initialisers of the class; the other
    fields are still to be assigned. *)
Definition newStickyCode : StickyCode :=
  {| node := 0; toolbar := 0; cellNode := 0; editorNode := None; outputNode := None;
     originalExecutionCounter := None; _executionCount := None; executionCounter := 0;
     placeholder := 0;
     stickyContent := {| wrapperNode := 0; headerNode := 0; contentNode := 0 |};
     originalCell := 0; cell := 0;
     toggle := {| Switch.node := 0; Switch.value := false; Switch.label := EmptyString;
                  Switch.isDisposed := false |};
     codemirror := 0;
     codeObserver := MutationObserver.new MutationObserver.CodeClassMutationHandler;
     outputObserver := MutationObserver.new MutationObserver.CodeOutputMutationHandler;
     autoRun := false; autoRunTimeout := None; isDisposed := false;
     isFloating := false; floatingWindow := None |}.

Global Instance StickyCode_inhabited : Inhabited StickyCode := populate newStickyCode.

(** ** The event loop and the world *)

(** The callbacks handed to [setTimeout]. *)
Inductive Task :=
  | AutoRunTask (this : MirrorId).   (* () => { cd.execute(true); } *)

Global Instance Task_eq_dec : EqDecision Task.
Proof. solve_decision. Defined.

Record Timer := {
  timer_id : TimerId;
  due : nat;
  task : Task
}.

(** The calls made to the host, in order, and the disposal of a mirror. *)
Inductive Effect :=
  | SetInputHidden (c : CellId) (b : bool)
  | SetOutputHidden (c : CellId) (b : bool)
  | SetActiveCellIndex (i : Z)
  | EditorBlur (c : CellId)
  | NotebookRun (caller : MirrorId) (active : Z)
  | ShowDropzone (sc : StickyContent)
  | Disposed (m : MirrorId).

Record World := {
  document : gmap NodeId Element;
  nextNode : NodeId;
  cells : gmap CellId CodeCell;
  models : gmap ModelId CodeCellModel;
  notebook : Notebook;
  floatingWindows : list FloatingWindow.t;
  mirrors : gmap MirrorId StickyCode;
  executionScheduled : list MirrorId;
  timers : list Timer;
  clock : nat;
  nextTimer : TimerId;
  trace : list Effect
}.

Definition set_document (v : gmap NodeId Element) (w : World) : World :=
  {| document := v; nextNode := nextNode w; cells := cells w; models := models w; notebook :=
     notebook w; floatingWindows := floatingWindows w; mirrors := mirrors w;
     executionScheduled := executionScheduled w; timers := timers w; clock := clock w;
     nextTimer := nextTimer w; trace := trace w |}.

Definition set_nextNode (v : NodeId) (w : World) : World :=
  {| document := document w; nextNode := v; cells := cells w; models := models w; notebook :=
     notebook w; floatingWindows := floatingWindows w; mirrors := mirrors w;
     executionScheduled := executionScheduled w; timers := timers w; clock := clock w;
     nextTimer := nextTimer w; trace := trace w |}.

Definition set_cells (v : gmap CellId CodeCell) (w : World) : World :=
  {| document := document w; nextNode := nextNode w; cells := v; models := models w; notebook
     := notebook w; floatingWindows := floatingWindows w; mirrors := mirrors w;
     executionScheduled := executionScheduled w; timers := timers w; clock := clock w;
     nextTimer := nextTimer w; trace := trace w |}.

Definition set_models (v : gmap ModelId CodeCellModel) (w : World) : World :=
  {| document := document w; nextNode := nextNode w; cells := cells w; models := v; notebook
     := notebook w; floatingWindows := floatingWindows w; mirrors := mirrors w;
     executionScheduled := executionScheduled w; timers := timers w; clock := clock w;
     nextTimer := nextTimer w; trace := trace w |}.

Definition set_notebook (v : Notebook) (w : World) : World :=
  {| document := document w; nextNode := nextNode w; cells := cells w; models := models w;
     notebook := v; floatingWindows := floatingWindows w; mirrors := mirrors w;
     executionScheduled := executionScheduled w; timers := timers w; clock := clock w;
     nextTimer := nextTimer w; trace := trace w |}.

Definition set_floatingWindows (v : list FloatingWindow.t) (w : World) : World :=
  {| document := document w; nextNode := nextNode w; cells := cells w; models := models w;
     notebook := notebook w; floatingWindows := v; mirrors := mirrors w; executionScheduled
     := executionScheduled w; timers := timers w; clock := clock w; nextTimer := nextTimer w;
     trace := trace w |}.

Definition set_mirrors (v : gmap MirrorId StickyCode) (w : World) : World :=
  {| document := document w; nextNode := nextNode w; cells := cells w; models := models w;
     notebook := notebook w; floatingWindows := floatingWindows w; mirrors := v;
     executionScheduled := executionScheduled w; timers := timers w; clock := clock w;
     nextTimer := nextTimer w; trace := trace w |}.

Definition set_executionScheduled (v : list MirrorId) (w : World) : World :=
  {| document := document w; nextNode := nextNode w; cells := cells w; models := models w;
     notebook := notebook w; floatingWindows := floatingWindows w; mirrors := mirrors w;
     executionScheduled := v; timers := timers w; clock := clock w; nextTimer := nextTimer w;
     trace := trace w |}.

Definition set_timers (v : list Timer) (w : World) : World :=
  {| document := document w; nextNode := nextNode w; cells := cells w; models := models w;
     notebook := notebook w; floatingWindows := floatingWindows w; mirrors := mirrors w;
     executionScheduled := executionScheduled w; timers := v; clock := clock w; nextTimer :=
     nextTimer w; trace := trace w |}.

Definition set_clock (v : nat) (w : World) : World :=
  {| document := document w; nextNode := nextNode w; cells := cells w; models := models w;
     notebook := notebook w; floatingWindows := floatingWindows w; mirrors := mirrors w;
     executionScheduled := executionScheduled w; timers := timers w; clock := v; nextTimer :=
     nextTimer w; trace := trace w |}.

Definition set_nextTimer (v : TimerId) (w : World) : World :=
  {| document := document w; nextNode := nextNode w; cells := cells w; models := models w;
     notebook := notebook w; floatingWindows := floatingWindows w; mirrors := mirrors w;
     executionScheduled := executionScheduled w; timers := timers w; clock := clock w;
     nextTimer := v; trace := trace w |}.

Definition set_trace (v : list Effect) (w : World) : World :=
  {| document := document w; nextNode := nextNode w; cells := cells w; models := models w;
     notebook := notebook w; floatingWindows := floatingWindows w; mirrors := mirrors w;
     executionScheduled := executionScheduled w; timers := timers w; clock := clock w;
     nextTimer := nextTimer w; trace := v |}.


Definition emptyWorld : World :=
  {| document := ∅; nextNode := 0; cells := ∅; models := ∅;
     notebook := {| widgets := []; activeCellIndex := (-1)%Z |};
     floatingWindows := []; mirrors := ∅; executionScheduled := []; timers := [];
     clock := 0; nextTimer := 0; trace := [] |}.

(** Reading and writing the objects of the world. *)
Definition mirror (w : World) (m : MirrorId) : StickyCode := mirrors w !!! m.

Definition update_mirror (m : MirrorId) (f : StickyCode → StickyCode) (w : World) : World :=
  set_mirrors (upd m f (mirrors w)) w.

Definition update_cell (c : CellId) (f : CodeCell → CodeCell) (w : World) : World :=
  set_cells (upd c f (cells w)) w.

Definition update_model (k : ModelId) (f : CodeCellModel → CodeCellModel) (w : World)
    : World :=
  set_models (upd k f (models w)) w.

Definition onDocument (f : gmap NodeId Element → gmap NodeId Element) (w : World)
    : World :=
  set_document (f (document w)) w.

Definition log (e : Effect) (w : World) : World := set_trace (trace w ++ [e]) w.

(** [document.createElement(tag)]: the new node takes the next free name. *)
Definition createElement (tag : string) (w : World) : NodeId * World :=
  let n := nextNode w in
  (n, set_nextNode (S n) (set_document (<[n := newElement tag]> (document w)) w)).

(** [n.cloneNode(false)]: a new node with the tag, classes and attributes
    of [n], without children and without listeners. *)
Definition cloneNode_shallow (n : NodeId) (w : World) : NodeId * World :=
  let n' := nextNode w in
  (n', set_nextNode (S n')
         (set_document
            (<[n' := set_listeners [] (set_innerText EmptyString (set_childNodes [] (document w !!! n)))]>
               (document w)) w)).

(** ** The host's operations (Execution Model Adapter) *)

(** [cell.inputHidden = b] *)
Definition Cell_set_inputHidden (c : CellId) (b : bool) (w : World) : World :=
  log (SetInputHidden c b) (update_cell c (set_inputHidden b) w).

(** [cell.outputHidden = b] *)
Definition Cell_set_outputHidden (c : CellId) (b : bool) (w : World) : World :=
  log (SetOutputHidden c b) (update_cell c (set_outputHidden b) w).

(** [notebook.content.activeCellIndex = i] *)
Definition Notebook_set_activeCellIndex (i : Z) (w : World) : World :=
  log (SetActiveCellIndex i)
    (set_notebook {| widgets := widgets (notebook w); activeCellIndex := i |} w).

(** [cell.editor.blur()] *)
Definition Editor_blur (c : CellId) (w : World) : World :=
  log (EditorBlur c) (update_cell c (set_hasFocus false) w).

(** [NotebookActions.run(notebook.content, sessionContext)]: the host is
    asked to run the active cell.  The request is recorded with the index
    that is active when it is made; running leaves that cell active, and
    what the run does to the cell comes back later as state changes of its
    model. *)
Definition NotebookActions_run (caller : MirrorId) (w : World) : World :=
  log (NotebookRun caller (activeCellIndex (notebook w))) w.

(** [cell.clone()]: the rendering engine builds a new widget on the same
    model, visible, with a subtree of its own that has the same parts as
    the one of [c]. *)
Definition CodeCell_clone (c : CellId) (w : World) : CellId * World :=
  let src := cells w !!! c in
  let n := nextNode w in
  let ps := zip (parts src).*1 (seq (S n) (length (parts src))) in
  let d := <[n := set_childNodes ps.*2 (document w !!! c)]> (Dom.render ps (document w)) in
  let c' := {| model := model src; inputHidden := false; outputHidden := false;
               parts := ps; hasFocus := false; lineWrapping := true |} in
  (n, set_nextNode (S n + length (parts src))
        (set_cells (<[n := c']> (cells w)) (set_document d w))).

(** ** Timers *)

(** [setTimeout(task, delay)] *)
Definition setTimeout (k : Task) (delay : nat) (w : World) : TimerId * World :=
  let id := nextTimer w in
  (id, set_nextTimer (S id)
         (set_timers (timers w ++ [{| timer_id := id; due := clock w + delay; task := k |}]) w)).

(** [clearTimeout(id)] *)
Definition clearTimeout (id : TimerId) (w : World) : World :=
  set_timers (filter (λ t, timer_id t ≠ id) (timers w)) w.

(** ** The methods of [StickyCode] *)

(** How JavaScript prints an integer in a template literal. *)
Definition decimal (n : Z) : string := NilZero.string_of_int (Z.to_int n).

(** [set executionCount(newCount)] *)
Definition set_executionCount (this : MirrorId) (newCount : option Z) (w : World)
    : World :=
  let w := update_mirror this (set__executionCount newCount) w in
  (* Update the counter element *)
  onDocument
    (Dom.set_text (executionCounter (mirror w this))
       (match newCount with
        | Some n => "[" ++ decimal n ++ "]"
        | None => "[*]"
        end)) w.

(** [get executionCount()] *)
Definition get_executionCount (this : MirrorId) (w : World) : option Z :=
  _executionCount (mirror w this).

(** [handleStateChange(model, args)] *)
Definition handleStateChange (this : MirrorId) (codeModel : ModelId)
    (args : IChangedArgs) (w : World) : World :=
  if decide (name args = "executionCount") then
    (* Update the execution count *)
    let w := set_executionCount this (executionCount (models w !!! codeModel)) w in
    (* hide the original output every time here *)
    if inputHidden (cells w !!! originalCell (mirror w this)) then
      Cell_set_outputHidden (originalCell (mirror w this)) true w
    else w
  else if decide (name args = "isDirty") then
    (* Color the execution based on the dirty state *)
    if truthy (newValue args) then
      onDocument (Dom.classList_add (executionCounter (mirror w this)) ["dirty"]) w
    else
      onDocument (Dom.classList_remove (executionCounter (mirror w this)) "dirty") w
  else w.

(** [cellNode.querySelector('.' + cls)?.remove()] on the clone. *)
Definition remove_part (c : CellId) (cls : string) (w : World) : World :=
  let found := querySelector cls (cells w !!! c) in
  let w := onDocument (Dom.opt found Dom.remove) w in
  update_cell c (λ cc, set_parts (filter (λ p, Some p.2 ≠ found) (parts cc)) cc) w.

(** [cleanCellClone()] *)
Definition cleanCellClone (this : MirrorId) (w : World) : World :=
  let cellNode := cellNode (mirror w this) in
  (* Remove the left region (prompt and collapser), header and footer *)
  let w := remove_part cellNode "jp-Cell-inputCollapser" w in
  let w := remove_part cellNode "jp-OutputCollapser" w in
  let w := remove_part cellNode "jp-InputArea-prompt" w in
  let w := remove_part cellNode "jp-OutputPrompt" w in
  let w := remove_part cellNode "jp-CellHeader" w in
  let w := remove_part cellNode "jp-CellFooter" w in
  (* Add class name to the rendered region *)
  let w := onDocument (Dom.opt (querySelector "jp-OutputArea" (cells w !!! cellNode))
                         (λ n, Dom.classList_add n ["sticky-code-output"])) w in
  let w := onDocument (Dom.classList_add cellNode ["sticky-code-cell"]) w in
  onDocument (Dom.classList_remove cellNode "hidden") w.

(** The entries of [toolBarItems]: name, title and click handler. *)
Definition toolBarItems (this : MirrorId) : list (string * string * Listener) :=
  [ ("run", "Run the cell", RunClicked this);
    ("collapse", "Hide the input", CollapseClicked this);
    ("expand", "Show the input", ExpandClicked this);
    ("launch", "Make the cell float", LaunchClicked this);
    ("close", "Remove the cell", CloseClicked this) ].

(** The body of [items.forEach] in [createToolbar]: one button. *)
Definition createToolbarButton (buttonGroup : NodeId) (w : World)
    (d : string * string * Listener) : World :=
  let '(item, w) := createElement "div" w in
  let w := onDocument (Dom.classList_add item ["jp-ToolbarButton"; "jp-Toolbar-item"]) w in
  let w := onDocument (Dom.appendChild buttonGroup item) w in
  let '(itemElem, w) := createElement "button" w in
  let w := onDocument (Dom.classList_add itemElem
             ["jp-ToolbarButtonComponent"; "button"; "jp-Button"; "toolbar-button";
              "bp3-button"; "bp3-minimal"; ("button-" ++ d.1.1)%string]) w in
  let w := onDocument (Dom.setAttribute itemElem "title" d.1.2) w in
  let w := onDocument (Dom.addEventListener itemElem "click" d.2) w in
  let w := onDocument (Dom.appendChild item itemElem) w in
  (* Add icon to the button *)
  let '(iconSpan, w) := createElement "span" w in
  let w := onDocument (Dom.classList_add iconSpan ["jp-ToolbarButtonComponent-icon"]) w in
  onDocument (Dom.appendChild itemElem iconSpan) w.

(** [buttonGroup.querySelector('.button-expand')?.parentElement]: the item
    that holds the button of that class, among the children of the group. *)
Definition buttonItem (buttonGroup : NodeId) (cls : string) (w : World) : option NodeId :=
  find (λ item, existsb (λ b, bool_decide (cls ∈ classList (document w !!! b)))
                   (childNodes (document w !!! item)))
       (childNodes (document w !!! buttonGroup)).

(** [new Switch()] *)
Definition new_Switch (w : World) : Switch.t * World :=
  let '(n, w) := createElement "div" w in
  ({| Switch.node := n; Switch.value := false; Switch.label := EmptyString;
      Switch.isDisposed := false |}, w).

(** [createToolbar(items)] *)
Definition createToolbar (this : MirrorId) (items : list (string * string * Listener))
    (w : World) : NodeId * World :=
  let '(toolbar, w) := createElement "div" w in
  let w := onDocument (Dom.classList_add toolbar
             ["sticky-toolbar"; "jp-Toolbar"; "sticky-code-toolbar"]) w in
  let '(buttonGroup, w) := createElement "div" w in
  let w := onDocument (Dom.classList_add buttonGroup ["toolbar-buttons"]) w in
  let '(statusGroup, w) := createElement "div" w in
  let w := onDocument (Dom.classList_add statusGroup ["toolbar-status"]) w in
  let w := onDocument (Dom.appendChild toolbar buttonGroup) w in
  let w := onDocument (Dom.appendChild toolbar statusGroup) w in
  (* Add buttons into the toolbar *)
  let w := foldl (createToolbarButton buttonGroup) w items in
  (* Hide the expand button at first *)
  let w := onDocument (Dom.opt (buttonItem buttonGroup "button-expand" w)
                         (λ item, Dom.classList_add item ["no-display"])) w in
  (* Add a toggle switch into the toolbar; its valueChanged signal sets
     this.autoRun *)
  let '(sw, w) := new_Switch w in
  let w := update_mirror this (set_toggle sw) w in
  let w := update_mirror this
             (λ cd, set_toggle (Switch.set_value (autoRun cd) (toggle cd)) cd) w in
  let w := update_mirror this
             (λ cd, set_toggle (Switch.set_label "auto-run" (toggle cd)) cd) w in
  let w := onDocument (Dom.addEventListener (Switch.node (toggle (mirror w this)))
                         "click" (SwitchHandleEvent this)) w in
  let w := onDocument (Dom.appendChild buttonGroup (Switch.node (toggle (mirror w this)))) w in
  (* Add an execution counter into the toolbar *)
  let '(counter, w) := createElement "div" w in
  let w := update_mirror this (set_executionCounter counter) w in
  let w := onDocument (Dom.classList_add counter ["execution-counter"]) w in
  let w := onDocument (Dom.appendChild statusGroup counter) w in
  (toolbar, w).

(** The click on the switch: [Switch.handleEvent] flips the value, and the
    slot connected to [valueChanged] in [createToolbar] copies it into
    [autoRun], as long as the switch has not been disposed. *)
Definition switchClicked (this : MirrorId) (w : World) : World :=
  let sw := toggle (mirror w this) in
  let newValue := negb (Switch.value sw) in
  let w := update_mirror this (set_toggle (Switch.set_value newValue sw)) w in
  if Switch.isDisposed sw then w
  else update_mirror this (set_autoRun newValue) w.

(** [execute(restoreActiveCell = false)] *)
Definition execute (this : MirrorId) (restoreActiveCell : bool) (w : World) : World :=
  let restoreActiveCellIndex := activeCellIndex (notebook w) in
  (* Find the cell index of the original cell *)
  let cellIndex :=
    findFirstIndex (λ widget, bool_decide (widget = originalCell (mirror w this)))
      (widgets (notebook w)) in
  (* Change the active cell to the original cell *)
  let w := Notebook_set_activeCellIndex cellIndex w in
  (* Blur the focused editor *)
  let w := Editor_blur (cell (mirror w this)) w in
  (* Run the active cell *)
  let w := NotebookActions_run this w in
  (* Restore the active cell if needed *)
  if restoreActiveCell then Notebook_set_activeCellIndex restoreActiveCellIndex w
  else w.

(** [bindEventHandlers()]: the keyboard shortcuts of the mirror's node. *)
Definition bindEventHandlers (this : MirrorId) (w : World) : World :=
  onDocument (Dom.addEventListener (node (mirror w this)) "keydown" (KeydownHandler this)) w.

(** The listener [bindEventHandlers] registers for [keydown]. *)
Definition keydownHandler (this : MirrorId) (e : Event) (w : World) : Event * World :=
  if decide (key e = "Enter") then
    if shiftKey e || ctrlKey e then
      (* [Shift + enter] or [control + enter] runs the code cell *)
      let w := execute this false w in
      let e := preventDefault e in
      let e := stopPropagation e in
      (e, w)
    else (e, w)
  else (e, w).

(** Modelled from the spec: the constructor of [FloatingWindow]
    ([./floating] is not part of the sources at hand).  It builds the
    floating container, tagged with the content kind and the stacking
    index, and the window counts from then on among the floating windows of
    StickyLand. *)
Definition new_FloatingWindow (cellType : ContentType) (stickyCell : MirrorId)
    (floatIndex : nat) (w : World) : FloatingWindow.t * World :=
  let '(n, w) := createElement "div" w in
  let w := onDocument (Dom.classList_add n ["floating-window"]) w in
  let fw := {| FloatingWindow.node := n; FloatingWindow.cellType := cellType;
               FloatingWindow.stickyCell := stickyCell;
               FloatingWindow.floatIndex := floatIndex |} in
  (fw, set_floatingWindows (floatingWindows w ++ [fw]) w).

(** [float()] *)
Definition float (this : MirrorId) (w : World) : World :=
  (* Query the code cell index for this floating window *)
  let floatIndex :=
    if bool_decide (length (floatingWindows w) ≠ 0) then
      foldl (λ i d, if decide (FloatingWindow.cellType d = Code) then S i else i)
        1 (floatingWindows w)
    else 1 in
  let '(fw, w) := new_FloatingWindow Code this floatIndex w in
  let w := update_mirror this (set_floatingWindow (Some fw)) w in
  (* Clone the content wrapper and move all its children to the clone;
     append the clone to the floating window *)
  let wrapper := wrapperNode (stickyContent (mirror w this)) in
  let '(floatingContent, w) := cloneNode_shallow wrapper w in
  let w := onDocument (Dom.append floatingContent (childNodes (document w !!! wrapper))) w in
  let w := onDocument (Dom.opt (FloatingWindow.node <$> floatingWindow (mirror w this))
                         (λ n, Dom.append n [floatingContent])) w in
  (* Finally, toggle the isFloating property *)
  update_mirror this (set_isFloating true) w.

(** [land()]: the body is empty. *)
Definition land (this : MirrorId) (w : World) : World :=
  (* Put back the nodes *)
  w.

(** [dispose()] *)
Definition dispose (this : MirrorId) (w : World) : World :=
  (* Disconnect signal handlers *)
  let w := update_mirror this
             (λ cd, set_codeObserver (MutationObserver.disconnect (codeObserver cd)) cd) w in
  let w := update_mirror this (λ cd, set_toggle (Switch.dispose (toggle cd)) cd) w in
  (* Remove nodes *)
  let w := onDocument (Dom.remove (node (mirror w this))) w in
  let w := onDocument (Dom.remove (toolbar (mirror w this))) w in
  log (Disposed this) (update_mirror this (set_isDisposed true) w).

(** [new Dropzone(stickyContent)] ([src/dropzone.ts]), on the node of the
    panel. *)
Definition new_Dropzone (panel : NodeId) (w : World) : NodeId * World :=
  (* Add a dropzone element *)
  let '(n, w) := createElement "div" w in
  let w := onDocument (Dom.classList_add n ["dropzone"]) w in
  let w := onDocument (Dom.append panel [n]) w in
  (* Initialize the content *)
  let '(label, w) := createElement "span" w in
  let w := onDocument (Dom.classList_add label ["dropzone-label"]) w in
  let w := onDocument (Dom.set_text label "Create a cell or drag one here") w in
  let w := onDocument (Dom.append n [label]) w in
  (n, w).

(** Modelled from the spec: [StickyContent.showDropzone] ([./content] is
    not part of the sources at hand).  The panel area is handed back to the
    empty-state widget of [src/dropzone.ts]. *)
Definition showDropzone (sc : StickyContent) (w : World) : World :=
  (new_Dropzone (wrapperNode sc) (log (ShowDropzone sc) w)).2.

(** [runClicked(event)] *)
Definition runClicked (this : MirrorId) (event : Event) (w : World) : Event * World :=
  let event := preventDefault event in
  let event := stopPropagation event in
  (* Run the cell *)
  (event, execute this false w).

(** [launchClicked(event)] *)
Definition launchClicked (this : MirrorId) (event : Event) (w : World) : Event * World :=
  let event := preventDefault event in
  let event := stopPropagation event in
  (event, float this w).

(** [closeClicked(event)] *)
Definition closeClicked (this : MirrorId) (event : Event) (w : World) : Event * World :=
  let event := preventDefault event in
  let event := stopPropagation event in
  (* Show the original cell *)
  let w := Cell_set_inputHidden (originalCell (mirror w this)) false w in
  let w := Cell_set_outputHidden (originalCell (mirror w this)) false w in
  (* TEMP: replace the current content with the dropzone *)
  let w := showDropzone (stickyContent (mirror w this)) w in
  (* Remove the code cell *)
  (event, dispose this w).

(** ** The mutation observers *)

Record MutationRecord := {
  attributeName : option string;
  addedNodes : list NodeId
}.

(** [codeOutputMutationHandler(mutationList, observer)].  [addedNodes] is a
    node list, never [null]. *)
Definition codeOutputMutationHandler (this : MirrorId)
    (mutationList : list MutationRecord) (w : World) : World :=
  foldl (λ w d,
           (* Remove the prompt area when the output node is updated *)
           match outputNode (mirror w this) with
           | Some _ => remove_part (cellNode (mirror w this)) "jp-OutputPrompt" w
           | None => w
           end) w mutationList.

(** [codeClassMutationHandler(mutationList, observer)] *)
Definition codeClassMutationHandler (this : MirrorId)
    (mutationList : list MutationRecord) (w : World) : World :=
  foldl (λ w d,
           if decide (attributeName d = Some "class") then
             let focused :=
               match editorNode (mirror w this) with
               | Some n => Dom.classList_contains n "jp-mod-focused" (document w)
               | None => false
               end in
             if focused then
               onDocument (Dom.classList_add (executionCounter (mirror w this)) ["mod-focused"]) w
             else
               onDocument (Dom.classList_remove (executionCounter (mirror w this)) "mod-focused") w
           else w) w mutationList.

Global Instance Init_eq_dec : EqDecision MutationObserver.Init.
Proof. solve_decision. Defined.

(** The browser reports a change of kind [kind] on [target]: each observer
    of the mirror that observes [target] for that kind gets the records. *)
Definition deliverMutations (this : MirrorId) (target : NodeId)
    (kind : MutationObserver.Init) (records : list MutationRecord) (w : World) : World :=
  let w := if bool_decide ((target, kind) ∈ MutationObserver.targets (codeObserver (mirror w this)))
           then codeClassMutationHandler this records w else w in
  if bool_decide ((target, kind) ∈ MutationObserver.targets (outputObserver (mirror w this)))
  then codeOutputMutationHandler this records w else w.

(** ** The execution scheduler *)

(** The slot connected to [NotebookActions.executionScheduled] in
    [createFromExistingCell]; [args_cell] is [args.cell]. *)
Definition onExecutionScheduled (cd : MirrorId) (args_cell : CellId) (w : World) : World :=
  (* Schedule to run the code cell if auto-run is toggled and the current
     running cell is not the original cell *)
  if bool_decide (args_cell ≠ originalCell (mirror w cd)) && autoRun (mirror w cd) then
    let w := match autoRunTimeout (mirror w cd) with
             | Some id => clearTimeout id w
             | None => w
             end in
    let '(id, w) := setTimeout (AutoRunTask cd) 200 w in
    update_mirror cd (set_autoRunTimeout (Some id)) w
  else w.

(** The host emits [executionScheduled] for [args_cell]: the connected
    slots run in connection order. *)
Definition emit_executionScheduled (args_cell : CellId) (w : World) : World :=
  foldl (λ w cd, onExecutionScheduled cd args_cell w) w (executionScheduled w).

(** The host changes a property of a model and emits [stateChanged]. *)
Definition emit_stateChanged (k : ModelId) (args : IChangedArgs) (w : World) : World :=
  foldl (λ w cd, handleStateChange cd k args w) w (stateChanged (models w !!! k)).

(** A timer callback. *)
Definition runTask (k : Task) (w : World) : World :=
  match k with
  | AutoRunTask cd => execute cd true w
  end.

(** The event loop fires timer [t]: it is no longer pending, and its
    callback runs. *)
Definition fire (t : Timer) (w : World) : World :=
  runTask (task t) (set_timers (filter (λ t', timer_id t' ≠ timer_id t) (timers w)) w).

(** [ms] milliseconds pass: the timers that are due by then fire, in the
    order they were armed. *)
Definition elapse (ms : nat) (w : World) : World :=
  let w := set_clock (clock w + ms) w in
  foldl (λ w t, fire t w) w (filter (λ t, due t ≤ clock w) (timers w)).

(** ** The factory *)

Inductive Exn :=
  | TypeError              (* a property of [null] is read *)
  | DuplicateMirrorError.  (* the error of the specification; no statement of
                              the source raises it *)

(** The outcome of a call that can throw; the world is the one reached
    when the call returns or throws. *)
Inductive Res (A : Type) :=
  | Ok (a : A) (w : World)
  | Throw (e : Exn) (w : World).
Arguments Ok {A} a w.
Arguments Throw {A} e w.

(** [static createFromExistingCell(stickyContent, cell, notebook)], in
    three parts.  First part: from cloning the cell to attaching the
    toolbar. *)
Definition createFromExistingCell_attach (cd : MirrorId) (sc : StickyContent) (c : CellId)
    (w : World) : World :=
  let w := update_mirror cd (set_stickyContent sc) w in
  (* Clone the cell *)
  let w := update_mirror cd (set_originalCell c) w in
  let '(clone, w) := CodeCell_clone (originalCell (mirror w cd)) w in
  let w := update_mirror cd (set_cell clone) w in
  (* Collapse the original cell (both input and output) *)
  let w := Cell_set_inputHidden (originalCell (mirror w cd)) true w in
  let w := Cell_set_outputHidden (originalCell (mirror w cd)) true w in
  (* Register the original execution counter node *)
  let w := update_mirror cd
             (set_originalExecutionCounter
                (querySelector "jp-InputArea-prompt"
                   (cells w !!! originalCell (mirror w cd)))) w in
  (* Attach the clone node to stickyland *)
  let '(n, w) := createElement "div" w in
  let w := update_mirror cd (set_node n) w in
  let w := onDocument (Dom.classList_add (node (mirror w cd)) ["sticky-code"]) w in
  let w := onDocument (Dom.setAttribute (node (mirror w cd)) "tabindex" "0") w in
  let w := onDocument (Dom.appendChild (contentNode (stickyContent (mirror w cd)))
                         (node (mirror w cd))) w in
  (* Need to append the node to DOM first so we can do the cleaning *)
  let w := update_mirror cd (set_cellNode (cell (mirror w cd))) w in
  let w := onDocument (Dom.classList_add (cellNode (mirror w cd)) ["hidden"]) w in
  let w := onDocument (Dom.appendChild (node (mirror w cd)) (cellNode (mirror w cd))) w in
  (* Add a toolbar *)
  let '(tb, w) := createToolbar cd (toolBarItems cd) w in
  let w := update_mirror cd (set_toolbar tb) w in
  let w := onDocument (Dom.appendChild (headerNode (stickyContent (mirror w cd)))
                         (toolbar (mirror w cd))) w in
  w.

(** Last part: from the CodeMirror instance [codeMirrorNode.CodeMirror] to
    the placeholder. *)
Definition createFromExistingCell_bind (cd : MirrorId) (codeMirrorNode : NodeId)
    (w : World) : World :=
  let w := update_mirror cd (set_codemirror codeMirrorNode) w in
  let w := update_cell (cell (mirror w cd)) (set_lineWrapping false) w in
  let w := set_executionCount cd
             (executionCount (models w !!! model (cells w !!! cell (mirror w cd)))) w in
  let w := update_model (model (cells w !!! cell (mirror w cd)))
             (λ m, {| executionCount := executionCount m; isDirty := isDirty m;
                      stateChanged := stateChanged m ++ [cd] |}) w in
  (* Bind events *)
  let w := bindEventHandlers cd w in
  (* Clean the unnecessary elements from the node clone *)
  let w := cleanCellClone cd w in
  (* Add a mutation observer so we can style the execution counter based
     on the code focus *)
  let w := update_mirror cd
             (set_codeObserver
                (MutationObserver.new MutationObserver.CodeClassMutationHandler)) w in
  let w := update_mirror cd
             (set_editorNode
                (querySelector "jp-CodeMirrorEditor" (cells w !!! cellNode (mirror w cd))))
             w in
  let w := update_mirror cd
             (λ o, set_codeObserver
                     (match editorNode o with
                      | Some en => MutationObserver.observe en MutationObserver.Attributes
                                     (codeObserver o)
                      | None => codeObserver o
                      end) o) w in
  (* Add an output area observer because we need to remove the left
     prompt area every time the output area is updated *)
  let w := update_mirror cd
             (set_outputObserver
                (MutationObserver.new MutationObserver.CodeOutputMutationHandler)) w in
  let w := update_mirror cd
             (set_outputNode
                (querySelector "jp-OutputArea" (cells w !!! cellNode (mirror w cd)))) w in
  let w := update_mirror cd
             (λ o, set_outputObserver
                     (match outputNode o with
                      | Some on => MutationObserver.observe on MutationObserver.ChildList
                                     (outputObserver o)
                      | None => outputObserver o
                      end) o) w in
  (* Listen to the notebook execution events so we can auto-run the cell *)
  let w := set_executionScheduled (executionScheduled w ++ [cd]) w in
  (* Add a hidden placeholder element before the input area *)
  let '(ph, w) := createElement "div" w in
  let w := update_mirror cd (set_placeholder ph) w in
  let w := onDocument (Dom.classList_add (placeholder (mirror w cd))
                         ["jp-Placeholder-content"; "no-display"]) w in
  let w := onDocument (Dom.addEventListener (placeholder (mirror w cd)) "click"
                         (ExpandClicked cd)) w in
  let w := onDocument
             (Dom.opt (head (childNodes (document w !!! cell (mirror w cd))))
                (Dom.insertBefore (cell (mirror w cd)) (placeholder (mirror w cd)))) w in
  let '(placeholderIcon, w) := createElement "div" w in
  let w := onDocument (Dom.classList_add placeholderIcon
                         ["jp-MoreHorizIcon"; "placeholder-icon"]) w in
  let w := onDocument (Dom.appendChild (placeholder (mirror w cd)) placeholderIcon) w in
  w.

(** The whole function: the new object, the first part, the lookup of the
    CodeMirror node, which throws when [querySelector] returned [null], and
    the last part. *)
Definition createFromExistingCell (sc : StickyContent) (c : CellId) (w : World)
    : Res MirrorId :=
  (* const cd = new StickyCode(); *)
  let cd := fresh (dom (mirrors w)) in
  let w := set_mirrors (<[cd := newStickyCode]> (mirrors w)) w in
  let w := createFromExistingCell_attach cd sc c w in
  (* Bind the Codemirror *)
  match querySelector "CodeMirror" (cells w !!! cell (mirror w cd)) with
  | None => Throw TypeError w
  | Some codeMirrorNode => Ok cd (createFromExistingCell_bind cd codeMirrorNode w)
  end.

(** ** Worlds to run the code on *)

(** The parts the rendering engine gives a code cell, in document order. *)
Definition renderedParts : list string :=
  [ "jp-CellHeader"; "jp-Cell-inputCollapser"; "jp-InputArea-prompt";
    "jp-CodeMirrorEditor"; "CodeMirror"; "jp-OutputCollapser"; "jp-OutputArea";
    "jp-OutputPrompt"; "jp-CellFooter" ].

(** The host appends a code cell with execution count [count] to the
    notebook. *)
Definition host_addCell (count : option Z) (w : World) : CellId * World :=
  let n := nextNode w in
  let ps := zip renderedParts (seq (S n) (length renderedParts)) in
  let d := <[n := set_childNodes ps.*2 (set_classList ["jp-Cell"; "jp-CodeCell"]
                                          (newElement "div"))]>
             (Dom.render ps (document w)) in
  let k := fresh (dom (models w)) in
  let c := {| model := k; inputHidden := false; outputHidden := false; parts := ps;
              hasFocus := false; lineWrapping := true |} in
  let nb := {| widgets := widgets (notebook w) ++ [n];
               activeCellIndex := activeCellIndex (notebook w) |} in
  (n, set_nextNode (S n + length renderedParts) (set_notebook nb
        (set_models (<[k := {| executionCount := count; isDirty := false;
                               stateChanged := [] |}]> (models w))
           (set_cells (<[n := c]> (cells w)) (set_document d w))))).

(** A panel of StickyLand: a wrapper that holds a header and a content
    node. *)
Definition host_addPanel (w : World) : StickyContent * World :=
  let '(wrapper, w) := createElement "div" w in
  let '(header, w) := createElement "div" w in
  let '(content, w) := createElement "div" w in
  let w := onDocument (Dom.append wrapper [header; content]) w in
  ({| wrapperNode := wrapper; headerNode := header; contentNode := content |}, w).

(** The host runs cell [c] and the kernel answers with the count [count]
    ([CodeCell.execute] of the host): the count of the model is cleared,
    the output area is shown, and when the answer is in the count is set;
    the model emits [stateChanged] at both changes of the count. *)
Definition host_setExecutionCount (c : CellId) (count : option Z) (w : World) : World :=
  let k := model (cells w !!! c) in
  let old := executionCount (models w !!! k) in
  let w := update_model k (λ m, {| executionCount := count; isDirty := isDirty m;
                                   stateChanged := stateChanged m |}) w in
  emit_stateChanged k {| name := "executionCount";
                         oldValue := from_option JsNumber JsNull old;
                         newValue := from_option JsNumber JsNull count |} w.

Definition host_execute (c : CellId) (count : Z) (w : World) : World * World :=
  let w := host_setExecutionCount c None w in
  let w := update_cell c (set_outputHidden false) w in
  (w, host_setExecutionCount c (Some count) w).

(** The rendering engine redraws the output of cell [c] and puts the prompt
    back into its output area. *)
Definition host_redrawOutput (c : CellId) (w : World) : World :=
  let '(prompt, w) := createElement "div" w in
  let w := onDocument (Dom.classList_add prompt ["jp-OutputPrompt"]) w in
  update_cell c (λ cc, set_parts (parts cc ++ [("jp-OutputPrompt", prompt)]) cc) w.

(** A notebook of three code cells (nodes 3, 13 and 23), the first one
    active, next to an empty panel (nodes 0, 1 and 2). *)
Definition demoPanel : StickyContent :=
  {| wrapperNode := 0; headerNode := 1; contentNode := 2 |}.

Definition demoWorld : World :=
  let w := (host_addPanel emptyWorld).2 in
  let w := (host_addCell (Some 3%Z) w).2 in
  let w := (host_addCell None w).2 in
  let w := (host_addCell (Some 7%Z) w).2 in
  set_notebook {| widgets := widgets (notebook w); activeCellIndex := 0 |} w.

Definition returned {A} (r : Res A) : option A :=
  match r with Ok a _ => Some a | Throw _ _ => None end.

Definition world_of {A} (r : Res A) : World :=
  match r with Ok _ w => w | Throw _ w => w end.

(** The first cell of the demo notebook is mirrored: mirror 0. *)
Definition mirroredWorld : World :=
  world_of (createFromExistingCell demoPanel 3 demoWorld).

(** ... and its auto-run switch is on. *)
Definition autoRunWorld : World := switchClicked 0 mirroredWorld.

(** The events and timers used on the demo notebook. *)

(** The demo mirror after one qualifying event: its timer (handle 0) is
    pending and the slot names it. *)
Definition armedWorld : World := emit_executionScheduled 13 autoRunWorld.

Definition armedTimer : Timer :=
  {| timer_id := 0; due := 200; task := AutoRunTask 0 |}.

Definition shiftEnter : Event :=
  {| key := "Enter"; shiftKey := true; ctrlKey := false;
     defaultPrevented := false; propagationStopped := false |}.

Definition plainEnter : Event :=
  {| key := "Enter"; shiftKey := false; ctrlKey := false;
     defaultPrevented := false; propagationStopped := false |}.

Definition executionCountChanged : IChangedArgs :=
  {| name := "executionCount"; oldValue := JsNumber 3; newValue := JsNull |}.


(** * More of the class *)

(** ** The other factory *)

(** [notebook.content.activeCell]: the widget at the active index, [null]
    when the index names none. *)
Definition Notebook_activeCell (w : World) : option CellId :=
  if (activeCellIndex (notebook w) <? 0)%Z then None
  else widgets (notebook w) !! Z.to_nat (activeCellIndex (notebook w)).

(** [NotebookActions.insertBelow(notebook.content)]: without an active
    cell the host does nothing; otherwise it inserts a new, empty cell of
    the default kind right below the active cell and makes it the active
    one. *)
Definition NotebookActions_insertBelow (w : World) : World :=
  match Notebook_activeCell w with
  | None => w
  | Some _ =>
      let i := Z.to_nat (activeCellIndex (notebook w)) in
      let ws := widgets (notebook w) in
      let '(c, w) := host_addCell None w in
      set_notebook {| widgets := take (S i) ws ++ c :: drop (S i) ws;
                      activeCellIndex := (activeCellIndex (notebook w) + 1)%Z |} w
  end.

(** [NotebookActions.changeCellType(notebook.content, 'code')]: the host
    changes the kind of the active cell unless it is a code cell already.
    The cells of this model are all code cells. *)
Definition NotebookActions_changeCellType_code (w : World) : World := w.

(** [static createFromNewCell(stickyContent, notebook)].  When there is no
    active cell, [newCell] is [null] and [createFromExistingCell] throws at
    [cd.originalCell.clone()], with the new object allocated. *)
Definition createFromNewCell (sc : StickyContent) (w : World) : Res MirrorId :=
  (* Append a new code cell to the main notebook *)
  let w := NotebookActions_insertBelow w in
  let w := NotebookActions_changeCellType_code w in
  let newCell := Notebook_activeCell w in
  (* Activate the original active cell *)
  let w := Notebook_set_activeCellIndex (activeCellIndex (notebook w) - 1) w in
  (* Construct StickyCode using the new cell as an existing cell *)
  match newCell with
  | Some c => createFromExistingCell sc c w
  | None =>
      Throw TypeError
        (set_mirrors (<[fresh (dom (mirrors w)) := set_stickyContent sc newStickyCode]>
                        (mirrors w)) w)
  end.

(** ** Collapsing and expanding the input *)

(** Queries on the tree of nodes. *)
Module DomQuery.

(** The descendants of [n] in document order, down to depth [fuel]. *)
Fixpoint descendants (fuel : nat) (d : gmap NodeId Element) (n : NodeId) : list NodeId :=
  match fuel with
  | 0 => []
  | S fuel => c ← childNodes (d !!! n); c :: descendants fuel d c
  end.

(** [root.querySelector('.' + cls)]: the first descendant of [root], in
    document order, that carries the class.  A tree is less deep than it
    has nodes. *)
Definition querySelector (root : NodeId) (cls : string) (d : gmap NodeId Element)
    : option NodeId :=
  find (λ n, bool_decide (cls ∈ classList (d !!! n))) (descendants (size d) d root).

(** [n.parentElement] *)
Definition parentElement (n : NodeId) (d : gmap NodeId Element) : option NodeId :=
  head (Dom.parents n d).

End DomQuery.

(** [this.stickyContent.headerNode.querySelector('.' + cls)?.parentElement]:
    the toolbar item that holds the button of class [cls]. *)
Definition toolbarItem (this : MirrorId) (cls : string) (w : World) : option NodeId :=
  DomQuery.querySelector (headerNode (stickyContent (mirror w this))) cls (document w)
  ≫= λ button, DomQuery.parentElement button (document w).

(** [collapseClicked(event)] *)
Definition collapseClicked (this : MirrorId) (event : Event) (w : World) : Event * World :=
  let event := preventDefault event in
  let event := stopPropagation event in
  (* Hide the input region *)
  let w := Cell_set_inputHidden (cell (mirror w this)) true w in
  (* Swap the icon in the toolbar *)
  let w := onDocument (Dom.opt (toolbarItem this "button-collapse" w)
                         (λ item, Dom.classList_add item ["no-display"])) w in
  let w := onDocument (Dom.opt (toolbarItem this "button-expand" w)
                         (λ item, Dom.classList_remove item "no-display")) w in
  (* Show the input placeholder *)
  (event, onDocument (Dom.classList_remove (placeholder (mirror w this)) "no-display") w).

(** [expandClicked(event)] *)
Definition expandClicked (this : MirrorId) (event : Event) (w : World) : Event * World :=
  let event := preventDefault event in
  let event := stopPropagation event in
  (* Hide the input region *)
  let w := Cell_set_inputHidden (cell (mirror w this)) false w in
  (* Swap the icon in the toolbar *)
  let w := onDocument (Dom.opt (toolbarItem this "button-collapse" w)
                         (λ item, Dom.classList_remove item "no-display")) w in
  let w := onDocument (Dom.opt (toolbarItem this "button-expand" w)
                         (λ item, Dom.classList_add item ["no-display"])) w in
  (* Hide the input placeholder *)
  (event, onDocument (Dom.classList_add (placeholder (mirror w this)) ["no-display"]) w).

(** ** Everything that happens to the mirrors *)

(** The browser calls the listener [l] with the event [event]. *)
Definition handleEvent (l : Listener) (event : Event) (w : World) : Event * World :=
  match l with
  | RunClicked this => runClicked this event w
  | CollapseClicked this => collapseClicked this event w
  | ExpandClicked this => expandClicked this event w
  | LaunchClicked this => launchClicked this event w
  | CloseClicked this => closeClicked this event w
  | KeydownHandler this => keydownHandler this event w
  | SwitchHandleEvent this => (event, switchClicked this w)
  end.

(** What the user, the host and the browser do: the two factories, an
    event on a node with a listener, a method called from outside, a state
    change of a model, an execution-scheduled event, time passing, and a
    report of mutations. *)
Inductive Action :=
  | CreateFromExistingCell (sc : StickyContent) (c : CellId)
  | CreateFromNewCell (sc : StickyContent)
  | Dispatch (l : Listener) (event : Event)
  | CallExecute (this : MirrorId) (restoreActiveCell : bool)
  | CallFloat (this : MirrorId)
  | CallLand (this : MirrorId)
  | CallDispose (this : MirrorId)
  | StateChanged (k : ModelId) (args : IChangedArgs)
  | ExecutionScheduled (c : CellId)
  | Elapse (ms : nat)
  | Mutations (this : MirrorId) (target : NodeId) (kind : MutationObserver.Init)
      (records : list MutationRecord).

Definition perform (a : Action) (w : World) : World :=
  match a with
  | CreateFromExistingCell sc c => world_of (createFromExistingCell sc c w)
  | CreateFromNewCell sc => world_of (createFromNewCell sc w)
  | Dispatch l event => (handleEvent l event w).2
  | CallExecute this restoreActiveCell => execute this restoreActiveCell w
  | CallFloat this => float this w
  | CallLand this => land this w
  | CallDispose this => dispose this w
  | StateChanged k args => emit_stateChanged k args w
  | ExecutionScheduled c => emit_executionScheduled c w
  | Elapse ms => elapse ms w
  | Mutations this target kind records => deliverMutations this target kind records w
  end.


(** ** More worlds to run the code on *)

(** The demo notebook with the first cell rendered without an editor. *)
Definition noEditorWorld : World :=
  update_cell 3 (set_parts [("jp-InputArea-prompt", 6); ("jp-OutputArea", 10)]) demoWorld.

(** The first cell of the demo notebook mirrored twice (mirrors 0 and 1),
    and the same after the host has set the count of its model to 4. *)
Definition twiceMirroredWorld : World :=
  world_of (createFromExistingCell demoPanel 3 mirroredWorld).


Definition isDirtyChanged : IChangedArgs :=
  {| name := "isDirty"; oldValue := JsBool false; newValue := JsBool true |}.

(** Both mirrors of the first cell with auto-run on, after an event for
    cell 13: each has a timer pending. *)
Definition twoArmedWorld : World :=
  emit_executionScheduled 13 (switchClicked 1 (switchClicked 0 twiceMirroredWorld)).


(** * The vocabulary of the properties *)

(** ** Floating windows and the active cell *)


(** [cellIndex] in [execute]: the current index of the canonical cell. *)
Definition cellIndexOf (this : MirrorId) (w : World) : Z :=
  findFirstIndex (λ widget, bool_decide (widget = originalCell (mirror w this)))
    (widgets (notebook w)).


(** ** The factory *)

(** What the last part of the factory keeps: the other mirrors, the
    identity and the life of the new one, and the visibility of every
    cell. *)
Definition identity_of (o : StickyCode) :=
  (originalCell o, cell o, stickyContent o, isDisposed o, isFloating o, autoRun o,
   autoRunTimeout o).

Definition visibility (cc : CodeCell) := (inputHidden cc, outputHidden cc).

Definition keeps (cd : MirrorId) (w w' : World) : Prop :=
  (∀ m, m ≠ cd → mirrors w' !! m = mirrors w !! m) ∧
  (is_Some (mirrors w !! cd) → is_Some (mirrors w' !! cd)) ∧
  identity_of (mirror w' cd) = identity_of (mirror w cd) ∧
  (∀ k, visibility (cells w' !!! k) = visibility (cells w !!! k)).

(** The mirror [cd], stored under [m], is a live mirror of the cell [c]. *)
Definition liveMirrorOf (c : CellId) (m : MirrorId) (cd : StickyCode) (w : World) : Prop :=
  mirrors w !! m = Some cd ∧ originalCell cd = c ∧ isDisposed cd = false.

(** ** The scheduler *)

(** The host emits [executionScheduled] for the cell [ev.2], [ev.1]
    milliseconds after the previous event. *)
Definition arrive (ev : nat * CellId) (w : World) : World :=
  emit_executionScheduled ev.2 (elapse ev.1 w).

Definition play (evs : list (nat * CellId)) (w : World) : World :=
  foldl (λ w ev, arrive ev w) w evs.

(** The runs a mirror has asked the host for. *)
Definition isRunOf (m : MirrorId) (e : Effect) : bool :=
  match e with
  | NotebookRun caller _ => bool_decide (caller = m)
  | _ => false
  end.

Definition runsOf (m : MirrorId) (w : World) : nat :=
  length (List.filter (isRunOf m) (trace w)).

(** The pending timers that will auto-run mirror [m]. *)
Definition pendingOf (m : MirrorId) (w : World) : list Timer :=
  filter (λ t, task t = AutoRunTask m) (timers w).

(** Timer handles are handed out once, by [setTimeout]: the pending timers
    have distinct handles below the next one; a pending-timer slot holds a
    handle below the next one, and when it names a pending timer, that
    timer is one of its own mirror. *)
Definition slot_wf (w : World) (k : MirrorId) (o : StickyCode) : Prop :=
  from_option (λ id, id < nextTimer w) True (autoRunTimeout o) ∧
  Forall (λ t, autoRunTimeout o = Some (timer_id t) → task t = AutoRunTask k) (timers w).

Definition timers_wf (w : World) : Prop :=
  NoDup (timer_id <$> timers w) ∧
  Forall (λ t, timer_id t < nextTimer w) (timers w) ∧
  map_Forall (slot_wf w) (mirrors w).

(** [timers_wf], read through total lookups. *)
Definition twf (w : World) : Prop :=
  NoDup (timer_id <$> timers w) ∧
  (∀ t, t ∈ timers w → timer_id t < nextTimer w) ∧
  (∀ k id, autoRunTimeout (mirror w k) = Some id → id < nextTimer w) ∧
  (∀ k t, t ∈ timers w → autoRunTimeout (mirror w k) = Some (timer_id t) →
          task t = AutoRunTask k).

(** What the handlers and the timers never change of a mirror. *)
Definition static (m : MirrorId) (w w' : World) : Prop :=
  autoRun (mirror w' m) = autoRun (mirror w m) ∧
  originalCell (mirror w' m) = originalCell (mirror w m) ∧
  executionScheduled w' = executionScheduled w.

(** The event qualifies for mirror [k]. *)
Definition qualifies (k : MirrorId) (c : CellId) (w : World) : Prop :=
  c ≠ originalCell (mirror w k) ∧ autoRun (mirror w k) = true.

(** The state of the scheduler of a mirror: no auto-run is pending,
    or one is, due at [d], and the slot names it. *)
Inductive phase := Quiet | Armed (d : nat).

Definition holds (this : MirrorId) (p : phase) (w : World) : Prop :=
  match p with
  | Quiet => pendingOf this w = []
  | Armed d =>
      ∃ id, autoRunTimeout (mirror w this) = Some id ∧
            pendingOf this w = [{| timer_id := id; due := d; task := AutoRunTask this |}]
  end.


(** ** More vocabulary *)

(** The text of the counter for an execution count. *)
Definition countText (v : option Z) : string :=
  match v with
  | Some n => "[" ++ decimal n ++ "]"
  | None => "[*]"
  end.

(** The counter element [x] of mirror [cd] has been created and shows the
    execution count [v], which the mirror holds. *)
Definition shows (cd : MirrorId) (x : NodeId) (v : option Z) (w : World) : Prop :=
  x < nextNode w ∧ executionCounter (mirror w cd) = x ∧
  _executionCount (mirror w cd) = v ∧ innerText (document w !!! x) = countText v.

(** An operation on the document that changes no text. *)
Definition keeps_text (f : gmap NodeId Element → gmap NodeId Element) : Prop :=
  ∀ d x, innerText (f d !!! x) = innerText (d !!! x).

(** The selectors of the parts [cleanCellClone()] removes, in the order of
    the source. *)
Definition strippedClasses : list string :=
  ["jp-Cell-inputCollapser"; "jp-OutputCollapser"; "jp-InputArea-prompt";
   "jp-OutputPrompt"; "jp-CellHeader"; "jp-CellFooter"].

(** Whether the editor of the mirror has the focus, as
    [codeClassMutationHandler] reads it: the class [jp-mod-focused] on the
    editor node. *)
Definition editorFocused (this : MirrorId) (w : World) : bool :=
  match editorNode (mirror w this) with
  | Some n => Dom.classList_contains n "jp-mod-focused" (document w)
  | None => false
  end.

(** Two documents with the same nodes and the same children. *)
Definition same_tree (d d' : gmap NodeId Element) : Prop :=
  dom d' = dom d ∧ ∀ k, childNodes (d' !!! k) = childNodes (d !!! k).

(** The toolbar of mirror [this] as [collapseClicked] and [expandClicked]
    find it: the buttons of class [button-collapse] and [button-expand]
    are found below the header of the panel, each with one parent, the
    items [ic] and [ie]; and the placeholder of the mirror exists. *)
Definition toolbarOf (this : MirrorId) (ic ie : NodeId) (w : World) : Prop :=
  let hdr := headerNode (stickyContent (mirror w this)) in
  (∃ bc, DomQuery.querySelector hdr "button-collapse" (document w) = Some bc ∧
         Dom.parents bc (document w) = [ic]) ∧
  (∃ be, DomQuery.querySelector hdr "button-expand" (document w) = Some be ∧
         Dom.parents be (document w) = [ie]) ∧
  is_Some (document w !! placeholder (mirror w this)).



(** * Properties *)

(** ** Stores *)

Section upd.
Context {A : Type} `{Inhabited A}.
Implicit Types (m : gmap nat A) (f : A → A).

Lemma upd_lookup_eq k f m : upd k f m !! k = Some (f (m !!! k)).
Proof. unfold upd. rewrite lookup_partial_alter_eq, lookup_total_alt. done. Qed.

Lemma upd_lookup_ne k k' f m : k ≠ k' → upd k f m !! k' = m !! k'.
Proof. intros. unfold upd. by rewrite lookup_partial_alter_ne. Qed.

Lemma upd_lookup_total_eq k f m : upd k f m !!! k = f (m !!! k).
Proof. by rewrite lookup_total_alt, upd_lookup_eq. Qed.

Lemma upd_lookup_total_ne k k' f m : k ≠ k' → upd k f m !!! k' = m !!! k'.
Proof. intros. by rewrite !lookup_total_alt, upd_lookup_ne. Qed.

(** A write that keeps an observation [g] of every object keeps it for
    the whole store. *)
Lemma upd_preserved {B} (g : A → B) k k' f m :
  (∀ a, g (f a) = g a) → g (upd k f m !!! k') = g (m !!! k').
Proof.
  intros Hg. destruct (decide (k = k')) as [->|].
  - by rewrite upd_lookup_total_eq.
  - by rewrite upd_lookup_total_ne.
Qed.
End upd.

(** Unfolding of the operations on the world, to read a component of the
    world they return. *)
Ltac world_lazy :=
  lazy beta iota zeta delta
    [mirror update_mirror update_cell update_model onDocument log createElement
     cloneNode_shallow CodeCell_clone Cell_set_inputHidden Cell_set_outputHidden
     Notebook_set_activeCellIndex Editor_blur NotebookActions_run
     set_executionCount get_executionCount remove_part cleanCellClone
     createToolbarButton createToolbar new_Switch bindEventHandlers toolBarItems foldl
     createFromExistingCell_attach createFromExistingCell_bind
     new_FloatingWindow float land dispose new_Dropzone showDropzone closeClicked
     setTimeout clearTimeout
     set_document set_nextNode set_cells set_models set_notebook set_floatingWindows
     set_mirrors set_executionScheduled set_timers set_clock set_nextTimer set_trace
     document nextNode cells models notebook floatingWindows mirrors
     executionScheduled timers clock nextTimer trace fst snd
     widgets activeCellIndex].

(** Reading a field of an object that has just been written. *)
Ltac obj_simpl :=
  repeat first
    [ rewrite upd_lookup_total_eq
    | rewrite lookup_total_insert_eq
    | progress cbn [node toolbar cellNode editorNode outputNode originalExecutionCounter
                    _executionCount executionCounter placeholder stickyContent
                    originalCell cell toggle codemirror codeObserver outputObserver
                    autoRun autoRunTimeout isDisposed isFloating floatingWindow
                    set_node set_toolbar set_cellNode set_editorNode set_outputNode
                    set_originalExecutionCounter set__executionCount set_executionCounter
                    set_placeholder set_stickyContent set_originalCell set_cell set_toggle
                    set_codemirror set_codeObserver set_outputObserver set_autoRun
                    set_autoRunTimeout set_isDisposed set_isFloating set_floatingWindow
                    model inputHidden outputHidden parts hasFocus lineWrapping
                    set_model set_inputHidden set_outputHidden set_parts set_hasFocus
                    set_lineWrapping
                    tagName classList attributes childNodes innerText listeners
                    set_tagName set_classList set_attributes set_childNodes set_innerText
                    set_listeners ] ].

(** ** The execution-count display *)


Example decimal_3 : decimal 3 = "3". Proof. reflexivity. Qed.
Example decimal_42 : decimal 42 = "42". Proof. reflexivity. Qed.
Example decimal_0 : decimal 0 = "0". Proof. reflexivity. Qed.

Lemma set_executionCount_cells this v w : cells (set_executionCount this v w) = cells w.
Proof. reflexivity. Qed.

Lemma set_executionCount_mirrors this v w :
  mirrors (set_executionCount this v w) = upd this (set__executionCount v) (mirrors w).
Proof. reflexivity. Qed.

Lemma set_executionCount_trace this v w : trace (set_executionCount this v w) = trace w.
Proof. reflexivity. Qed.


(** ** State changes of the model *)

Lemma set_executionCount_originalCell this v w m :
  originalCell (mirror (set_executionCount this v w) m) = originalCell (mirror w m).
Proof.
  unfold mirror. rewrite set_executionCount_mirrors. by apply upd_preserved.
Qed.

(** C7.  When the handler of the model's state changes receives an
    execution-count change while the input of the canonical cell is hidden,
    the output of the canonical cell is hidden once the handler is done (and
    its input still is). *)
Theorem handleStateChange_keeps_output_hidden (this : MirrorId) (codeModel : ModelId)
    (args : IChangedArgs) (w : World) :
  name args = "executionCount" →
  inputHidden (cells w !!! originalCell (mirror w this)) = true →
  let w' := handleStateChange this codeModel args w in
  outputHidden (cells w' !!! originalCell (mirror w' this)) = true ∧
  inputHidden (cells w' !!! originalCell (mirror w' this)) = true.
Proof.
  intros Hname Hin. unfold handleStateChange. rewrite decide_True by done.
  set (w1 := set_executionCount this _ w).
  assert (cells w1 = cells w) as Hc by reflexivity.
  assert (originalCell (mirror w1 this) = originalCell (mirror w this)) as Hm
    by apply set_executionCount_originalCell.
  cbv zeta. clearbody w1. rewrite Hm, Hc, Hin.
  unfold Cell_set_outputHidden, mirror. cbn. fold (mirror w1 this).
  rewrite Hm, Hc, upd_lookup_total_eq. by cbn.
Qed.

(** ** Floating *)






(** ** Running the cell *)

Lemma execute_trace this restore w :
  trace (execute this restore w) =
  trace w ++ [SetActiveCellIndex (cellIndexOf this w); EditorBlur (cell (mirror w this));
              NotebookRun this (cellIndexOf this w)]
          ++ (if restore then [SetActiveCellIndex (activeCellIndex (notebook w))] else []).
Proof.
  unfold execute, cellIndexOf. destruct restore, w; world_lazy;
    rewrite <- ?app_assoc; reflexivity.
Qed.


Lemma execute_mirrors this restore w : mirrors (execute this restore w) = mirrors w.
Proof. unfold execute. by destruct restore. Qed.

Lemma execute_timers this restore w : timers (execute this restore w) = timers w.
Proof. unfold execute. by destruct restore. Qed.

Lemma execute_nextTimer this restore w : nextTimer (execute this restore w) = nextTimer w.
Proof. unfold execute. by destruct restore. Qed.

Lemma execute_clock this restore w : clock (execute this restore w) = clock w.
Proof. unfold execute. by destruct restore. Qed.

Lemma execute_executionScheduled this restore w :
  executionScheduled (execute this restore w) = executionScheduled w.
Proof. unfold execute. by destruct restore. Qed.



(** ** The timer callback *)


(** ** The keyboard shortcut *)


(** ** The factory *)

Section keeps.
Variable cd : MirrorId.

Lemma keeps_refl w : keeps cd w w.
Proof. done. Qed.

Lemma keeps_trans w1 w2 w3 : keeps cd w1 w2 → keeps cd w2 w3 → keeps cd w1 w3.
Proof.
  intros (A1 & S1 & B1 & C1) (A2 & S2 & B2 & C2). split; [|split; [|split]].
  - intros m Hm. by rewrite A2, A1.
  - auto.
  - by rewrite B2.
  - intros k. by rewrite C2.
Qed.

Lemma keeps_let w0 x (e : World) (b : World → World) :
  keeps cd w0 x → keeps cd x e → (∀ y, keeps cd w0 y → keeps cd w0 (b y)) →
  keeps cd w0 (let y := e in b y).
Proof. intros H1 H2 H3. apply H3. by eapply keeps_trans. Qed.

Lemma keeps_let_pair {A} w0 x (e : A * World) (b : A → World → World) :
  keeps cd w0 x → keeps cd x e.2 → (∀ n y, keeps cd w0 y → keeps cd w0 (b n y)) →
  keeps cd w0 (let '(n, y) := e in b n y).
Proof. intros H1 H2 H3. destruct e as [n y]. apply H3. by eapply keeps_trans. Qed.

Lemma keeps_update_mirror f w :
  (∀ o, identity_of (f o) = identity_of o) → keeps cd w (update_mirror cd f w).
Proof.
  intros Hf. split; [|split; [|split]]; [| |unfold mirror|done]; cbn.
  - intros m Hm. by rewrite upd_lookup_ne.
  - rewrite upd_lookup_eq. by eexists.
  - by rewrite upd_lookup_total_eq.
Qed.

Lemma keeps_update_cell k f w :
  (∀ o, visibility (f o) = visibility o) → keeps cd w (update_cell k f w).
Proof.
  intros Hf. split; [|split; [|split]]; [done|done|done|].
  intros k'. cbn. by apply upd_preserved.
Qed.

Lemma keeps_same w w' : mirrors w' = mirrors w → cells w' = cells w → keeps cd w w'.
Proof. intros Hm Hc. unfold keeps, mirror. by rewrite Hm, Hc. Qed.

Lemma keeps_set_executionCount v w : keeps cd w (set_executionCount cd v w).
Proof.
  split; [|split; [|split]]; unfold mirror;
    rewrite ?set_executionCount_mirrors, ?set_executionCount_cells.
  - intros m Hm. by rewrite upd_lookup_ne.
  - rewrite upd_lookup_eq. by eexists.
  - by rewrite upd_lookup_total_eq.
  - done.
Qed.

Lemma keeps_let_val {A} w0 (e : A) (b : A → World) :
  (∀ v, keeps cd w0 (b v)) → keeps cd w0 (let v := e in b v).
Proof. intros Hb. apply Hb. Qed.

Lemma keeps_remove_part k cls w : keeps cd w (remove_part k cls w).
Proof.
  unfold remove_part. eapply keeps_trans; [|by apply keeps_update_cell].
  by apply keeps_same.
Qed.

End keeps.

(** One statement of a method: the relation holds up to here, the
    statement keeps it, go on with the rest. *)
Ltac keeps_prim e :=
  lazymatch e with
  | update_mirror _ _ _ => apply keeps_update_mirror; by intros []
  | update_cell _ _ _ => apply keeps_update_cell; by intros []
  | set_executionCount _ _ _ => apply keeps_set_executionCount
  | remove_part _ _ _ => apply keeps_remove_part
  | _ => apply keeps_same; reflexivity
  end.

Ltac keeps_step op H :=
  lazymatch goal with
  | |- keeps ?cd ?w0 (let y := ?e in @?b y) =>
      lazymatch type of e with
      | World =>
          lazymatch type of H with
          | keeps _ _ ?x =>
              refine (keeps_let cd w0 x e b H _ _); clear H;
              [ op e | intros ? H; cbv beta ]
          end
      | _ => refine (keeps_let_val cd w0 e b _); intros ?; cbv beta
      end
  | |- keeps ?cd ?w0 (match ?e with pair n y => @?b n y end) =>
      lazymatch type of H with
      | keeps _ _ ?x =>
          refine (keeps_let_pair cd w0 x e b H _ _); clear H;
          [ apply keeps_same; reflexivity | intros ? ? H; cbv beta ]
      end
  end.

Lemma keeps_cleanCellClone_from cd w x :
  keeps cd w x → keeps cd w (cleanCellClone cd x).
Proof.
  intros H. cbv beta delta [cleanCellClone].
  repeat keeps_step keeps_prim H. eapply keeps_trans; [exact H|]. by apply keeps_same.
Qed.

Lemma keeps_cleanCellClone cd w : keeps cd w (cleanCellClone cd w).
Proof. apply keeps_cleanCellClone_from, keeps_refl. Qed.

Ltac keeps_op e :=
  lazymatch e with
  | cleanCellClone _ _ => apply keeps_cleanCellClone
  | _ => keeps_prim e
  end.

Lemma keeps_bind_from cd cm w x :
  keeps cd w x → keeps cd w (createFromExistingCell_bind cd cm x).
Proof.
  intros H. cbv beta delta [createFromExistingCell_bind].
  repeat keeps_step keeps_op H. exact H.
Qed.

Lemma keeps_bind cd cm w : keeps cd w (createFromExistingCell_bind cd cm w).
Proof. apply keeps_bind_from, keeps_refl. Qed.

Lemma bind_trace cd cm w : trace (createFromExistingCell_bind cd cm w) = trace w.
Proof. reflexivity. Qed.

Section attach.
Variables (cd : MirrorId) (sc : StickyContent) (c : CellId).

Lemma attach_mirrors_other w m :
  m ≠ cd → mirrors (createFromExistingCell_attach cd sc c w) !! m = mirrors w !! m.
Proof. intros. destruct w. world_lazy. by rewrite !upd_lookup_ne by done. Qed.

Lemma attach_allocated w :
  is_Some (mirrors (createFromExistingCell_attach cd sc c w) !! cd).
Proof. destruct w. world_lazy. rewrite upd_lookup_eq. by eexists. Qed.

Lemma attach_this w :
  let o := mirror (createFromExistingCell_attach cd sc c w) cd in
  originalCell o = c ∧ cell o = nextNode w ∧ stickyContent o = sc ∧
  isDisposed o = isDisposed (mirror w cd) ∧ isFloating o = isFloating (mirror w cd) ∧
  autoRun o = autoRun (mirror w cd) ∧ autoRunTimeout o = autoRunTimeout (mirror w cd).
Proof. destruct w. world_lazy. obj_simpl. done. Qed.

Lemma attach_hidden w :
  inputHidden (cells (createFromExistingCell_attach cd sc c w) !!! c) = true ∧
  outputHidden (cells (createFromExistingCell_attach cd sc c w) !!! c) = true.
Proof. destruct w. world_lazy. obj_simpl. done. Qed.

Lemma attach_trace w :
  trace (createFromExistingCell_attach cd sc c w) =
  trace w ++ [SetInputHidden c true; SetOutputHidden c true].
Proof. destruct w. world_lazy. obj_simpl. by rewrite <- app_assoc. Qed.

Lemma attach_clone_parts w :
  (parts (cells (createFromExistingCell_attach cd sc c w) !!! nextNode w)).*1 =
  (parts (cells w !!! c)).*1.
Proof.
  destruct w. world_lazy. obj_simpl.
  rewrite !(upd_preserved parts) by done. obj_simpl.
  apply fst_zip. by rewrite length_fmap, length_seq.
Qed.

End attach.

Lemma querySelector_is_Some cls cc :
  is_Some (querySelector cls cc) ↔ cls ∈ (parts cc).*1.
Proof.
  unfold querySelector. rewrite fmap_is_Some.
  induction (parts cc) as [|[k n] ps IH]; cbn.
  - split; [by intros [? [=]]|by intros ?%elem_of_nil].
  - rewrite elem_of_cons. case_bool_decide; cbn in *.
    + split; [by left|by eexists].
    + rewrite IH. split; [by right|]. by intros [[=]|].
Qed.

(** What a successful call of the factory leaves behind. *)
Lemma createFromExistingCell_Ok sc c w m w1 :
  createFromExistingCell sc c w = Ok m w1 →
  m = fresh (dom (mirrors w)) ∧
  (∀ m', m' ≠ m → mirrors w1 !! m' = mirrors w !! m') ∧
  mirrors w1 !! m = Some (mirror w1 m) ∧
  identity_of (mirror w1 m) = (c, nextNode w, sc, false, false, false, None) ∧
  visibility (cells w1 !!! c) = (true, true) ∧
  trace w1 = trace w ++ [SetInputHidden c true; SetOutputHidden c true].
Proof.
  intros E.
  assert (returned (createFromExistingCell sc c w) = Some m) as Hm by (by rewrite E).
  assert (world_of (createFromExistingCell sc c w) = w1) as Hw by (by rewrite E).
  clear E. revert Hm Hw. unfold createFromExistingCell.
  set (cd := fresh (dom (mirrors w))).
  set (w0 := set_mirrors (<[cd:=newStickyCode]> (mirrors w)) w).
  destruct (querySelector _ _) as [cm|]; cbn [returned world_of]; [|intros [=]].
  intros [= <-] <-.
  destruct (keeps_bind cd cm (createFromExistingCell_attach cd sc c w0))
    as (Ho & Hs & Hi & Hv).
  split; [done|]. split; [|split; [|split; [|split]]].
  - intros m' Hm'. rewrite Ho, attach_mirrors_other by done.
    subst w0; cbn. by rewrite lookup_insert_ne.
  - destruct (Hs (attach_allocated cd sc c w0)) as [o Ho'].
    unfold mirror. by rewrite lookup_total_alt, Ho'.
  - rewrite Hi. unfold identity_of.
    destruct (attach_this cd sc c w0) as (-> & -> & -> & -> & -> & -> & ->).
    unfold mirror. subst w0; cbn. by rewrite lookup_total_insert_eq.
  - rewrite Hv. unfold visibility.
    by destruct (attach_hidden cd sc c w0) as [-> ->].
  - by rewrite bind_trace, attach_trace.
Qed.

(** The factory returns whenever the canonical cell renders a CodeMirror
    editor. *)
Lemma createFromExistingCell_returns sc c w :
  "CodeMirror" ∈ (parts (cells w !!! c)).*1 →
  ∃ w1, createFromExistingCell sc c w = Ok (fresh (dom (mirrors w))) w1.
Proof.
  intros Hcm. unfold createFromExistingCell.
  set (cd := fresh (dom (mirrors w))).
  set (w0 := set_mirrors (<[cd:=newStickyCode]> (mirrors w)) w).
  destruct (querySelector _ _) as [cm|] eqn:Hq; [by eexists|].
  exfalso. apply eq_None_not_Some in Hq. apply Hq.
  apply querySelector_is_Some.
  destruct (attach_this cd sc c w0) as (_ & -> & _).
  by rewrite attach_clone_parts.
Qed.

(** ** One mirror per cell? *)

(** C1, as the code has it.  The factory makes no check for an existing
    mirror.  Called on a canonical cell that already has a live mirror (and
    renders a CodeMirror editor), it raises nothing: it returns a second
    live mirror of the same cell, hides the cell again, and leaves the
    object of the existing mirror as it was. *)
Theorem createFromExistingCell_second_mirror (sc : StickyContent) (c : CellId)
    (m : MirrorId) (cd : StickyCode) (w : World) :
  liveMirrorOf c m cd w →
  "CodeMirror" ∈ (parts (cells w !!! c)).*1 →
  ∃ m' w',
    createFromExistingCell sc c w = Ok m' w' ∧
    m' ≠ m ∧
    liveMirrorOf c m cd w' ∧
    liveMirrorOf c m' (mirror w' m') w' ∧
    visibility (cells w' !!! c) = (true, true).
Proof.
  intros (Hm & Hc & Hd) Hcm.
  destruct (createFromExistingCell_returns sc c w Hcm) as [w' Hw'].
  destruct (createFromExistingCell_Ok _ _ _ _ _ Hw') as (_ & Ho & Hs & Hi & Hv & _).
  assert (fresh (dom (mirrors w)) ≠ m) as Hne.
  { intros E. apply (is_fresh (dom (mirrors w))). rewrite E. by apply elem_of_dom. }
  exists (fresh (dom (mirrors w))), w'. split; [exact Hw'|]. clear Hw'.
  split; [done|]. split; [|split; [|done]].
  - split; [|done]. by rewrite Ho.
  - injection Hi as Hoc _ _ Hdis _ _ _. by split.
Qed.

Example demo_panel : (host_addPanel emptyWorld).1 = demoPanel.
Proof. reflexivity. Qed.

Example demo_cells : widgets (notebook demoWorld) = [3; 13; 23].
Proof. reflexivity. Qed.

Example mirrored_live : liveMirrorOf 3 0 (mirror mirroredWorld 0) mirroredWorld.
Proof. by vm_compute. Qed.

(** The claim C1 of the specification fails on the demo notebook: the
    second call for cell 3 raises no [DuplicateMirrorError], it returns
    mirror 1, a second live mirror of cell 3. *)
Lemma second_mirror_is_created :
  returned (createFromExistingCell demoPanel 3 mirroredWorld) = Some 1 ∧
  (∀ w', createFromExistingCell demoPanel 3 mirroredWorld ≠ Throw DuplicateMirrorError w') ∧
  originalCell (mirror (world_of (createFromExistingCell demoPanel 3 mirroredWorld)) 0) = 3 ∧
  originalCell (mirror (world_of (createFromExistingCell demoPanel 3 mirroredWorld)) 1) = 3 ∧
  isDisposed (mirror (world_of (createFromExistingCell demoPanel 3 mirroredWorld)) 0) = false ∧
  isDisposed (mirror (world_of (createFromExistingCell demoPanel 3 mirroredWorld)) 1) = false.
Proof.
  split; [by vm_compute|]. split; [|by vm_compute].
  intros w' E. apply (f_equal returned) in E. by vm_compute in E.
Qed.

(** [createFromExistingCell_second_mirror] on cell 3 of the demo notebook,
    which mirror 0 mirrors already. *)
Lemma createFromExistingCell_second_mirror_witness :
  liveMirrorOf 3 0 (mirror mirroredWorld 0) mirroredWorld ∧
  "CodeMirror" ∈ (parts (cells mirroredWorld !!! 3)).*1 ∧
  ∃ m' w',
    createFromExistingCell demoPanel 3 mirroredWorld = Ok m' w' ∧
    m' ≠ 0 ∧
    liveMirrorOf 3 0 (mirror mirroredWorld 0) w' ∧
    liveMirrorOf 3 m' (mirror w' m') w' ∧
    visibility (cells w' !!! 3) = (true, true).
Proof.
  assert (liveMirrorOf 3 0 (mirror mirroredWorld 0) mirroredWorld) as H1
    by (by vm_compute).
  assert ("CodeMirror" ∈ (parts (cells mirroredWorld !!! 3)).*1) as H2
    by (apply (bool_decide_unpack _); by vm_compute).
  split; [exact H1|]. split; [exact H2|].
  exact (createFromExistingCell_second_mirror demoPanel 3 0 _ mirroredWorld H1 H2).
Defined.

(** ** Closing a mirror *)

Lemma closeClicked_world this e w :
  (closeClicked this e w).2 =
  dispose this
    (showDropzone (stickyContent (mirror w this))
       (Cell_set_outputHidden (originalCell (mirror w this)) false
          (Cell_set_inputHidden (originalCell (mirror w this)) false w))).
Proof. reflexivity. Qed.

Lemma closeClicked_event this e w :
  defaultPrevented (closeClicked this e w).1 = true ∧
  propagationStopped (closeClicked this e w).1 = true.
Proof. done. Qed.

Lemma dispose_cells this w : cells (dispose this w) = cells w.
Proof. reflexivity. Qed.

Lemma dispose_trace this w : trace (dispose this w) = trace w ++ [Disposed this].
Proof. reflexivity. Qed.

Lemma dispose_isDisposed this w : isDisposed (mirror (dispose this w) this) = true.
Proof. destruct w. world_lazy. by obj_simpl. Qed.

(** C2.  Creating a mirror of a canonical cell hides the input and the
    output of the cell; closing the mirror makes both visible again, and
    does so before the mirror is disposed: [dispose] runs on a world in
    which the cell is visible and the mirror is still as it was, and the
    calls that show the cell come before the disposal in the trace. *)
Theorem create_then_close_restores_visibility (sc : StickyContent) (c : CellId)
    (w : World) (m : MirrorId) (w1 : World) (e : Event) :
  createFromExistingCell sc c w = Ok m w1 →
  let w2 := (closeClicked m e w1).2 in
  visibility (cells w1 !!! c) = (true, true) ∧
  visibility (cells w2 !!! c) = (false, false) ∧
  isDisposed (mirror w1 m) = false ∧
  isDisposed (mirror w2 m) = true ∧
  trace w2 = trace w1 ++ [SetInputHidden c false; SetOutputHidden c false;
                          ShowDropzone sc; Disposed m] ∧
  ∃ shown, w2 = dispose m shown ∧
           visibility (cells shown !!! c) = (false, false) ∧
           mirror shown m = mirror w1 m.
Proof.
  intros Hc. destruct (createFromExistingCell_Ok _ _ _ _ _ Hc) as (_ & _ & _ & Hi & Hv & _).
  clear Hc. injection Hi as Hoc _ Hsc Hdis _ _ _.
  split; [done|]. rewrite closeClicked_world, Hoc, Hsc.
  assert (visibility
            (cells (showDropzone sc
                      (Cell_set_outputHidden c false (Cell_set_inputHidden c false w1)))
             !!! c) = (false, false)) as Hshown.
  { destruct w1. world_lazy. unfold visibility. by obj_simpl. }
  split; [by rewrite dispose_cells|]. split; [done|].
  split; [apply dispose_isDisposed|]. split.
  - rewrite dispose_trace. destruct w1. world_lazy. by rewrite <- !app_assoc.
  - eexists. split; [reflexivity|]. split; [done|]. reflexivity.
Qed.

(** [create_then_close_restores_visibility] on cell 3 of the demo notebook. *)
Lemma create_then_close_restores_visibility_witness :
  createFromExistingCell demoPanel 3 demoWorld = Ok 0 mirroredWorld ∧
  visibility (cells mirroredWorld !!! 3) = (true, true) ∧
  visibility (cells (closeClicked 0 plainEnter mirroredWorld).2 !!! 3) = (false, false).
Proof.
  assert (createFromExistingCell demoPanel 3 demoWorld = Ok 0 mirroredWorld) as H
    by (by vm_compute).
  split; [exact H|].
  pose proof (create_then_close_restores_visibility demoPanel 3 demoWorld 0 mirroredWorld
                plainEnter H) as T.
  split; [exact (proj1 T)|exact (proj1 (proj2 T))].
Defined.

(** ** Float and land *)

Lemma land_noop this w : land this w = w.
Proof. reflexivity. Qed.

Lemma float_isFloating this w : isFloating (mirror (float this w) this) = true.
Proof. destruct w. world_lazy. by obj_simpl. Qed.

(** [float()] moves the children of the panel's wrapper: afterwards each of
    them has one parent, the clone of the wrapper in the floating window. *)
Example float_moves_subtree :
  childNodes (document mirroredWorld !!! wrapperNode demoPanel) = [1; 2] ∧
  Dom.parents 1 (document mirroredWorld) = [0] ∧
  Dom.parents 2 (document mirroredWorld) = [0] ∧
  childNodes (document (float 0 mirroredWorld) !!! wrapperNode demoPanel) = [] ∧
  Dom.parents 1 (document (float 0 mirroredWorld)) = [67] ∧
  Dom.parents 2 (document (float 0 mirroredWorld)) = [67] ∧
  Dom.parents 67 (document (float 0 mirroredWorld)) = [66] ∧
  (FloatingWindow.node <$> floatingWindow (mirror (float 0 mirroredWorld) 0)) = Some 66.
Proof. by vm_compute. Qed.

(** C4 does not hold of the code: [land()] has an empty body.  After
    [float()] and then [land()] on the mirror of the demo notebook, the
    mirror is still marked floating, the wrapper of the docked panel is
    still empty, and the subtree is still in the floating window. *)
Theorem float_then_land_stays_floating :
  isFloating (mirror mirroredWorld 0) = false ∧
  childNodes (document mirroredWorld !!! wrapperNode demoPanel) = [1; 2] ∧
  isFloating (mirror (land 0 (float 0 mirroredWorld)) 0) = true ∧
  childNodes (document (land 0 (float 0 mirroredWorld)) !!! wrapperNode demoPanel) = [] ∧
  Dom.parents 1 (document (land 0 (float 0 mirroredWorld))) = [67] ∧
  Dom.parents 2 (document (land 0 (float 0 mirroredWorld))) = [67].
Proof. by vm_compute. Qed.

(** ** Disposal *)



Lemma dispose_outputObserver this w :
  outputObserver (mirror (dispose this w) this) = outputObserver (mirror w this).
Proof. destruct w. world_lazy. by obj_simpl. Qed.

Lemma detach_childNodes n d k :
  childNodes (Dom.detach n d !!! k) = filter (λ c, c ≠ n) (childNodes (d !!! k)).
Proof.
  unfold Dom.detach. rewrite !lookup_total_alt, lookup_fmap.
  by destruct (d !! k).
Qed.



(** C5 does not hold of the code: [dispose()] disconnects the focus watcher
    only.  On the mirror of the demo notebook it does detach the focus
    watcher, dispose the toggle, remove the two nodes and mark the mirror
    disposed, and a second call changes neither the mirrors nor the
    document; but the output watcher still observes the output area (node
    40), and when the rendering engine next redraws the output, its handler
    still runs and strips the prompt from the tree of the disposed mirror. *)
Theorem dispose_leaves_output_watcher_attached :
  MutationObserver.targets (outputObserver (mirror mirroredWorld 0))
    = [(40, MutationObserver.ChildList)] ∧
  MutationObserver.targets (codeObserver (mirror (dispose 0 mirroredWorld) 0)) = [] ∧
  Switch.isDisposed (toggle (mirror (dispose 0 mirroredWorld) 0)) = true ∧
  Dom.parents (node (mirror mirroredWorld 0)) (document (dispose 0 mirroredWorld)) = [] ∧
  Dom.parents (toolbar (mirror mirroredWorld 0)) (document (dispose 0 mirroredWorld)) = [] ∧
  isDisposed (mirror (dispose 0 mirroredWorld) 0) = true ∧
  mirrors (dispose 0 (dispose 0 mirroredWorld)) = mirrors (dispose 0 mirroredWorld) ∧
  document (dispose 0 (dispose 0 mirroredWorld)) = document (dispose 0 mirroredWorld) ∧
  MutationObserver.targets (outputObserver (mirror (dispose 0 mirroredWorld) 0))
    = [(40, MutationObserver.ChildList)] ∧
  querySelector "jp-OutputPrompt"
    (cells (host_redrawOutput 33 (dispose 0 mirroredWorld)) !!! 33) = Some 66 ∧
  querySelector "jp-OutputPrompt"
    (cells (deliverMutations 0 40 MutationObserver.ChildList
              [{| attributeName := None; addedNodes := [66] |}]
              (host_redrawOutput 33 (dispose 0 mirroredWorld))) !!! 33) = None.
Proof. by vm_compute. Qed.

(** ** The execution scheduler *)

(** *** Lists *)

Section filters.
Context {A : Type} (P Q : A → Prop) `{!∀ x, Decision (P x)} `{!∀ x, Decision (Q x)}.

Lemma filter_agree (l : list A) :
  (∀ x, x ∈ l → P x ↔ Q x) → filter P l = filter Q l.
Proof.
  induction l as [|x l IH]; intros Hl; [done|].
  rewrite !filter_cons, IH by (intros; apply Hl; by right).
  assert (P x ↔ Q x) as Hx by (apply Hl; by left).
  destruct (decide (P x)) as [p|p], (decide (Q x)) as [q|q]; try done; tauto.
Qed.

Lemma filter_all (l : list A) : (∀ x, x ∈ l → P x) → filter P l = l.
Proof.
  induction l as [|x l IH]; intros Hl; [done|].
  rewrite filter_cons, IH by (intros; apply Hl; by right).
  rewrite decide_True; [done|]. apply Hl. by left.
Qed.

Lemma filter_none (l : list A) : (∀ x, x ∈ l → ¬ P x) → filter P l = [].
Proof.
  induction l as [|x l IH]; intros Hl; [done|].
  rewrite filter_cons, IH by (intros; apply Hl; by right).
  rewrite decide_False; [done|]. apply Hl. by left.
Qed.

Lemma filter_swap (l : list A) : filter P (filter Q l) = filter Q (filter P l).
Proof.
  induction l as [|x l IH]; [done|].
  rewrite !filter_cons.
  destruct (decide (P x)) as [p|p], (decide (Q x)) as [q|q];
    rewrite ?filter_cons, ?decide_True, ?decide_False by done; by rewrite IH.
Qed.

End filters.

Lemma NoDup_fmap_filter {A B} (f : A → B) (P : A → Prop) `{!∀ x, Decision (P x)}
    (l : list A) :
  NoDup (f <$> l) → NoDup (f <$> filter P l).
Proof.
  induction l as [|x l IH]; [done|]. rewrite filter_cons, fmap_cons.
  intros [Hx Hl]%list.NoDup_cons. destruct (decide (P x)); [|by apply IH].
  rewrite fmap_cons. apply list.NoDup_cons. split; [|by apply IH].
  intros Hin. apply Hx. apply list_elem_of_fmap in Hin as (y & -> & Hy).
  apply list_elem_of_fmap. exists y. split; [done|].
  by apply list_elem_of_filter in Hy as [_ ?].
Qed.

(** In a list without repeated keys, an element is found by its key. *)
Lemma NoDup_fmap_key {A B} (f : A → B) (l : list A) (x y : A) :
  NoDup (f <$> l) → x ∈ l → y ∈ l → f x = f y → x = y.
Proof.
  induction l as [|a l IH]; [by intros _ ?%elem_of_nil|]. rewrite fmap_cons.
  intros [Ha Hl]%list.NoDup_cons [->|Hx]%elem_of_cons [->|Hy]%elem_of_cons Hf; try done.
  - exfalso. apply Ha. rewrite Hf. apply list_elem_of_fmap. by exists y.
  - exfalso. apply Ha. rewrite <- Hf. apply list_elem_of_fmap. by exists x.
  - by apply IH.
Qed.

(** *** Timers and slots *)

Lemma timers_wf_twf w : timers_wf w → twf w.
Proof.
  intros (Hnd & Hlt & Hm). split; [done|]. split; [|split].
  - intros t Ht. by eapply list.Forall_forall in Hlt.
  - intros k id Hid. unfold mirror in Hid. rewrite lookup_total_alt in Hid.
    destruct (mirrors w !! k) as [o|] eqn:E; [|done].
    destruct (Hm k o E) as [Hb _]. cbn in Hid. by rewrite Hid in Hb.
  - intros k t Ht Hid. unfold mirror in Hid. rewrite lookup_total_alt in Hid.
    destruct (mirrors w !! k) as [o|] eqn:E; [|done].
    destruct (Hm k o E) as [_ Ho]. eapply list.Forall_forall in Ho; [|done]. by apply Ho.
Qed.

(** Cancelling timers keeps the handles in order. *)
Lemma twf_filter (P : Timer → Prop) `{!∀ t, Decision (P t)} w w' :
  timers w' = filter P (timers w) → mirrors w' = mirrors w →
  nextTimer w' = nextTimer w → twf w → twf w'.
Proof.
  intros Ht Hm Hn (Hnd & Hlt & Hslot & Hown). unfold twf, mirror. rewrite Ht, Hm, Hn.
  split; [by apply NoDup_fmap_filter|]. split; [|split].
  - intros t [_ Hin]%list_elem_of_filter. by apply Hlt.
  - done.
  - intros k t [_ Hin]%list_elem_of_filter. by apply Hown.
Qed.

Lemma static_refl m w : static m w w.
Proof. done. Qed.

Lemma static_trans m w1 w2 w3 : static m w1 w2 → static m w2 w3 → static m w1 w3.
Proof. intros (A1 & B1 & C1) (A2 & B2 & C2). unfold static. by rewrite A2, B2, C2. Qed.

(** *** The handler *)

Lemma onExecutionScheduled_idle k c w :
  c = originalCell (mirror w k) ∨ autoRun (mirror w k) = false →
  onExecutionScheduled k c w = w.
Proof.
  intros H. unfold onExecutionScheduled.
  destruct H as [->| ->]; [|by rewrite andb_false_r].
  by rewrite bool_decide_eq_false_2 by (by intros []).
Qed.

(** What a qualifying event does: the timer named in the slot, if any, is
    cancelled, a new one is armed, and the slot names it. *)
Lemma onExecutionScheduled_arm k c w :
  c ≠ originalCell (mirror w k) → autoRun (mirror w k) = true →
  timers (onExecutionScheduled k c w) =
    filter (λ t, autoRunTimeout (mirror w k) ≠ Some (timer_id t)) (timers w)
    ++ [{| timer_id := nextTimer w; due := clock w + 200; task := AutoRunTask k |}] ∧
  mirrors (onExecutionScheduled k c w) =
    upd k (set_autoRunTimeout (Some (nextTimer w))) (mirrors w) ∧
  nextTimer (onExecutionScheduled k c w) = S (nextTimer w) ∧
  clock (onExecutionScheduled k c w) = clock w ∧
  trace (onExecutionScheduled k c w) = trace w ∧
  executionScheduled (onExecutionScheduled k c w) = executionScheduled w.
Proof.
  intros Hc Ha. unfold onExecutionScheduled.
  rewrite bool_decide_eq_true_2, Ha by done. cbn [andb].
  destruct (autoRunTimeout (mirror w k)) as [id|]; cbn; repeat split.
  - f_equal. apply filter_agree. intros t _. split; [|intros ? ?]; congruence.
  - f_equal. symmetry. by apply filter_all.
Qed.

Global Instance qualifies_dec k c w : Decision (qualifies k c w).
Proof. unfold qualifies. apply _. Defined.

Lemma onExecutionScheduled_not_qualified k c w :
  ¬ qualifies k c w → onExecutionScheduled k c w = w.
Proof.
  intros Hq. apply onExecutionScheduled_idle.
  destruct (decide (c = originalCell (mirror w k))); [by left|right].
  destruct (autoRun (mirror w k)) eqn:E; [|done]. by destruct Hq.
Qed.

Lemma onExecutionScheduled_frame m k c w :
  static m w (onExecutionScheduled k c w) ∧
  clock (onExecutionScheduled k c w) = clock w ∧
  trace (onExecutionScheduled k c w) = trace w.
Proof.
  destruct (decide (qualifies k c w)) as [[Hc Ha]|Hq].
  - destruct (onExecutionScheduled_arm k c w Hc Ha) as (_ & Hm & _ & Hcl & Htr & Hes).
    unfold static, mirror. rewrite Hm, Hcl, Htr, Hes.
    by rewrite (upd_preserved autoRun), (upd_preserved originalCell) by done.
  - by rewrite onExecutionScheduled_not_qualified.
Qed.

Lemma onExecutionScheduled_twf k c w : twf w → twf (onExecutionScheduled k c w).
Proof.
  intros Hwf. destruct (decide (qualifies k c w)) as [[Hc Ha]|Hq];
    [|by rewrite onExecutionScheduled_not_qualified].
  destruct Hwf as (Hnd & Hlt & Hslot & Hown).
  destruct (onExecutionScheduled_arm k c w Hc Ha) as (Ht & Hm & Hn & _).
  unfold twf, mirror. rewrite Ht, Hm, Hn. split; [|split; [|split]].
  - rewrite fmap_app. apply list.NoDup_app. split; [by apply NoDup_fmap_filter|].
    split; [|apply NoDup_singleton].
    intros id Hid [->|[]%elem_of_nil]%elem_of_cons.
    apply list_elem_of_fmap in Hid as (t & Hid & [_ Hin]%list_elem_of_filter).
    apply Hlt in Hin. cbn in Hid. lia.
  - intros t [[_ Hin]%list_elem_of_filter|[->|[]%elem_of_nil]%elem_of_cons]%elem_of_app.
    + apply Hlt in Hin. lia.
    + cbn. lia.
  - intros k' id. destruct (decide (k = k')) as [<-|Hk].
    + rewrite upd_lookup_total_eq. cbn. intros [= <-]. lia.
    + rewrite upd_lookup_total_ne by done. intros Hid%Hslot. lia.
  - intros k' t Hin. destruct (decide (k = k')) as [<-|Hk].
    + rewrite upd_lookup_total_eq. cbn. intros [= Hid].
      apply elem_of_app in Hin as [[_ Hin]%list_elem_of_filter|Hin].
      * apply Hlt in Hin. lia.
      * by apply elem_of_cons in Hin as [->|[]%elem_of_nil].
    + rewrite upd_lookup_total_ne by done. intros Hid.
      apply elem_of_app in Hin as [[_ Hin]%list_elem_of_filter|Hin].
      * by apply Hown.
      * apply elem_of_cons in Hin as [->|[]%elem_of_nil]. cbn in Hid.
        apply Hslot in Hid. lia.
Qed.

Section scheduler.
Variable this : MirrorId.

Lemma pendingOf_elem t w : t ∈ pendingOf this w → t ∈ timers w ∧ task t = AutoRunTask this.
Proof. unfold pendingOf. rewrite list_elem_of_filter. tauto. Qed.

(** The handler of another mirror leaves the scheduler of [this] alone. *)
Lemma handler_other k c w p :
  k ≠ this → twf w → holds this p w → holds this p (onExecutionScheduled k c w).
Proof.
  intros Hk (Hnd & Hlt & Hslot & Hown) Hp.
  destruct (decide (qualifies k c w)) as [[Hc Ha]|Hq];
    [|by rewrite onExecutionScheduled_not_qualified].
  destruct (onExecutionScheduled_arm k c w Hc Ha) as (Ht & Hm & _).
  assert (pendingOf this (onExecutionScheduled k c w) = pendingOf this w) as Hpend.
  { unfold pendingOf. rewrite Ht, list.filter_app, filter_swap.
    rewrite filter_cons, decide_False, filter_nil, app_nil_r by (cbn; congruence).
    apply filter_all. intros t [Hmine Hin]%list_elem_of_filter Hid.
    specialize (Hown k t Hin Hid). congruence. }
  assert (autoRunTimeout (mirror (onExecutionScheduled k c w) this)
          = autoRunTimeout (mirror w this)) as Hslot'.
  { unfold mirror. by rewrite Hm, upd_lookup_total_ne. }
  destruct p as [|d]; cbn; by rewrite ?Hpend, ?Hslot'.
Qed.

(** Its own handler, on a qualifying event, leaves exactly one auto-run
    pending: the one it arms. *)
Lemma handler_this c w p :
  qualifies this c w → holds this p w →
  holds this (Armed (clock w + 200)) (onExecutionScheduled this c w).
Proof.
  intros [Hc Ha] Hp.
  destruct (onExecutionScheduled_arm this c w Hc Ha) as (Ht & Hm & _).
  exists (nextTimer w). split.
  - unfold mirror. by rewrite Hm, upd_lookup_total_eq.
  - unfold pendingOf. rewrite Ht, list.filter_app, filter_swap.
    rewrite filter_cons, decide_True, filter_nil by done.
    fold (pendingOf this w). destruct p as [|d]; cbn in Hp.
    + by rewrite Hp.
    + destruct Hp as (id & -> & ->).
      by rewrite filter_cons, decide_False, filter_nil by (cbn; intros H; by apply H).
Qed.

(** The event reaches every connected handler: for mirror [this] it ends
    armed if its handler is connected and the event qualifies, and as it
    was otherwise. *)
Lemma emit_fold c (l : list MirrorId) w p :
  twf w → holds this p w →
  let w' := foldl (λ w cd, onExecutionScheduled cd c w) w l in
  twf w' ∧ static this w w' ∧ clock w' = clock w ∧ trace w' = trace w ∧
  holds this (if decide (this ∈ l ∧ qualifies this c w) then Armed (clock w + 200) else p) w'.
Proof.
  revert w p. induction l as [|k l IH]; intros w p Hwf Hp.
  - cbn [foldl]. rewrite decide_False by (by intros [?%elem_of_nil _]).
    split; [done|]. split; [apply static_refl|]. by repeat (split; [done|]).
  - cbn [foldl].
    pose proof (onExecutionScheduled_twf k c w Hwf) as Hwf1.
    destruct (onExecutionScheduled_frame this k c w) as (Hst1 & Hcl1 & Htr1).
    set (w1 := onExecutionScheduled k c w) in *.
    assert (qualifies this c w1 ↔ qualifies this c w) as Hq.
    { unfold qualifies. destruct Hst1 as (-> & -> & _). done. }
    destruct (decide (k = this ∧ qualifies this c w)) as [[-> Hqual]|Hno].
    + pose proof (handler_this c w p Hqual Hp) as Hp1. fold w1 in Hp1.
      destruct (IH w1 _ Hwf1 Hp1) as (Hwf' & Hst' & Hcl' & Htr' & Hp').
      split; [done|]. split; [by eapply static_trans|].
      split; [congruence|]. split; [congruence|].
      rewrite decide_True by (split; [by left|done]).
      rewrite Hcl1 in Hp'. by destruct (decide _).
    + assert (holds this p w1) as Hp1.
      { destruct (decide (k = this)) as [->|Hk].
        - subst w1. rewrite onExecutionScheduled_not_qualified; [done|]. tauto.
        - by apply handler_other. }
      destruct (IH w1 _ Hwf1 Hp1) as (Hwf' & Hst' & Hcl' & Htr' & Hp').
      split; [done|]. split; [by eapply static_trans|].
      split; [congruence|]. split; [congruence|].
      rewrite Hcl1 in Hp'.
      destruct (decide (this ∈ l ∧ qualifies this c w1)) as [[Hin Hq1]|Hn1].
      * rewrite decide_True; [done|]. split; [by right|by apply Hq].
      * rewrite decide_False; [done|].
        intros [[->|Hin]%elem_of_cons Hq0]; [tauto|]. apply Hn1. split; [done|by apply Hq].
Qed.

Lemma emit_spec c w p :
  twf w → holds this p w →
  let w' := emit_executionScheduled c w in
  twf w' ∧ static this w w' ∧ clock w' = clock w ∧ runsOf this w' = runsOf this w ∧
  holds this (if decide (this ∈ executionScheduled w ∧ qualifies this c w)
         then Armed (clock w + 200) else p) w'.
Proof.
  intros Hwf Hp. destruct (emit_fold c (executionScheduled w) w p Hwf Hp)
    as (H1 & H2 & H3 & H4 & H5).
  unfold emit_executionScheduled, runsOf. by rewrite H4.
Qed.

(** *** Firing *)

Lemma fire_timers t w :
  timers (fire t w) = filter (λ t', timer_id t' ≠ timer_id t) (timers w).
Proof. unfold fire. destruct (task t). cbn [runTask]. by rewrite execute_timers. Qed.

Lemma fire_mirrors t w : mirrors (fire t w) = mirrors w.
Proof. unfold fire. destruct (task t). cbn [runTask]. by rewrite execute_mirrors. Qed.

Lemma fire_clock t w : clock (fire t w) = clock w.
Proof. unfold fire. destruct (task t). cbn [runTask]. by rewrite execute_clock. Qed.

Lemma fire_nextTimer t w : nextTimer (fire t w) = nextTimer w.
Proof. unfold fire. destruct (task t). cbn [runTask]. by rewrite execute_nextTimer. Qed.

Lemma fire_executionScheduled t w : executionScheduled (fire t w) = executionScheduled w.
Proof. unfold fire. destruct (task t). cbn [runTask]. by rewrite execute_executionScheduled. Qed.

Lemma fire_runs t w :
  runsOf this (fire t w) =
  runsOf this w + (if decide (task t = AutoRunTask this) then 1 else 0).
Proof.
  unfold fire, runsOf. destruct (task t) as [k]. cbn [runTask].
  rewrite execute_trace. cbn [trace set_timers].
  rewrite !List.filter_app, !length_app. cbn [List.filter isRunOf].
  destruct (decide (k = this)) as [->|Hk].
  - rewrite bool_decide_eq_true_2, decide_True by done. cbn. lia.
  - rewrite bool_decide_eq_false_2 by done.
    rewrite decide_False by (intros [= ?]; done). cbn. lia.
Qed.

Lemma fire_fold (l : list Timer) w :
  let w' := foldl (λ w t, fire t w) w l in
  timers w' = filter (λ t', timer_id t' ∉ timer_id <$> l) (timers w) ∧
  mirrors w' = mirrors w ∧ clock w' = clock w ∧ nextTimer w' = nextTimer w ∧
  executionScheduled w' = executionScheduled w ∧
  runsOf this w' = runsOf this w + length (filter (λ t, task t = AutoRunTask this) l).
Proof.
  revert w. induction l as [|t l IH]; intros w.
  - cbn. repeat split; [|lia]. symmetry. apply filter_all. intros t _. apply not_elem_of_nil.
  - cbn [foldl]. destruct (IH (fire t w)) as (Ht & Hm & Hc & Hn & He & Hr).
    rewrite Ht, Hm, Hc, Hn, He, Hr.
    rewrite fire_timers, fire_mirrors, fire_clock, fire_nextTimer,
      fire_executionScheduled, fire_runs.
    repeat split.
    + rewrite list_filter_filter. apply filter_agree. intros t' _.
      rewrite fmap_cons, not_elem_of_cons. tauto.
    + rewrite filter_cons. destruct (decide _); cbn [length]; lia.
Qed.

(** *** Time passing *)

Lemma elapse_spec d w p :
  twf w → holds this p w →
  let w' := elapse d w in
  twf w' ∧ static this w w' ∧ clock w' = clock w + d ∧
  match p with
  | Quiet => holds this Quiet w' ∧ runsOf this w' = runsOf this w
  | Armed due =>
      if decide (due ≤ clock w + d)
      then holds this Quiet w' ∧ runsOf this w' = S (runsOf this w)
      else holds this (Armed due) w' ∧ runsOf this w' = runsOf this w
  end.
Proof.
  intros Hwf Hp. unfold elapse. cbv zeta.
  set (w1 := set_clock (clock w + d) w).
  set (l := filter (λ t, due t ≤ clock w1) (timers w1)).
  destruct (fire_fold l w1) as (Ht & Hm & Hc & Hn & He & Hr).
  set (w' := foldl (λ w t, fire t w) w1 l) in *.
  change (timers w1) with (timers w) in *. change (mirrors w1) with (mirrors w) in *.
  change (clock w1) with (clock w + d) in *.
  change (nextTimer w1) with (nextTimer w) in *.
  change (executionScheduled w1) with (executionScheduled w) in *.
  change (runsOf this w1) with (runsOf this w) in *.
  assert (pendingOf this w' = filter (λ t', timer_id t' ∉ timer_id <$> l) (pendingOf this w))
    as Hpend by (unfold pendingOf; rewrite Ht; apply filter_swap).
  assert (filter (λ t, task t = AutoRunTask this) l
          = filter (λ t, due t ≤ clock w + d) (pendingOf this w)) as Hdue
    by apply filter_swap.
  rewrite Hdue in Hr.
  split; [by eapply twf_filter|]. split; [unfold static, mirror; by rewrite Hm, He|].
  split; [done|]. destruct p as [|due0]; cbn in Hp.
  - rewrite Hp in Hpend, Hr. cbn in *. split; [done|lia].
  - destruct Hp as (id & Hslot & Hp). rewrite Hp in Hpend, Hr.
    set (tm := {| timer_id := id; due := due0; task := AutoRunTask this |}) in *.
    assert (tm ∈ timers w) as Hin.
    { apply (pendingOf_elem tm w). rewrite Hp. by left. }
    rewrite filter_cons, filter_nil in Hr. rewrite filter_cons, filter_nil in Hpend.
    cbn [due tm] in Hr. destruct (decide (due0 ≤ clock w + d)) as [Hle|Hgt].
    + rewrite decide_False in Hpend.
      * split; [done|]. cbn in Hr. lia.
      * intros Hn'. apply Hn'. apply list_elem_of_fmap. exists tm. split; [done|].
        apply list_elem_of_filter. by split.
    + rewrite decide_True in Hpend.
      * split; [|cbn in Hr; lia]. exists id. split; [|done].
        unfold mirror. by rewrite Hm.
      * intros (t & Hid & [Hd Ht']%list_elem_of_filter)%list_elem_of_fmap.
        destruct Hwf as (Hnd & _).
        assert (tm = t) as <- by (by eapply (NoDup_fmap_key timer_id)).
        by cbn in Hd.
Qed.

(** *** A sequence of events *)

Lemma qualifies_static c w w' : static this w w' → qualifies this c w' ↔ qualifies this c w.
Proof. intros (Ha & Ho & _). unfold qualifies. by rewrite Ha, Ho. Qed.

Lemma play_cons ev evs w : play (ev :: evs) w = play evs (arrive ev w).
Proof. reflexivity. Qed.


(** While no event qualifies, nothing is armed and nothing runs. *)
Lemma play_quiet (evs : list (nat * CellId)) w :
  twf w → holds this Quiet w →
  (∀ ev, ev ∈ evs → ¬ qualifies this ev.2 w) →
  let w' := play evs w in
  twf w' ∧ holds this Quiet w' ∧ runsOf this w' = runsOf this w.
Proof.
  revert w. induction evs as [|[gap c] evs IH]; intros w Hwf Hp Hevs; [done|].
  assert (¬ qualifies this c w) as Hq by (apply (Hevs (gap, c)); by left).
  cbv zeta. rewrite play_cons. unfold arrive. cbn [fst snd].
  destruct (elapse_spec gap w _ Hwf Hp) as (Hwf1 & Hst1 & Hcl1 & Hp1 & Hr1).
  set (w1 := elapse gap w) in *.
  destruct (emit_spec c w1 _ Hwf1 Hp1) as (Hwf2 & Hst2 & Hcl2 & Hr2 & Hp2).
  rewrite decide_False in Hp2.
  2:{ intros [_ Hq1]. by apply Hq, (qualifies_static c w w1). }
  set (w2 := emit_executionScheduled c w1) in *.
  pose proof (static_trans _ _ _ _ Hst1 Hst2) as Hst.
  destruct (IH w2 Hwf2 Hp2) as (Hwf' & Hp' & Hr').
  - intros ev Hev Hq'. apply (Hevs ev); [by right|]. by apply (qualifies_static _ w w2).
  - split; [done|]. split; [done|]. by rewrite Hr', Hr2, Hr1.
Qed.


End scheduler.

Global Instance slot_wf_dec w k o : Decision (slot_wf w k o).
Proof. unfold slot_wf. destruct (autoRunTimeout o); cbn; apply _. Defined.

Global Instance timers_wf_dec w : Decision (timers_wf w).
Proof. unfold timers_wf. apply _. Defined.


(** *** On the demo notebook *)

(** Mirror 0 has its auto-run on; cells 13 and 23 are the other cells. *)
Example debounce_three_events :
  List.filter (isRunOf 0)
    (trace (elapse 200 (play [(0, 13); (50, 23); (199, 13)] autoRunWorld)))
  = [NotebookRun 0 0].
Proof. by vm_compute. Qed.

(** An event that comes after the timer of the one before was due starts
    a run of its own. *)
Example two_bursts_two_runs :
  runsOf 0 (elapse 200 (play [(0, 13); (200, 23)] autoRunWorld)) = 2.
Proof. by vm_compute. Qed.

Example own_cell_no_run :
  runsOf 0 (elapse 1000 (play [(0, 3); (50, 3)] autoRunWorld)) = 0 ∧
  runsOf 0 (elapse 1000 (play [(0, 13); (50, 23)] mirroredWorld)) = 0.
Proof. by vm_compute. Qed.




Example shift_enter_runs :
  trace (keydownHandler 0 shiftEnter (set_notebook {| widgets := [3; 13; 23];
                                                      activeCellIndex := 2 |} mirroredWorld)).2
  = trace mirroredWorld ++ [SetActiveCellIndex 0; EditorBlur 33; NotebookRun 0 0] ∧
  keydownHandler 0 plainEnter mirroredWorld = (plainEnter, mirroredWorld).
Proof. by vm_compute. Qed.


(** The scenario of the specification: the mirrored cell 3 has count 3 and
    is run.  While the run is pending the counter shows ["[*]"]; when the
    count settles to 4 it shows ["[4]"], and the output of the canonical
    cell, which the host had shown again for the run, is hidden. *)
Example count_pending_then_settled :
  let pending := (host_execute 3 4 mirroredWorld).1 in
  let settled := (host_execute 3 4 mirroredWorld).2 in
  innerText (document mirroredWorld !!! executionCounter (mirror mirroredWorld 0)) = "[3]" ∧
  innerText (document pending !!! executionCounter (mirror pending 0)) = "[*]" ∧
  innerText (document settled !!! executionCounter (mirror settled 0)) = "[4]" ∧
  visibility (cells settled !!! 3) = (true, true).
Proof. by vm_compute. Qed.

(** [handleStateChange_keeps_output_hidden] on the mirror of the demo
    notebook. *)
Lemma handleStateChange_keeps_output_hidden_witness :
  name executionCountChanged = "executionCount" ∧
  inputHidden (cells mirroredWorld !!! originalCell (mirror mirroredWorld 0)) = true ∧
  outputHidden
    (cells (handleStateChange 0 0 executionCountChanged mirroredWorld)
     !!! originalCell (mirror (handleStateChange 0 0 executionCountChanged mirroredWorld) 0))
  = true.
Proof.
  assert (name executionCountChanged = "executionCount") as H1 by reflexivity.
  assert (inputHidden (cells mirroredWorld !!! originalCell (mirror mirroredWorld 0)) = true)
    as H2 by (by vm_compute).
  split; [exact H1|]. split; [exact H2|].
  exact (proj1 (handleStateChange_keeps_output_hidden 0 0 executionCountChanged
                  mirroredWorld H1 H2)).
Defined.

(** * More properties of the class *)

(** ** More on the execution scheduler *)

(** Operations that leave the timers and the slots alone keep them in
    order, and keep the state of every scheduler. *)
Lemma twf_frame w w' :
  timers w' = timers w → nextTimer w' = nextTimer w →
  (∀ k, autoRunTimeout (mirror w' k) = autoRunTimeout (mirror w k)) →
  twf w → twf w'.
Proof.
  intros Ht Hn Hs (Hnd & Hlt & Hslot & Hown). unfold twf. rewrite Ht, Hn.
  split; [done|]. split; [done|]. split.
  - intros k id. rewrite Hs. apply Hslot.
  - intros k t. rewrite Hs. apply Hown.
Qed.

Lemma holds_frame this p w w' :
  timers w' = timers w →
  autoRunTimeout (mirror w' this) = autoRunTimeout (mirror w this) →
  holds this p w → holds this p w'.
Proof.
  intros Ht Hs. unfold holds, pendingOf. rewrite Ht, Hs. done.
Qed.

Lemma runsOf_frame this w w' :
  List.filter (isRunOf this) (trace w') = List.filter (isRunOf this) (trace w) →
  runsOf this w' = runsOf this w.
Proof. unfold runsOf. by intros ->. Qed.

Section bursts.
Variable this : MirrorId.



(** Whatever the events, the scheduler is quiet or armed with one timer. *)
Lemma play_phase (evs : list (nat * CellId)) w p :
  twf w → holds this p w → ∃ p', twf (play evs w) ∧ holds this p' (play evs w).
Proof.
  revert w p. induction evs as [|[gap c] evs IH]; intros w p Hwf Hp; [by eexists|].
  rewrite play_cons. unfold arrive. cbn [fst snd].
  destruct (elapse_spec this gap w _ Hwf Hp) as (Hwf1 & _ & _ & Hph1).
  set (w1 := elapse gap w) in *.
  assert (∃ p1, holds this p1 w1) as (p1 & Hp1).
  { destruct p as [|d]; [by exists Quiet; destruct Hph1|].
    destruct (decide _); destruct Hph1; by eexists. }
  destruct (emit_spec this c w1 _ Hwf1 Hp1) as (Hwf2 & _ & _ & _ & Hp2).
  by eapply IH.
Qed.

End bursts.



(** X2.  A mirror never has two auto-runs pending.  Starting with nothing
    pending, whatever execution-scheduled events come in, for whatever
    cells and at whatever times, at most one timer of the mirror is pending
    afterwards, and when one is, the pending-timer slot names it. *)
Theorem at_most_one_pending_timer (this : MirrorId) (evs : list (nat * CellId))
    (w : World) :
  timers_wf w →
  pendingOf this w = [] →
  length (pendingOf this (play evs w)) ≤ 1 ∧
  ∀ t, t ∈ pendingOf this (play evs w) →
       autoRunTimeout (mirror (play evs w) this) = Some (timer_id t).
Proof.
  intros Hwf%timers_wf_twf Hquiet.
  destruct (play_phase this evs w Quiet Hwf Hquiet) as ([|d] & _ & Hp); cbn in Hp.
  - rewrite Hp. split; [cbn; lia|]. by intros t ?%elem_of_nil.
  - destruct Hp as (id & Hslot & ->). split; [done|].
    by intros t [->|[]%elem_of_nil]%elem_of_cons.
Qed.

(** [at_most_one_pending_timer] on events for all three cells of the demo
    notebook. *)
Lemma at_most_one_pending_timer_witness :
  timers_wf autoRunWorld ∧ pendingOf 0 autoRunWorld = [] ∧
  length (pendingOf 0 (play [(0, 13); (50, 3); (10, 23); (300, 13)] autoRunWorld)) ≤ 1.
Proof.
  assert (timers_wf autoRunWorld) as H1 by (apply (bool_decide_unpack _); by vm_compute).
  assert (pendingOf 0 autoRunWorld = []) as H2 by (by vm_compute).
  split; [exact H1|]. split; [exact H2|].
  exact (proj1 (at_most_one_pending_timer 0 [(0, 13); (50, 3); (10, 23); (300, 13)]
                  autoRunWorld H1 H2)).
Defined.

(** ** The scheduler after switching off and after closing *)

Lemma switchClicked_frame this w :
  timers (switchClicked this w) = timers w ∧
  nextTimer (switchClicked this w) = nextTimer w ∧
  clock (switchClicked this w) = clock w ∧
  trace (switchClicked this w) = trace w ∧
  executionScheduled (switchClicked this w) = executionScheduled w ∧
  cells (switchClicked this w) = cells w.
Proof. unfold switchClicked. by destruct (Switch.isDisposed _). Qed.

Lemma switchClicked_fields this w k :
  autoRunTimeout (mirror (switchClicked this w) k) = autoRunTimeout (mirror w k) ∧
  originalCell (mirror (switchClicked this w) k) = originalCell (mirror w k) ∧
  isDisposed (mirror (switchClicked this w) k) = isDisposed (mirror w k).
Proof.
  unfold switchClicked, mirror, update_mirror.
  destruct (Switch.isDisposed _); cbn [mirrors set_mirrors];
    by rewrite ?(upd_preserved autoRunTimeout), ?(upd_preserved originalCell),
         ?(upd_preserved isDisposed) by done.
Qed.

Lemma switchClicked_autoRun this w :
  Switch.isDisposed (toggle (mirror w this)) = false →
  autoRun (mirror (switchClicked this w) this) = negb (Switch.value (toggle (mirror w this))) ∧
  Switch.value (toggle (mirror (switchClicked this w) this))
  = negb (Switch.value (toggle (mirror w this))).
Proof.
  intros Hd. unfold switchClicked. rewrite Hd. unfold mirror, update_mirror.
  cbn [mirrors set_mirrors]. by rewrite !upd_lookup_total_eq.
Qed.

Lemma switchClicked_twf this w : twf w → twf (switchClicked this w).
Proof.
  destruct (switchClicked_frame this w) as (Ht & Hn & _).
  apply twf_frame; [done|done|]. intros k. apply switchClicked_fields.
Qed.

Lemma switchClicked_holds this k p w : holds k p w → holds k p (switchClicked this w).
Proof.
  destruct (switchClicked_frame this w) as (Ht & _).
  apply holds_frame; [done|]. apply switchClicked_fields.
Qed.

(** X3.  Switching auto-run off does not cancel the pending auto-run.  When a
    timer of the mirror is pending and the user switches auto-run off, the
    timer stays pending, and when it is due the mirror asks for the run all
    the same; after that, no event makes it ask for another. *)
Theorem switching_off_keeps_pending_run (this : MirrorId) (t : Timer) (d : nat)
    (later : list (nat * CellId)) (settle : nat) (w : World) :
  timers_wf w →
  pendingOf this w = [t] →
  autoRunTimeout (mirror w this) = Some (timer_id t) →
  Switch.value (toggle (mirror w this)) = true →
  Switch.isDisposed (toggle (mirror w this)) = false →
  due t ≤ clock w + d →
  let w1 := switchClicked this w in
  autoRun (mirror w1 this) = false ∧
  pendingOf this w1 = [t] ∧
  runsOf this (elapse d w1) = runsOf this w + 1 ∧
  runsOf this (elapse settle (play later (elapse d w1))) = runsOf this w + 1.
Proof.
  intros Hwf%timers_wf_twf Hpend Hslot Hval Hdis Hdue w1.
  destruct (switchClicked_autoRun this w Hdis) as [Hoff _].
  rewrite Hval in Hoff. cbn in Hoff. fold w1 in Hoff.
  destruct (switchClicked_frame this w) as (Ht & _ & Hcl & Htr & _).
  assert (task t = AutoRunTask this) as Htask.
  { apply (pendingOf_elem this t w). rewrite Hpend. by left. }
  assert (holds this (Armed (due t)) w) as Hp.
  { exists (timer_id t). split; [done|]. rewrite Hpend. destruct t. cbn in *. by subst. }
  pose proof (switchClicked_twf this w Hwf) as Hwf1.
  pose proof (switchClicked_holds this this _ w Hp) as Hp1. fold w1 in Hwf1, Hp1.
  assert (runsOf this w1 = runsOf this w) as Hr1 by (unfold runsOf, w1; by rewrite Htr).
  split; [done|]. split; [unfold pendingOf, w1; by rewrite Ht|].
  destruct (elapse_spec this d w1 _ Hwf1 Hp1) as (Hwf2 & Hst2 & _ & Hfin).
  rewrite decide_True in Hfin by (unfold w1; rewrite Hcl; done).
  destruct Hfin as [Hp2 Hr2]. split; [lia|].
  set (w2 := elapse d w1) in *.
  destruct (play_quiet this later w2 Hwf2 Hp2) as (Hwf3 & Hp3 & Hr3).
  - intros ev _ [_ Hon]. destruct Hst2 as (Ha & _). congruence.
  - destruct (elapse_spec this settle _ _ Hwf3 Hp3) as (_ & _ & _ & _ & ->). lia.
Qed.

(** [switching_off_keeps_pending_run] on the demo mirror, switched off 50 ms
    after an event for cell 13. *)
Lemma switching_off_keeps_pending_run_witness :
  timers_wf armedWorld ∧ pendingOf 0 armedWorld = [armedTimer] ∧
  autoRun (mirror (switchClicked 0 armedWorld) 0) = false ∧
  runsOf 0 (elapse 200 (switchClicked 0 armedWorld)) = runsOf 0 armedWorld + 1.
Proof.
  assert (timers_wf armedWorld) as H1 by (apply (bool_decide_unpack _); by vm_compute).
  assert (pendingOf 0 armedWorld = [armedTimer]) as H2 by (by vm_compute).
  assert (autoRunTimeout (mirror armedWorld 0) = Some (timer_id armedTimer)) as H3
    by (by vm_compute).
  assert (Switch.value (toggle (mirror armedWorld 0)) = true) as H4 by (by vm_compute).
  assert (Switch.isDisposed (toggle (mirror armedWorld 0)) = false) as H5 by (by vm_compute).
  assert (due armedTimer ≤ clock armedWorld + 200) as H6 by (vm_compute; lia).
  split; [exact H1|]. split; [exact H2|].
  pose proof (switching_off_keeps_pending_run 0 armedTimer 200 [] 0 armedWorld
                H1 H2 H3 H4 H5 H6) as T.
  split; [exact (proj1 T)|exact (proj1 (proj2 (proj2 T)))].
Defined.

Lemma dispose_frame this w :
  timers (dispose this w) = timers w ∧
  nextTimer (dispose this w) = nextTimer w ∧
  clock (dispose this w) = clock w ∧
  executionScheduled (dispose this w) = executionScheduled w ∧
  models (dispose this w) = models w ∧
  notebook (dispose this w) = notebook w.
Proof. done. Qed.







(** X5.  The handler of one mirror leaves the timers of the others alone.
    With timer handles handed out once, an execution-scheduled event
    handled for mirror [this] cancels no pending timer of another mirror
    and arms none for it, even when the slot of [this] still holds the
    handle of a timer that has fired; the slot of the other mirror is as it
    was. *)
Theorem handler_leaves_other_mirrors (this k : MirrorId) (c : CellId) (w : World) :
  timers_wf w →
  k ≠ this →
  pendingOf k (onExecutionScheduled this c w) = pendingOf k w ∧
  autoRunTimeout (mirror (onExecutionScheduled this c w) k) = autoRunTimeout (mirror w k) ∧
  timers_wf (onExecutionScheduled this c w).
Proof.
  intros Hwf Hk.
  assert (timers_wf (onExecutionScheduled this c w)) as Hwf'.
  { destruct (decide (qualifies this c w)) as [[Hc Ha]|Hq];
      [|by rewrite onExecutionScheduled_not_qualified].
    destruct Hwf as (Hnd & Hlt & Hslots).
    destruct (onExecutionScheduled_arm this c w Hc Ha) as (Ht & Hm & Hn & _).
    unfold timers_wf. rewrite Ht, Hm, Hn. split; [|split].
    - rewrite fmap_app. apply list.NoDup_app. split; [by apply NoDup_fmap_filter|].
      split; [|apply NoDup_singleton].
      intros id Hid [->|[]%elem_of_nil]%elem_of_cons.
      apply list_elem_of_fmap in Hid as (t & Hid & [_ Hin]%list_elem_of_filter).
      eapply list.Forall_forall in Hlt; [|done]. cbn in Hid. lia.
    - apply list.Forall_app. split.
      + apply list.Forall_forall. intros t [_ Hin]%list_elem_of_filter.
        eapply list.Forall_forall in Hlt; [|done]. lia.
      + apply list.Forall_singleton. cbn. lia.
    - intros j o Hj. unfold slot_wf. rewrite Ht, Hn.
      destruct (decide (this = j)) as [<-|Hne].
      + rewrite upd_lookup_eq in Hj. injection Hj as <-. split; [cbn; lia|].
        cbn. apply list.Forall_app. split.
        * apply list.Forall_forall. intros t [_ Hin]%list_elem_of_filter [= Hid].
          eapply list.Forall_forall in Hlt; [|done]. lia.
        * by apply list.Forall_singleton.
      + rewrite upd_lookup_ne in Hj by done. destruct (Hslots j o Hj) as [Hb Hown].
        split.
        * destruct (autoRunTimeout o); cbn in *; lia.
        * apply list.Forall_app. split.
          -- apply list.Forall_forall. intros t [_ Hin]%list_elem_of_filter.
             by eapply list.Forall_forall in Hown.
          -- apply list.Forall_singleton. cbn. intros Hid. rewrite Hid in Hb. cbn in Hb. lia. }
  split; [|split; [|done]].
  - destruct (decide (qualifies this c w)) as [[Hc Ha]|Hq];
      [|by rewrite onExecutionScheduled_not_qualified].
    apply timers_wf_twf in Hwf as (_ & _ & _ & Hown).
    destruct (onExecutionScheduled_arm this c w Hc Ha) as (Ht & _).
    unfold pendingOf. rewrite Ht, list.filter_app.
    rewrite (filter_none _ [_]).
    2:{ intros t ->%list_elem_of_singleton. cbn. by intros [= ->]. }
    rewrite app_nil_r, filter_swap. apply filter_all.
    intros t [Htask Hin]%list_elem_of_filter Hid.
    apply (Hown this t Hin) in Hid. congruence.
  - destruct (decide (qualifies this c w)) as [[Hc Ha]|Hq];
      [|by rewrite onExecutionScheduled_not_qualified].
    destruct (onExecutionScheduled_arm this c w Hc Ha) as (_ & Hm & _).
    unfold mirror. rewrite Hm. by rewrite upd_lookup_total_ne.
Qed.

(** [handler_leaves_other_mirrors] on the two mirrors of the first cell of
    the demo notebook, both with auto-run on: an event for cell 13 has
    armed a timer for each, and a second event is handled for mirror 1. *)
Lemma handler_leaves_other_mirrors_witness :
  timers_wf twoArmedWorld ∧
  length (pendingOf 0 twoArmedWorld) = 1 ∧
  pendingOf 0 (onExecutionScheduled 1 23 twoArmedWorld) = pendingOf 0 twoArmedWorld.
Proof.
  assert (timers_wf twoArmedWorld) as H1 by (apply (bool_decide_unpack _); by vm_compute).
  assert (0 ≠ 1) as H2 by lia.
  split; [exact H1|]. split; [by vm_compute|].
  exact (proj1 (handler_leaves_other_mirrors 1 0 23 twoArmedWorld H1 H2)).
Defined.

(** ** More on disposal *)








(** ** More on the factory *)

Section attach_more.
Variables (cd : MirrorId) (sc : StickyContent) (c : CellId).

Lemma attach_frame w :
  let w' := createFromExistingCell_attach cd sc c w in
  executionScheduled w' = executionScheduled w ∧ models w' = models w ∧
  notebook w' = notebook w ∧ timers w' = timers w ∧ nextTimer w' = nextTimer w ∧
  clock w' = clock w ∧ floatingWindows w' = floatingWindows w.
Proof. destruct w. world_lazy. done. Qed.

Lemma attach_clone_model w :
  model (cells (createFromExistingCell_attach cd sc c w) !!! nextNode w)
  = model (cells w !!! c).
Proof.
  destruct w. world_lazy. obj_simpl. rewrite !(upd_preserved model) by done.
  by obj_simpl.
Qed.

End attach_more.

Lemma bind_frame cd cm w :
  let w' := createFromExistingCell_bind cd cm w in
  executionScheduled w' = executionScheduled w ++ [cd] ∧
  notebook w' = notebook w ∧ timers w' = timers w ∧ nextTimer w' = nextTimer w ∧
  clock w' = clock w ∧ floatingWindows w' = floatingWindows w.
Proof. done. Qed.

Lemma bind_models cd cm w :
  models (createFromExistingCell_bind cd cm w)
  = upd (model (cells w !!! cell (mirror w cd)))
      (λ m, {| executionCount := executionCount m; isDirty := isDirty m;
               stateChanged := stateChanged m ++ [cd] |}) (models w).
Proof.
  destruct w. world_lazy. by obj_simpl.
Qed.

Lemma bind_clone_model cd cm w k :
  model (cells (createFromExistingCell_bind cd cm w) !!! k) = model (cells w !!! k).
Proof.
  destruct w. world_lazy. by rewrite !(upd_preserved model) by done.
Qed.

(** The two ways a call of the factory ends. *)
Lemma createFromExistingCell_cases sc c w :
  let cd := fresh (dom (mirrors w)) in
  let wa := createFromExistingCell_attach cd sc c
              (set_mirrors (<[cd := newStickyCode]> (mirrors w)) w) in
  (createFromExistingCell sc c w = Throw TypeError wa ∧
   "CodeMirror" ∉ (parts (cells w !!! c)).*1) ∨
  (∃ cm, createFromExistingCell sc c w = Ok cd (createFromExistingCell_bind cd cm wa) ∧
         "CodeMirror" ∈ (parts (cells w !!! c)).*1).
Proof.
  cbv zeta. unfold createFromExistingCell.
  set (cd := fresh (dom (mirrors w))).
  set (w0 := set_mirrors (<[cd:=newStickyCode]> (mirrors w)) w).
  assert (∀ o, querySelector "CodeMirror"
                 (cells (createFromExistingCell_attach cd sc c w0)
                  !!! cell (mirror (createFromExistingCell_attach cd sc c w0) cd)) = o →
               is_Some o ↔ "CodeMirror" ∈ (parts (cells w !!! c)).*1) as Hcm.
  { intros o <-. rewrite querySelector_is_Some.
    destruct (attach_this cd sc c w0) as (_ & -> & _).
    by rewrite attach_clone_parts. }
  destruct (querySelector _ _) as [cm|]; specialize (Hcm _ eq_refl).
  - right. exists cm. split; [reflexivity|]. by apply Hcm.
  - left. split; [reflexivity|]. intros H%Hcm. by destruct H.
Qed.

Lemma createFromExistingCell_Ok_inv sc c w m w' :
  createFromExistingCell sc c w = Ok m w' →
  let cd := fresh (dom (mirrors w)) in
  let wa := createFromExistingCell_attach cd sc c
              (set_mirrors (<[cd := newStickyCode]> (mirrors w)) w) in
  m = cd ∧ ∃ cm, w' = createFromExistingCell_bind cd cm wa.
Proof.
  intros E cd wa.
  assert (returned (createFromExistingCell sc c w) = Some m) as Hm by (by rewrite E).
  assert (world_of (createFromExistingCell sc c w) = w') as Hw by (by rewrite E).
  clear E. destruct (createFromExistingCell_cases sc c w) as [[H _]|(cm & H & _)];
    rewrite H in Hm, Hw; clear H; cbn [returned world_of] in Hm, Hw.
  - clear Hw. discriminate Hm.
  - split; [by injection Hm|]. exists cm. by symmetry.
Qed.

(** X7.  The factory fails halfway when the cell has no editor.  When the
    canonical cell renders no CodeMirror node, the call throws a
    [TypeError] at the first use of the editor, after the cell has been
    collapsed and before any handler is connected: the cell is left with
    its input and output hidden, the half-built mirror exists, and the
    other mirrors, the models and the list of execution-scheduled handlers
    are as they were. *)
Theorem createFromExistingCell_without_editor (sc : StickyContent) (c : CellId)
    (w : World) :
  "CodeMirror" ∉ (parts (cells w !!! c)).*1 →
  ∃ w',
    createFromExistingCell sc c w = Throw TypeError w' ∧
    visibility (cells w' !!! c) = (true, true) ∧
    trace w' = trace w ++ [SetInputHidden c true; SetOutputHidden c true] ∧
    originalCell (mirror w' (fresh (dom (mirrors w)))) = c ∧
    (∀ m, m ≠ fresh (dom (mirrors w)) → mirrors w' !! m = mirrors w !! m) ∧
    executionScheduled w' = executionScheduled w ∧
    models w' = models w.
Proof.
  intros Hcm. destruct (createFromExistingCell_cases sc c w) as [[H _]|(cm & _ & Hin)];
    [|done].
  eexists. split; [exact H|]. clear H.
  set (cd := fresh (dom (mirrors w))).
  set (w0 := set_mirrors (<[cd:=newStickyCode]> (mirrors w)) w).
  split; [|split; [|split; [|split; [|split]]]].
  - unfold visibility. by destruct (attach_hidden cd sc c w0) as [-> ->].
  - by rewrite attach_trace.
  - by destruct (attach_this cd sc c w0) as (-> & _).
  - intros m Hm. rewrite attach_mirrors_other by done. subst w0. cbn.
    by rewrite lookup_insert_ne.
  - by destruct (attach_frame cd sc c w0) as (-> & _).
  - by destruct (attach_frame cd sc c w0) as (_ & -> & _).
Qed.

(** [createFromExistingCell_without_editor] on the first cell of the demo
    notebook, rendered without an editor. *)
Lemma createFromExistingCell_without_editor_witness :
  ("CodeMirror" ∉ (parts (cells noEditorWorld !!! 3)).*1) ∧
  ∃ w',
    createFromExistingCell demoPanel 3 noEditorWorld = Throw TypeError w' ∧
    visibility (cells w' !!! 3) = (true, true).
Proof.
  assert ("CodeMirror" ∉ (parts (cells noEditorWorld !!! 3)).*1) as H
    by (apply (bool_decide_unpack _); by vm_compute).
  split; [exact H|].
  destruct (createFromExistingCell_without_editor demoPanel 3 noEditorWorld H)
    as (w' & E & Hv & _).
  exists w'. by split.
Defined.

(** X8.  What a new mirror listens to.  A successful call of the factory
    returns a mirror under a new name; its clone shares the content model
    of the canonical cell; the mirror is connected, last in line, to the
    state changes of that model and to the execution-scheduled events.  The
    call changes neither the execution count nor the dirty flag of any
    model, nor the notebook, the timers or the floating windows. *)
Theorem createFromExistingCell_connects (sc : StickyContent) (c : CellId) (w : World)
    (m : MirrorId) (w' : World) :
  createFromExistingCell sc c w = Ok m w' →
  (m ∉ dom (mirrors w)) ∧
  model (cells w' !!! cell (mirror w' m)) = model (cells w !!! c) ∧
  executionScheduled w' = executionScheduled w ++ [m] ∧
  stateChanged (models w' !!! model (cells w !!! c))
  = stateChanged (models w !!! model (cells w !!! c)) ++ [m] ∧
  (∀ k, k ≠ model (cells w !!! c) → models w' !! k = models w !! k) ∧
  (∀ k, executionCount (models w' !!! k) = executionCount (models w !!! k) ∧
        isDirty (models w' !!! k) = isDirty (models w !!! k)) ∧
  notebook w' = notebook w ∧
  timers w' = timers w ∧
  floatingWindows w' = floatingWindows w.
Proof.
  intros E.
  destruct (createFromExistingCell_Ok _ _ _ _ _ E) as (_ & _ & _ & Hi & _).
  injection Hi as _ Hcell _ _ _ _ _.
  apply createFromExistingCell_Ok_inv in E as (Hm & cm & Hw).
  set (cd := fresh (dom (mirrors w))) in *.
  set (w0 := set_mirrors (<[cd:=newStickyCode]> (mirrors w)) w) in *.
  set (wa := createFromExistingCell_attach cd sc c w0) in *.
  rewrite Hm in *. clear Hm m.
  assert (cell (mirror wa cd) = nextNode w) as Hca
    by exact (proj1 (proj2 (attach_this cd sc c w0))).
  assert (model (cells wa !!! nextNode w) = model (cells w !!! c)) as Hmod
    by apply (attach_clone_model cd sc c w0).
  destruct (attach_frame cd sc c w0) as (Hes & Hms & Hnb & Htm & _ & _ & Hfw).
  fold wa in Hes, Hms, Hnb, Htm, Hfw.
  destruct (bind_frame cd cm wa) as (Hes' & Hnb' & Htm' & _ & _ & Hfw').
  split; [apply is_fresh|]. split; [by rewrite Hcell, Hw, bind_clone_model|].
  clear Hcell. rewrite Hw. clear Hw w'.
  split; [by rewrite Hes', Hes|].
  rewrite bind_models, Hca, Hmod, Hms. change (models w0) with (models w).
  split; [by rewrite upd_lookup_total_eq|]. split; [intros k Hk; by rewrite upd_lookup_ne|].
  split.
  { intros k. split; [by apply (upd_preserved executionCount)|by apply (upd_preserved isDirty)]. }
  split; [by rewrite Hnb', Hnb|]. split; [by rewrite Htm', Htm|]. by rewrite Hfw', Hfw.
Qed.

(** [createFromExistingCell_connects] on the first cell of the demo
    notebook. *)
Lemma createFromExistingCell_connects_witness :
  createFromExistingCell demoPanel 3 demoWorld = Ok 0 mirroredWorld ∧
  executionScheduled mirroredWorld = executionScheduled demoWorld ++ [0] ∧
  notebook mirroredWorld = notebook demoWorld.
Proof.
  assert (createFromExistingCell demoPanel 3 demoWorld = Ok 0 mirroredWorld) as H
    by (by vm_compute).
  split; [exact H|].
  pose proof (createFromExistingCell_connects demoPanel 3 demoWorld 0 mirroredWorld H) as T.
  split; [exact (proj1 (proj2 (proj2 T)))|].
  exact (proj1 (proj2 (proj2 (proj2 (proj2 (proj2 (proj2 T))))))).
Defined.

(** ** The counter of a new mirror *)

Lemma keeps_text_update n g :
  (∀ e, innerText (g e) = innerText e) → keeps_text (Dom.update n g).
Proof. intros Hg d x. unfold Dom.update. by apply upd_preserved. Qed.

Lemma keeps_text_detach n : keeps_text (Dom.detach n).
Proof.
  intros d x. unfold Dom.detach. rewrite !lookup_total_alt, lookup_fmap.
  by destruct (d !! x).
Qed.

Lemma keeps_text_compose f g : keeps_text f → keeps_text g → keeps_text (λ d, f (g d)).
Proof. intros Hf Hg d x. by rewrite Hf, Hg. Qed.

Lemma keeps_text_appendChild p c : keeps_text (Dom.appendChild p c).
Proof.
  unfold Dom.appendChild.
  apply (keeps_text_compose (Dom.update p _) (Dom.detach c));
    [by apply keeps_text_update|apply keeps_text_detach].
Qed.

Lemma keeps_text_insertBefore p n r : keeps_text (Dom.insertBefore p n r).
Proof.
  unfold Dom.insertBefore.
  apply (keeps_text_compose (Dom.update p _) (Dom.detach n));
    [by apply keeps_text_update|apply keeps_text_detach].
Qed.

Lemma keeps_text_opt o f : (∀ n, keeps_text (f n)) → keeps_text (Dom.opt o f).
Proof. intros Hf. destruct o; [apply Hf|done]. Qed.

Create HintDb keeps_text discriminated.
#[export] Hint Resolve keeps_text_detach keeps_text_appendChild keeps_text_insertBefore
  keeps_text_opt : keeps_text.

Lemma keeps_text_classList_add n cls : keeps_text (Dom.classList_add n cls).
Proof. by apply keeps_text_update. Qed.

Lemma keeps_text_classList_remove n cls : keeps_text (Dom.classList_remove n cls).
Proof. by apply keeps_text_update. Qed.

Lemma keeps_text_setAttribute n k v : keeps_text (Dom.setAttribute n k v).
Proof. by apply keeps_text_update. Qed.

Lemma keeps_text_addEventListener n ty l : keeps_text (Dom.addEventListener n ty l).
Proof. by apply keeps_text_update. Qed.

Lemma keeps_text_remove n : keeps_text (Dom.remove n).
Proof. apply keeps_text_detach. Qed.

#[export] Hint Resolve keeps_text_classList_add keeps_text_classList_remove
  keeps_text_setAttribute keeps_text_addEventListener keeps_text_remove : keeps_text.

(** Stepping through the statements of a method with an invariant. *)
Lemma inv_let (I Q : World → Prop) (e : World) (b : World → World) :
  I e → (∀ y, I y → Q (b y)) → Q (let y := e in b y).
Proof. intros He Hb. by apply Hb. Qed.

Lemma inv_let_pair {A} (I Q : World → Prop) (e : A * World) (b : A → World → World) :
  I e.2 → (∀ n y, I y → Q (b n y)) → Q (let '(n, y) := e in b n y).
Proof. intros He Hb. destruct e. by apply Hb. Qed.

Lemma inv_let_val {A} (Q : World → Prop) (e : A) (b : A → World) :
  (∀ v, Q (b v)) → Q (let v := e in b v).
Proof. intros Hb. apply Hb. Qed.

Section shows.
Variables (cd : MirrorId) (x : NodeId) (v : option Z).

Lemma shows_same w w' :
  nextNode w' = nextNode w → document w' = document w → mirrors w' = mirrors w →
  shows cd x v w → shows cd x v w'.
Proof. unfold shows, mirror. by intros -> -> ->. Qed.

Lemma shows_onDocument f w :
  keeps_text f → shows cd x v w → shows cd x v (onDocument f w).
Proof.
  intros Hf (H1 & H2 & H3 & H4). split; [done|]. split; [done|]. split; [done|].
  cbn. by rewrite Hf.
Qed.

Lemma shows_update_mirror k g w :
  (∀ o, executionCounter (g o) = executionCounter o) →
  (∀ o, _executionCount (g o) = _executionCount o) →
  shows cd x v w → shows cd x v (update_mirror k g w).
Proof.
  intros Hg1 Hg2 (H1 & H2 & H3 & H4). unfold shows, mirror. cbn.
  by rewrite (upd_preserved executionCounter), (upd_preserved _executionCount).
Qed.

Lemma shows_createElement tag w :
  shows cd x v w → shows cd x v (createElement tag w).2.
Proof.
  intros (H1 & H2 & H3 & H4). unfold shows, mirror. cbn.
  split; [lia|]. split; [done|]. split; [done|].
  rewrite lookup_total_insert_ne by lia. done.
Qed.

Lemma shows_remove_part k cls w : shows cd x v w → shows cd x v (remove_part k cls w).
Proof.
  intros H. unfold remove_part. eapply shows_same; [..|apply shows_onDocument, H]; try done.
  auto with keeps_text.
Qed.

End shows.

Ltac shows_prim e H :=
  lazymatch e with
  | update_mirror _ _ _ => apply shows_update_mirror; [by intros []|by intros []|exact H]
  | remove_part _ _ _ => apply shows_remove_part; exact H
  | onDocument _ _ => apply shows_onDocument; [auto with keeps_text|exact H]
  | bindEventHandlers _ _ => apply shows_onDocument; [auto with keeps_text|exact H]
  | _ => apply (shows_same _ _ _ _ _ eq_refl eq_refl eq_refl H)
  end.

Ltac shows_step op H :=
  lazymatch goal with
  | |- shows ?cd ?x ?v (let y := ?e in @?b y) =>
      lazymatch type of e with
      | World =>
          refine (inv_let (shows cd x v) (shows cd x v) e b _ _);
          [ op e H | clear H; intros ? H; cbv beta ]
      | _ => refine (inv_let_val (shows cd x v) e b _); intros ?; cbv beta
      end
  | |- shows ?cd ?x ?v (match ?e with pair n y => @?b n y end) =>
      refine (inv_let_pair (shows cd x v) (shows cd x v) e b _ _);
      [ apply shows_createElement; exact H | clear H; intros ? ? H; cbv beta ]
  end.

(** Name the world a statement returns. *)
Ltac shows_name y Hy :=
  lazymatch goal with
  | |- shows ?cd ?x ?v (let y' := ?e in @?b y') =>
      refine (inv_let (λ y', y' = e) (shows cd x v) e b eq_refl _); intros y Hy; cbv beta
  end.

Lemma shows_cleanCellClone cd x v k w : shows cd x v w → shows cd x v (cleanCellClone k w).
Proof.
  intros H. cbv beta delta [cleanCellClone].
  repeat shows_step shows_prim H. shows_prim (onDocument (Dom.classList_remove 0 "hidden") w) H.
Qed.

Ltac shows_op e H :=
  lazymatch e with
  | cleanCellClone _ _ => apply shows_cleanCellClone; exact H
  | _ => shows_prim e H
  end.

(** The last part of the factory writes the count of the clone's model
    into the counter and does not touch the counter again. *)
Lemma bind_shows cd cm w :
  executionCounter (mirror w cd) < nextNode w →
  shows cd (executionCounter (mirror w cd))
    (executionCount (models w !!! model (cells w !!! cell (mirror w cd))))
    (createFromExistingCell_bind cd cm w).
Proof.
  intros Hlt. cbv beta delta [createFromExistingCell_bind].
  shows_name w1 Hw1. shows_name w2 Hw2.
  lazymatch goal with
  | |- shows ?cd ?x ?v (let y := ?e in @?b y) =>
      refine (inv_let (shows cd x v) (shows cd x v) e b _ _)
  end.
  { rewrite Hw2, Hw1. clear w1 w2 Hw1 Hw2. revert Hlt.
    destruct w. world_lazy. unfold shows, mirror, Dom.set_text, Dom.update. world_lazy.
    obj_simpl. done. }
  clear w1 w2 Hw1 Hw2. intros w3 H. cbv beta.
  repeat shows_step shows_op H. exact H.
Qed.

Lemma attach_counter cd sc c w :
  executionCounter (mirror (createFromExistingCell_attach cd sc c w) cd)
  < nextNode (createFromExistingCell_attach cd sc c w).
Proof. destruct w. world_lazy. obj_simpl. lia. Qed.

Lemma createFromExistingCell_count sc c w m w' :
  createFromExistingCell sc c w = Ok m w' →
  shows m (executionCounter (mirror w' m))
    (executionCount (models w !!! model (cells w !!! c))) w'.
Proof.
  intros E. apply createFromExistingCell_Ok_inv in E as (Hm & cm & Hw).
  set (cd := fresh (dom (mirrors w))) in *.
  set (w0 := set_mirrors (<[cd:=newStickyCode]> (mirrors w)) w) in *.
  set (wa := createFromExistingCell_attach cd sc c w0) in *.
  rewrite Hm, Hw. clear Hm Hw m w'.
  assert (cell (mirror wa cd) = nextNode w) as Hca
    by exact (proj1 (proj2 (attach_this cd sc c w0))).
  assert (model (cells wa !!! nextNode w) = model (cells w !!! c)) as Hmod
    by apply (attach_clone_model cd sc c w0).
  assert (models wa = models w) as Hms
    by exact (proj1 (proj2 (attach_frame cd sc c w0))).
  pose proof (bind_shows cd cm wa (attach_counter cd sc c w0)) as Hs.
  rewrite Hca, Hmod, Hms in Hs. rewrite (proj1 (proj2 Hs)). exact Hs.
Qed.



(** ** The parts of the clone *)

Section parts.
Implicit Types (l : list (string * NodeId)) (cls : string).

Lemma find_class_None l cls :
  find (λ p, bool_decide (p.1 = cls)) l = None ↔ ∀ p, p ∈ l → p.1 ≠ cls.
Proof.
  induction l as [|a l IH]; cbn.
  - split; [by intros _ p ?%elem_of_nil|done].
  - case_bool_decide as Ha.
    + split; [done|]. intros H. exfalso. by apply (H a); [left|].
    + rewrite IH. split.
      * intros H p [->|Hp]%elem_of_cons; [done|by apply H].
      * intros H p Hp. apply H. by right.
Qed.

Lemma find_class_Some l cls a :
  find (λ p, bool_decide (p.1 = cls)) l = Some a → a ∈ l ∧ a.1 = cls.
Proof.
  induction l as [|b l IH]; cbn; [done|]. case_bool_decide as Hb.
  - intros [= <-]. split; [by left|done].
  - intros [H1 H2]%IH. split; [by right|done].
Qed.

(** With one node per part, removing the node that the selector finds
    removes one part of that class and no part of another class. *)
Lemma remove_found_other l cls :
  NoDup l.*2 →
  filter (λ p, p.1 ≠ cls)
    (filter (λ p, Some p.2 ≠ snd <$> find (λ p, bool_decide (p.1 = cls)) l) l)
  = filter (λ p, p.1 ≠ cls) l.
Proof.
  intros Hnd. rewrite list_filter_filter. apply filter_agree. intros p Hp.
  split; [tauto|]. intros Hc. split; [done|].
  destruct (find _ l) as [a|] eqn:E; [|done]. cbn. intros [= Hn].
  apply find_class_Some in E as [Ha Hac].
  assert (p = a) as -> by (by eapply (NoDup_fmap_key snd)). done.
Qed.

Lemma length_filter_key {A B} `{EqDecision B} (f : A → B) (l : list A) (a : A) :
  NoDup (f <$> l) → a ∈ l → length (filter (λ p, f p ≠ f a) l) + 1 = length l.
Proof.
  induction l as [|b l IH]; [by intros _ ?%elem_of_nil|]. rewrite fmap_cons.
  intros [Hb Hl]%list.NoDup_cons [->|Ha]%elem_of_cons; rewrite filter_cons.
  - rewrite decide_False by (by intros ?). rewrite filter_all; [cbn; lia|].
    intros p Hp E. apply Hb. rewrite <- E. apply list_elem_of_fmap. by exists p.
  - rewrite decide_True; [cbn; rewrite <- (IH Hl Ha); lia|].
    intros E. apply Hb. rewrite E. apply list_elem_of_fmap. by exists a.
Qed.

Lemma remove_found_count l cls :
  NoDup l.*2 →
  length (filter (λ p, p.1 = cls)
            (filter (λ p, Some p.2 ≠ snd <$> find (λ p, bool_decide (p.1 = cls)) l) l))
  = length (filter (λ p, p.1 = cls) l) - 1.
Proof.
  intros Hnd. destruct (find _ l) as [a|] eqn:E; cbn.
  - apply find_class_Some in E as [Ha Hac].
    rewrite filter_swap.
    rewrite (filter_agree (λ p, Some p.2 ≠ Some a.2) (λ p, p.2 ≠ a.2))
      by (intros p _; split; [intros H ?|intros H [=]]; apply H; congruence).
    assert (a ∈ filter (λ p, p.1 = cls) l) as Ha' by (by apply list_elem_of_filter).
    pose proof (length_filter_key snd (filter (λ p, p.1 = cls) l) a
                  (NoDup_fmap_filter _ _ _ Hnd) Ha') as H.
    lia.
  - rewrite (filter_all (λ p : string * NodeId, Some p.2 ≠ None) l)
      by (intros p _ ?; discriminate).
    pose proof (proj1 (find_class_None l cls) E) as E'.
    rewrite (filter_none (λ p, p.1 = cls)) by (intros p Hp; by apply E'). done.
Qed.

(** With one part per class as well, it removes the part of that class. *)
Lemma remove_found_class l cls :
  NoDup l.*1 → NoDup l.*2 →
  filter (λ p, Some p.2 ≠ snd <$> find (λ p, bool_decide (p.1 = cls)) l) l
  = filter (λ p, p.1 ≠ cls) l.
Proof.
  intros Hc Hn. apply filter_agree. intros p Hp.
  destruct (find _ l) as [a|] eqn:E; cbn.
  - apply find_class_Some in E as [Ha Hac]. split.
    + intros H Hpc. apply H. f_equal. f_equal.
      apply (NoDup_fmap_key fst l); [done..|congruence].
    + intros H [= Hpn]. apply H.
      assert (p = a) as -> by (by eapply (NoDup_fmap_key snd)). done.
  - pose proof (proj1 (find_class_None l cls) E) as E'.
    split; [intros _; by apply E'|intros _ ?; discriminate].
Qed.

Lemma find_class_NoDup l cls n :
  NoDup l.*1 → (cls, n) ∈ l → find (λ p, bool_decide (p.1 = cls)) l = Some (cls, n).
Proof.
  intros Hc Hin. destruct (find _ l) as [a|] eqn:E.
  - apply find_class_Some in E as [Ha Hac]. f_equal.
    by apply (NoDup_fmap_key fst l).
  - pose proof (proj1 (find_class_None l cls) E) as E'. by destruct (E' _ Hin).
Qed.

End parts.

Lemma remove_part_parts c cls w :
  parts (cells (remove_part c cls w) !!! c)
  = filter (λ p, Some p.2 ≠ querySelector cls (cells w !!! c)) (parts (cells w !!! c)).
Proof. unfold remove_part. cbn. by rewrite upd_lookup_total_eq. Qed.

Lemma remove_part_document c cls w :
  document (remove_part c cls w)
  = Dom.opt (querySelector cls (cells w !!! c)) Dom.remove (document w).
Proof. reflexivity. Qed.

Lemma remove_part_mirrors c cls w : mirrors (remove_part c cls w) = mirrors w.
Proof. reflexivity. Qed.

Lemma remove_part_cells_other c cls w k :
  k ≠ c → cells (remove_part c cls w) !! k = cells w !! k.
Proof. intros Hk. unfold remove_part. cbn. by rewrite upd_lookup_ne. Qed.

(** ** Class lists *)

Lemma add_class_elem c c' (l : list string) : c ∈ Dom.add_class c' l ↔ c ∈ l ∨ c = c'.
Proof.
  unfold Dom.add_class. destruct (decide (c' ∈ l)).
  - split; [by left|]. by intros [?| ->].
  - rewrite elem_of_app, list_elem_of_singleton. done.
Qed.

Lemma add_classes_elem c (cls l : list string) :
  c ∈ foldl (λ l c, Dom.add_class c l) l cls ↔ c ∈ l ∨ c ∈ cls.
Proof.
  revert l. induction cls as [|c' cls IH]; intros l; cbn.
  - split; [by left|]. by intros [?|?%elem_of_nil].
  - rewrite IH, add_class_elem, elem_of_cons. tauto.
Qed.

Lemma classList_add_elem n cls d k c :
  c ∈ classList (Dom.classList_add n cls d !!! k) ↔
  c ∈ classList (d !!! k) ∨ (k = n ∧ c ∈ cls).
Proof.
  unfold Dom.classList_add, Dom.update. destruct (decide (n = k)) as [->|Hk].
  - rewrite upd_lookup_total_eq. cbn. rewrite add_classes_elem. tauto.
  - rewrite upd_lookup_total_ne by done. split; [by left|]. intros [?|[? _]]; [done|].
    by subst.
Qed.

Lemma classList_remove_elem n c' d k c :
  c ∈ classList (Dom.classList_remove n c' d !!! k) ↔
  c ∈ classList (d !!! k) ∧ ¬ (k = n ∧ c = c').
Proof.
  unfold Dom.classList_remove, Dom.update. destruct (decide (n = k)) as [->|Hk].
  - rewrite upd_lookup_total_eq. cbn. rewrite list_elem_of_filter. tauto.
  - rewrite upd_lookup_total_ne by done. split; [|tauto]. intros H. split; [done|].
    intros [? _]. by subst.
Qed.

Lemma classList_contains_elem n c d :
  Dom.classList_contains n c d = true ↔ c ∈ classList (d !!! n).
Proof. unfold Dom.classList_contains. apply bool_decide_eq_true. Qed.

Lemma classList_add_childNodes n cls d k :
  childNodes (Dom.classList_add n cls d !!! k) = childNodes (d !!! k).
Proof. unfold Dom.classList_add, Dom.update. by apply upd_preserved. Qed.

Lemma classList_remove_childNodes n c d k :
  childNodes (Dom.classList_remove n c d !!! k) = childNodes (d !!! k).
Proof. unfold Dom.classList_remove, Dom.update. by apply upd_preserved. Qed.

Lemma classList_add_innerText n cls d k :
  innerText (Dom.classList_add n cls d !!! k) = innerText (d !!! k).
Proof. unfold Dom.classList_add, Dom.update. by apply upd_preserved. Qed.

Lemma classList_remove_innerText n c d k :
  innerText (Dom.classList_remove n c d !!! k) = innerText (d !!! k).
Proof. unfold Dom.classList_remove, Dom.update. by apply upd_preserved. Qed.

Lemma detach_classList n d k : classList (Dom.detach n d !!! k) = classList (d !!! k).
Proof.
  unfold Dom.detach. rewrite !lookup_total_alt, lookup_fmap. by destruct (d !! k).
Qed.

(** ** Cleaning the clone *)

(** Removing the parts of a list of classes, one selector after the
    other. *)
Lemma remove_parts_spec (cn : CellId) (clss : list string) (w : World) :
  NoDup (parts (cells w !!! cn)).*1 → NoDup (parts (cells w !!! cn)).*2 →
  let w' := foldl (λ w cls, remove_part cn cls w) w clss in
  parts (cells w' !!! cn) = filter (λ p, p.1 ∉ clss) (parts (cells w !!! cn)) ∧
  (∀ k x, x ∈ childNodes (document w' !!! k) → x ∈ childNodes (document w !!! k)) ∧
  (∀ p k, p ∈ parts (cells w !!! cn) → p.1 ∈ clss → p.2 ∉ childNodes (document w' !!! k)) ∧
  (∀ k, classList (document w' !!! k) = classList (document w !!! k)) ∧
  mirrors w' = mirrors w.
Proof.
  revert w. induction clss as [|cls clss IH]; intros w Hc Hn.
  { cbn. split; [|split; [done|split; [|done]]].
    - symmetry. apply filter_all. intros p _. apply not_elem_of_nil.
    - by intros p k _ ?%elem_of_nil. }
  cbn [foldl]. set (w1 := remove_part cn cls w).
  assert (parts (cells w1 !!! cn) = filter (λ p, p.1 ≠ cls) (parts (cells w !!! cn))) as Hp1.
  { unfold w1. rewrite remove_part_parts. by apply remove_found_class. }
  assert (∀ k, childNodes (document w1 !!! k)
               = match querySelector cls (cells w !!! cn) with
                 | Some n => filter (λ c, c ≠ n) (childNodes (document w !!! k))
                 | None => childNodes (document w !!! k)
                 end) as Hd1.
  { intros k. unfold w1. rewrite remove_part_document.
    destruct (querySelector _ _); [apply detach_childNodes|done]. }
  assert (∀ k, classList (document w1 !!! k) = classList (document w !!! k)) as Hcl1.
  { intros k. unfold w1. rewrite remove_part_document.
    destruct (querySelector _ _); [apply detach_classList|done]. }
  destruct (IH w1) as (Hp & Hsub & Hout & Hcl & Hm).
  { rewrite Hp1. by apply NoDup_fmap_filter. }
  { rewrite Hp1. by apply NoDup_fmap_filter. }
  split; [|split; [|split; [|split]]].
  - rewrite Hp, Hp1, list_filter_filter. apply filter_agree. intros p _.
    rewrite not_elem_of_cons. tauto.
  - intros k x Hx%Hsub. rewrite Hd1 in Hx. destruct (querySelector _ _); [|done].
    by apply list_elem_of_filter in Hx as [_ ?].
  - intros p k Hp0 Hin. destruct (decide (p.1 = cls)) as [Heq|Hne].
    + intros Hx%Hsub. rewrite Hd1 in Hx. unfold querySelector in Hx.
      destruct p as [cls' n]. cbn in Heq. subst cls'.
      rewrite (find_class_NoDup _ cls n Hc Hp0) in Hx.
      cbn in Hx. by apply list_elem_of_filter in Hx as [? _].
    + apply Hout; [by rewrite Hp1; apply list_elem_of_filter|].
      by apply elem_of_cons in Hin as [?|?].
  - intros k. by rewrite Hcl, Hcl1.
  - by rewrite Hm.
Qed.

Lemma cells_onDocument f w : cells (onDocument f w) = cells w.
Proof. reflexivity. Qed.

Lemma mirrors_onDocument f w : mirrors (onDocument f w) = mirrors w.
Proof. reflexivity. Qed.

Lemma document_onDocument f w : document (onDocument f w) = f (document w).
Proof. reflexivity. Qed.

Lemma cleanCellClone_eq this w :
  cleanCellClone this w =
  let cn := cellNode (mirror w this) in
  let w6 := foldl (λ w cls, remove_part cn cls w) w strippedClasses in
  onDocument (Dom.classList_remove cn "hidden")
    (onDocument (Dom.classList_add cn ["sticky-code-cell"])
       (onDocument (Dom.opt (querySelector "jp-OutputArea" (cells w6 !!! cn))
                      (λ n, Dom.classList_add n ["sticky-code-output"])) w6)).
Proof. reflexivity. Qed.

(** The three class changes at the end of [cleanCellClone()]. *)
Lemma cleanCellClone_classes (cn : NodeId) (o : option NodeId) (d : gmap NodeId Element) :
  let d' := Dom.classList_remove cn "hidden"
              (Dom.classList_add cn ["sticky-code-cell"]
                 (Dom.opt o (λ n, Dom.classList_add n ["sticky-code-output"]) d)) in
  (∀ k, childNodes (d' !!! k) = childNodes (d !!! k)) ∧
  (∀ n, o = Some n → "sticky-code-output" ∈ classList (d' !!! n)) ∧
  "sticky-code-cell" ∈ classList (d' !!! cn) ∧
  ("hidden" ∉ classList (d' !!! cn)).
Proof.
  cbv zeta. split; [|split; [|split]].
  - intros k. rewrite classList_remove_childNodes, classList_add_childNodes.
    destruct o; [apply classList_add_childNodes|done].
  - intros n ->. apply classList_remove_elem. split; [|by intros [_ [=]]].
    apply classList_add_elem. left. cbn. apply classList_add_elem. right.
    split; [done|by left].
  - apply classList_remove_elem. split; [|by intros [_ [=]]].
    apply classList_add_elem. right. split; [done|by left].
  - rewrite classList_remove_elem. by intros [_ []].
Qed.

(** X10.  What [cleanCellClone()] strips.  On a clone with one part per class
    and one node per part, it removes the two collapsers, the two prompts,
    the header and the footer, and only those; their nodes are children of
    no node afterwards.  The output area is tagged [sticky-code-output],
    the clone [sticky-code-cell], and the clone is no longer [hidden]. *)
Theorem cleanCellClone_strips (this : MirrorId) (w : World) :
  let cn := cellNode (mirror w this) in
  let ps := parts (cells w !!! cn) in
  NoDup ps.*1 → NoDup ps.*2 →
  let w' := cleanCellClone this w in
  parts (cells w' !!! cn) = filter (λ p, p.1 ∉ strippedClasses) ps ∧
  (∀ p k, p ∈ ps → p.1 ∈ strippedClasses → p.2 ∉ childNodes (document w' !!! k)) ∧
  (∀ n, ("jp-OutputArea", n) ∈ ps → "sticky-code-output" ∈ classList (document w' !!! n)) ∧
  "sticky-code-cell" ∈ classList (document w' !!! cn) ∧
  ("hidden" ∉ classList (document w' !!! cn)) ∧
  mirrors w' = mirrors w.
Proof.
  cbv zeta. intros Hc Hn. rewrite cleanCellClone_eq. cbv zeta.
  rewrite !cells_onDocument, !mirrors_onDocument, !document_onDocument.
  destruct (remove_parts_spec (cellNode (mirror w this)) strippedClasses w Hc Hn)
    as (Hp & Hsub & Hout & Hcl & Hm).
  revert Hp Hsub Hout Hcl Hm.
  generalize (foldl (λ w0 cls, remove_part (cellNode (mirror w this)) cls w0) w
                strippedClasses).
  intros w6 Hp Hsub Hout Hcl Hm.
  destruct (cleanCellClone_classes (cellNode (mirror w this))
              (querySelector "jp-OutputArea" (cells w6 !!! cellNode (mirror w this)))
              (document w6)) as (Hch & Hoa & Hsc & Hh).
  split; [done|]. split; [|split; [|split; [|split]]]; [| |done|done|done].
  - intros p k Hin Hs. rewrite Hch. by apply Hout.
  - intros n Hin. apply Hoa.
    unfold querySelector. rewrite (find_class_NoDup _ "jp-OutputArea" n); [done| |].
    + rewrite Hp. by apply NoDup_fmap_filter.
    + rewrite Hp. apply list_elem_of_filter. split; [|done].
      apply (bool_decide_unpack _). by vm_compute.
Qed.

(** [cleanCellClone_strips] on the clone of the demo mirror after a redraw
    of its output. *)
Lemma cleanCellClone_strips_witness :
  NoDup (parts (cells (host_redrawOutput 33 mirroredWorld) !!! 33)).*1 ∧
  NoDup (parts (cells (host_redrawOutput 33 mirroredWorld) !!! 33)).*2 ∧
  parts (cells (cleanCellClone 0 (host_redrawOutput 33 mirroredWorld)) !!! 33)
  = [("jp-CodeMirrorEditor", 37); ("CodeMirror", 38); ("jp-OutputArea", 40)].
Proof.
  assert (NoDup (parts (cells (host_redrawOutput 33 mirroredWorld)
                        !!! cellNode (mirror (host_redrawOutput 33 mirroredWorld) 0))).*1)
    as H1 by (apply (bool_decide_unpack _); by vm_compute).
  assert (NoDup (parts (cells (host_redrawOutput 33 mirroredWorld)
                        !!! cellNode (mirror (host_redrawOutput 33 mirroredWorld) 0))).*2)
    as H2 by (apply (bool_decide_unpack _); by vm_compute).
  split; [exact H1|]. split; [exact H2|].
  pose proof (proj1 (cleanCellClone_strips 0 (host_redrawOutput 33 mirroredWorld) H1 H2))
    as T.
  etransitivity; [exact T|]. by vm_compute.
Defined.

(** ** The watchers *)

Lemma codeOutputMutationHandler_cons this d l w :
  codeOutputMutationHandler this (d :: l) w
  = codeOutputMutationHandler this l
      (match outputNode (mirror w this) with
       | Some _ => remove_part (cellNode (mirror w this)) "jp-OutputPrompt" w
       | None => w
       end).
Proof. reflexivity. Qed.

(** X11.  Each mutation record of the output area strips one prompt.  With an
    output area to watch and one node per part, the handler of the output
    watcher removes, for each record, the first part of class
    [jp-OutputPrompt] of the clone: [k] records strip [k] prompts (all of
    them when there are no more than [k]) and leave the other parts alone.
    Without an output area the handler does nothing. *)
Theorem codeOutputMutationHandler_strips (this : MirrorId)
    (mutationList : list MutationRecord) (w : World) :
  let cn := cellNode (mirror w this) in
  let w' := codeOutputMutationHandler this mutationList w in
  (is_Some (outputNode (mirror w this)) →
   NoDup (parts (cells w !!! cn)).*2 →
   length (filter (λ p, p.1 = "jp-OutputPrompt") (parts (cells w' !!! cn)))
   = length (filter (λ p, p.1 = "jp-OutputPrompt") (parts (cells w !!! cn)))
     - length mutationList ∧
   filter (λ p, p.1 ≠ "jp-OutputPrompt") (parts (cells w' !!! cn))
   = filter (λ p, p.1 ≠ "jp-OutputPrompt") (parts (cells w !!! cn)) ∧
   mirrors w' = mirrors w) ∧
  (outputNode (mirror w this) = None → w' = w).
Proof.
  cbv zeta. split.
  - revert w. induction mutationList as [|d l IH]; intros w Hon Hnd.
    { cbn. split; [lia|done]. }
    rewrite codeOutputMutationHandler_cons. destruct Hon as [on Hon]. rewrite Hon.
    set (w1 := remove_part (cellNode (mirror w this)) "jp-OutputPrompt" w).
    assert (mirrors w1 = mirrors w) as Hm1 by reflexivity.
    assert (parts (cells w1 !!! cellNode (mirror w this))
            = filter (λ p, Some p.2 ≠ querySelector "jp-OutputPrompt"
                                          (cells w !!! cellNode (mirror w this)))
                (parts (cells w !!! cellNode (mirror w this)))) as Hp1
      by apply remove_part_parts.
    clearbody w1.
    assert (cellNode (mirror w1 this) = cellNode (mirror w this)) as Hcn
      by (unfold mirror; by rewrite Hm1).
    destruct (IH w1) as (Hcount & Hother & Hm).
    { unfold mirror. rewrite Hm1. by eexists. }
    { rewrite Hcn, Hp1. by apply NoDup_fmap_filter. }
    rewrite Hcn in Hcount, Hother. rewrite Hcount, Hother, Hm, Hp1.
    unfold querySelector. rewrite remove_found_count, remove_found_other by done.
    cbn [length]. split; [lia|done].
  - intros Hnone. induction mutationList as [|d l IH]; [done|].
    rewrite codeOutputMutationHandler_cons, Hnone. exact IH.
Qed.

(** [codeOutputMutationHandler_strips] on the demo mirror after a redraw of
    the output of its clone. *)
Lemma codeOutputMutationHandler_strips_witness :
  is_Some (outputNode (mirror (host_redrawOutput 33 mirroredWorld) 0)) ∧
  NoDup (parts (cells (host_redrawOutput 33 mirroredWorld) !!! 33)).*2 ∧
  length (filter (λ p, p.1 = "jp-OutputPrompt")
            (parts (cells (codeOutputMutationHandler 0
                             [{| attributeName := None; addedNodes := [66] |}]
                             (host_redrawOutput 33 mirroredWorld)) !!! 33))) = 0.
Proof.
  assert (is_Some (outputNode (mirror (host_redrawOutput 33 mirroredWorld) 0))) as H1
    by (by eexists; vm_compute).
  assert (NoDup (parts (cells (host_redrawOutput 33 mirroredWorld)
                        !!! cellNode (mirror (host_redrawOutput 33 mirroredWorld) 0))).*2)
    as H2 by (apply (bool_decide_unpack _); by vm_compute).
  split; [exact H1|]. split; [exact H2|].
  pose proof (proj1 (proj1 (codeOutputMutationHandler_strips 0
                              [{| attributeName := None; addedNodes := [66] |}]
                              (host_redrawOutput 33 mirroredWorld)) H1 H2)) as T.
  etransitivity; [exact T|]. by vm_compute.
Defined.

Lemma codeClassMutationHandler_cons this d l w :
  codeClassMutationHandler this (d :: l) w
  = codeClassMutationHandler this l
      (if decide (attributeName d = Some "class") then
         if editorFocused this w
         then onDocument (Dom.classList_add (executionCounter (mirror w this))
                            ["mod-focused"]) w
         else onDocument (Dom.classList_remove (executionCounter (mirror w this))
                            "mod-focused") w
       else w).
Proof. reflexivity. Qed.

Lemma classList_contains_add n cls d k c :
  Dom.classList_contains k c (Dom.classList_add n cls d)
  = Dom.classList_contains k c d || bool_decide (k = n ∧ c ∈ cls).
Proof.
  apply eq_true_iff_eq. rewrite orb_true_iff, !classList_contains_elem, bool_decide_eq_true.
  apply classList_add_elem.
Qed.

Lemma classList_contains_remove n c' d k c :
  Dom.classList_contains k c (Dom.classList_remove n c' d)
  = Dom.classList_contains k c d && negb (bool_decide (k = n ∧ c = c')).
Proof.
  apply eq_true_iff_eq.
  rewrite andb_true_iff, negb_true_iff, !classList_contains_elem, bool_decide_eq_false.
  apply classList_remove_elem.
Qed.

(** One record of the focus watcher. *)
Lemma codeClassMutationHandler_step this (d : MutationRecord) w :
  let w1 := if decide (attributeName d = Some "class") then
              if editorFocused this w
              then onDocument (Dom.classList_add (executionCounter (mirror w this))
                                 ["mod-focused"]) w
              else onDocument (Dom.classList_remove (executionCounter (mirror w this))
                                 "mod-focused") w
            else w in
  mirrors w1 = mirrors w ∧ cells w1 = cells w ∧
  editorFocused this w1 = editorFocused this w ∧
  (attributeName d = Some "class" ∨
   Dom.classList_contains (executionCounter (mirror w this)) "mod-focused" (document w)
   = editorFocused this w →
   Dom.classList_contains (executionCounter (mirror w1 this)) "mod-focused" (document w1)
   = editorFocused this w).
Proof.
  cbv zeta. destruct (decide (attributeName d = Some "class")) as [Hd|Hd].
  2:{ split; [done|]. split; [done|]. split; [done|]. by intros [?|?]. }
  destruct (editorFocused this w) eqn:Hf.
  - split; [done|]. split; [done|]. split.
    + unfold editorFocused in *. change (mirror (onDocument _ w) this) with (mirror w this).
      destruct (editorNode (mirror w this)) as [n|]; [|done]. cbn.
      rewrite classList_contains_add, Hf. done.
    + intros _. change (mirror (onDocument _ w) this) with (mirror w this). cbn.
      rewrite classList_contains_add, bool_decide_eq_true_2; [apply orb_true_r|].
      split; [done|by left].
  - split; [done|]. split; [done|]. split.
    + unfold editorFocused in *. change (mirror (onDocument _ w) this) with (mirror w this).
      destruct (editorNode (mirror w this)) as [n|]; [|done]. cbn.
      rewrite classList_contains_remove, Hf. done.
    + intros _. change (mirror (onDocument _ w) this) with (mirror w this). cbn.
      rewrite classList_contains_remove, bool_decide_eq_true_2 by done.
      apply andb_false_r.
Qed.

Lemma codeClassMutationHandler_fold this (l : list MutationRecord) w :
  let w' := codeClassMutationHandler this l w in
  mirrors w' = mirrors w ∧ cells w' = cells w ∧
  editorFocused this w' = editorFocused this w ∧
  (Exists (λ d, attributeName d = Some "class") l ∨
   Dom.classList_contains (executionCounter (mirror w this)) "mod-focused" (document w)
   = editorFocused this w →
   Dom.classList_contains (executionCounter (mirror w' this)) "mod-focused" (document w')
   = editorFocused this w).
Proof.
  revert w. induction l as [|d l IH]; intros w; cbv zeta.
  { split; [done|]. split; [done|]. split; [done|]. by intros [?%Exists_nil|?]. }
  rewrite codeClassMutationHandler_cons.
  destruct (codeClassMutationHandler_step this d w) as (Hm1 & Hc1 & Hf1 & Hx1).
  revert Hm1 Hc1 Hf1 Hx1.
  generalize (if decide (attributeName d = Some "class") then
                if editorFocused this w
                then onDocument (Dom.classList_add (executionCounter (mirror w this))
                                   ["mod-focused"]) w
                else onDocument (Dom.classList_remove (executionCounter (mirror w this))
                                   "mod-focused") w
              else w).
  intros w1 Hm1 Hc1 Hf1 Hx1. destruct (IH w1) as (Hm & Hc & Hf & Hx).
  split; [by rewrite Hm|]. split; [by rewrite Hc|]. split; [by rewrite Hf|].
  intros H. rewrite Hf1 in Hx. apply Hx.
  destruct H as [[Hd|Hl]%Exists_cons|H0]; [right; apply Hx1; by left|by left|].
  right. apply Hx1. by right.
Qed.

(** X12.  The counter follows the focus of the editor.  When the focus watcher
    reports a change of the [class] attribute, the counter of the mirror
    carries the class [mod-focused] afterwards exactly when the editor node
    carries [jp-mod-focused]; records of other attributes change nothing. *)
Theorem codeClassMutationHandler_follows_focus (this : MirrorId)
    (mutationList : list MutationRecord) (w : World) :
  let w' := codeClassMutationHandler this mutationList w in
  (Exists (λ d, attributeName d = Some "class") mutationList →
   Dom.classList_contains (executionCounter (mirror w' this)) "mod-focused" (document w')
   = editorFocused this w) ∧
  (Forall (λ d, attributeName d ≠ Some "class") mutationList → w' = w) ∧
  mirrors w' = mirrors w ∧ cells w' = cells w.
Proof.
  cbv zeta. destruct (codeClassMutationHandler_fold this mutationList w) as (Hm & Hc & _ & Hx).
  split; [intros H; apply Hx; by left|]. split; [|done].
  clear. induction mutationList as [|d l IH]; intros Hall; [done|].
  apply list.Forall_cons in Hall as [Hd Hl]. rewrite codeClassMutationHandler_cons.
  rewrite decide_False by done. by apply IH.
Qed.

(** [codeClassMutationHandler_follows_focus] on the demo mirror when its
    editor (node 37) takes the focus. *)
Lemma codeClassMutationHandler_follows_focus_witness :
  Dom.classList_contains 63 "mod-focused"
    (document (codeClassMutationHandler 0
                 [{| attributeName := Some "class"; addedNodes := [] |}]
                 (onDocument (Dom.classList_add 37 ["jp-mod-focused"]) mirroredWorld)))
  = true.
Proof.
  assert (Exists (λ d, attributeName d = Some "class")
            [{| attributeName := Some "class"; addedNodes := [] |}]) as H
    by (by left).
  pose proof (proj1 (codeClassMutationHandler_follows_focus 0
                       [{| attributeName := Some "class"; addedNodes := [] |}]
                       (onDocument (Dom.classList_add 37 ["jp-mod-focused"]) mirroredWorld))
                H) as T.
  etransitivity; [|etransitivity; [exact T|]]; by vm_compute.
Defined.

(** ** State changes of the model, for all its mirrors *)





Lemma handleStateChange_isDirty this k args w :
  name args = "isDirty" →
  let x := executionCounter (mirror w this) in
  let w' := handleStateChange this k args w in
  models w' = models w ∧ mirrors w' = mirrors w ∧ cells w' = cells w ∧
  document w' = (if truthy (newValue args)
                 then Dom.classList_add x ["dirty"] (document w)
                 else Dom.classList_remove x "dirty" (document w)).
Proof.
  intros Hn. cbv zeta. unfold handleStateChange.
  rewrite decide_False by (rewrite Hn; by intros [=]). rewrite decide_True by done.
  by destruct (truthy _).
Qed.

Lemma emit_isDirty_fold k args (l : list MirrorId) w m :
  name args = "isDirty" →
  let w' := foldl (λ w cd, handleStateChange cd k args w) w l in
  models w' = models w ∧ mirrors w' = mirrors w ∧ cells w' = cells w ∧
  (∀ x, innerText (document w' !!! x) = innerText (document w !!! x)) ∧
  (m ∈ l ∨
   Dom.classList_contains (executionCounter (mirror w m)) "dirty" (document w)
   = truthy (newValue args) →
   Dom.classList_contains (executionCounter (mirror w m)) "dirty" (document w')
   = truthy (newValue args)).
Proof.
  intros Hn. revert w. induction l as [|cd l IH]; intros w; cbv zeta.
  { split; [done|]. split; [done|]. split; [done|]. split; [done|].
    by intros [?%elem_of_nil|?]. }
  cbn [foldl].
  destruct (handleStateChange_isDirty cd k args w Hn) as (Hms & Hmi & Hc & Hd).
  revert Hms Hmi Hc Hd. generalize (handleStateChange cd k args w).
  intros w1 Hms Hmi Hc Hd. destruct (IH w1) as (Hms' & Hmi' & Hc' & Ht' & Hdone).
  split; [by rewrite Hms'|]. split; [by rewrite Hmi'|]. split; [by rewrite Hc'|].
  split.
  { intros x. rewrite Ht', Hd.
    destruct (truthy _); [apply classList_add_innerText|apply classList_remove_innerText]. }
  intros H. unfold mirror in Hdone. rewrite Hmi in Hdone. fold (mirror w m) in Hdone.
  apply Hdone. clear Hdone.
  assert (executionCounter (mirror w m) = executionCounter (mirror w cd) ∨
          Dom.classList_contains (executionCounter (mirror w m)) "dirty" (document w)
          = truthy (newValue args) →
          Dom.classList_contains (executionCounter (mirror w m)) "dirty" (document w1)
          = truthy (newValue args)) as Hstep.
  { rewrite Hd. destruct (truthy (newValue args)).
    - rewrite classList_contains_add. intros [Hx| ->]; [|done].
      rewrite (bool_decide_eq_true_2 (_ ∧ _)); [apply orb_true_r|]. split; [done|by left].
    - rewrite classList_contains_remove. intros [Hx| ->]; [|done].
      rewrite (bool_decide_eq_true_2 (_ ∧ _)) by done. apply andb_false_r. }
  destruct H as [[->|Hin]%elem_of_cons|H]; [right; apply Hstep; by left|by left|].
  right. apply Hstep. by right.
Qed.

(** X14.  The dirty mark and the other state changes.  When a model emits a
    change of [isDirty], the counter of every mirror connected to it
    carries the class [dirty] afterwards exactly when the new value is
    truthy; no text, cell or mirror changes.  A change of any other
    property than [executionCount] and [isDirty] changes nothing at all. *)
Theorem stateChanged_marks_dirty (k : ModelId) (args : IChangedArgs) (m : MirrorId)
    (w : World) :
  let w' := emit_stateChanged k args w in
  (name args = "isDirty" →
   m ∈ stateChanged (models w !!! k) →
   Dom.classList_contains (executionCounter (mirror w' m)) "dirty" (document w')
   = truthy (newValue args) ∧
   (∀ x, innerText (document w' !!! x) = innerText (document w !!! x)) ∧
   cells w' = cells w ∧ mirrors w' = mirrors w) ∧
  (name args ≠ "executionCount" → name args ≠ "isDirty" → w' = w).
Proof.
  cbv zeta. unfold emit_stateChanged. split.
  - intros Hn Hin.
    destruct (emit_isDirty_fold k args (stateChanged (models w !!! k)) w m Hn)
      as (_ & Hmi & Hc & Ht & Hdone).
    unfold mirror at 1. rewrite Hmi. fold (mirror w m).
    split; [apply Hdone; by left|done].
  - intros H1 H2. induction (stateChanged (models w !!! k)) as [|cd l IH]; [done|].
    cbn [foldl]. unfold handleStateChange at 2. by rewrite !decide_False by done.
Qed.

(** [stateChanged_marks_dirty] on the two mirrors of the first cell of the
    demo notebook. *)
Lemma stateChanged_marks_dirty_witness :
  0 ∈ stateChanged (models twiceMirroredWorld !!! 0) ∧
  Dom.classList_contains
    (executionCounter (mirror (emit_stateChanged 0 isDirtyChanged twiceMirroredWorld) 0))
    "dirty" (document (emit_stateChanged 0 isDirtyChanged twiceMirroredWorld))
  = true.
Proof.
  assert (name isDirtyChanged = "isDirty") as H1 by reflexivity.
  assert (0 ∈ stateChanged (models twiceMirroredWorld !!! 0)) as H2
    by (apply (bool_decide_unpack _); by vm_compute).
  split; [exact H2|].
  exact (proj1 (proj1 (stateChanged_marks_dirty 0 isDirtyChanged 0 twiceMirroredWorld)
                  H1 H2)).
Defined.

(** ** Floating, for every mirror *)

Lemma appendChild_childNodes p c d k :
  childNodes (Dom.appendChild p c d !!! k)
  = if decide (k = p) then filter (λ x, x ≠ c) (childNodes (d !!! k)) ++ [c]
    else filter (λ x, x ≠ c) (childNodes (d !!! k)).
Proof.
  unfold Dom.appendChild, Dom.update. destruct (decide (k = p)) as [->|Hk].
  - rewrite upd_lookup_total_eq. cbn. by rewrite detach_childNodes.
  - rewrite upd_lookup_total_ne by done. apply detach_childNodes.
Qed.

(** [p.append(...cs)] moves the nodes [cs] to the end of [p], in order, and
    takes them out of every other node. *)
Lemma append_childNodes p (cs : list NodeId) d k :
  NoDup cs →
  childNodes (Dom.append p cs d !!! k)
  = if decide (k = p) then filter (λ x, x ∉ cs) (childNodes (d !!! k)) ++ cs
    else filter (λ x, x ∉ cs) (childNodes (d !!! k)).
Proof.
  unfold Dom.append. revert d. induction cs as [|c cs IH]; intros d Hnd; cbn [foldl].
  { rewrite filter_all by (intros; apply not_elem_of_nil).
    destruct (decide _); [by rewrite app_nil_r|done]. }
  apply list.NoDup_cons in Hnd as [Hc Hnd]. rewrite IH by done.
  rewrite appendChild_childNodes. destruct (decide (k = p)) as [->|Hk].
  - rewrite list.filter_app, list_filter_filter.
    rewrite (filter_all (λ x, x ∉ cs) [c])
      by (by intros x ->%list_elem_of_singleton).
    rewrite <- app_assoc. cbn. f_equal. apply filter_agree. intros x _.
    rewrite not_elem_of_cons. tauto.
  - rewrite list_filter_filter. apply filter_agree. intros x _.
    rewrite not_elem_of_cons. tauto.
Qed.

Lemma float_document this w :
  let n := nextNode w in
  let wrapper := wrapperNode (stickyContent (mirror w this)) in
  let d1 := Dom.classList_add n ["floating-window"] (<[n := newElement "div"]> (document w)) in
  let d2 := <[S n := set_listeners [] (set_innerText EmptyString
                                         (set_childNodes [] (d1 !!! wrapper)))]> d1 in
  document (float this w)
  = Dom.append n [S n] (Dom.append (S n) (childNodes (d2 !!! wrapper)) d2).
Proof. destruct w. world_lazy. obj_simpl. reflexivity. Qed.

Lemma float_floatingWindow this w :
  FloatingWindow.node <$> floatingWindow (mirror (float this w) this) = Some (nextNode w).
Proof. destruct w. world_lazy. by obj_simpl. Qed.

(** X15.  [float()] moves the subtree, whole and in order.  For a panel whose
    wrapper and whose children exist, [float()] leaves the wrapper of the
    panel empty and puts its children, in the same order, into a new
    floating content node, the only child of the node of the new floating
    window; every moved node is then the child of that one node and of no
    other.  The mirror is marked floating. *)
Theorem float_moves_the_subtree (this : MirrorId) (w : World) :
  let wrapper := wrapperNode (stickyContent (mirror w this)) in
  let kids := childNodes (document w !!! wrapper) in
  wrapper < nextNode w →
  (∀ c, c ∈ kids → c < nextNode w) →
  NoDup kids →
  let w' := float this w in
  ∃ fw fc,
    floatingWindow (mirror w' this) = Some fw ∧
    childNodes (document w' !!! FloatingWindow.node fw) = [fc] ∧
    childNodes (document w' !!! fc) = kids ∧
    childNodes (document w' !!! wrapper) = [] ∧
    (∀ c p, c ∈ kids → c ∈ childNodes (document w' !!! p) ↔ p = fc) ∧
    isFloating (mirror w' this) = true.
Proof.
  intros wrapper kids Hw Hkids Hnd w'.
  pose proof (float_floatingWindow this w) as Hfw. fold w' in Hfw.
  destruct (floatingWindow (mirror w' this)) as [fw|] eqn:Efw; [|done].
  injection Hfw as Hnode. exists fw, (S (nextNode w)). split; [done|]. rewrite Hnode.
  assert (isFloating (mirror w' this) = true) as Hfl by apply float_isFloating.
  pose proof (float_document this w) as Hdoc. cbv zeta in Hdoc. fold w' wrapper in Hdoc.
  clearbody w'. rewrite Hdoc. clear Hdoc Efw Hnode.
  set (n := nextNode w) in *.
  set (d1 := Dom.classList_add n ["floating-window"] (<[n:=newElement "div"]> (document w))).
  set (d2 := <[S n := _]> d1).
  assert (∀ k, childNodes (d2 !!! k)
               = if decide (k = S n) then []
                 else if decide (k = n) then [] else childNodes (document w !!! k)) as Hd2.
  { intros k. unfold d2. destruct (decide (k = S n)) as [->|H1].
    - by rewrite lookup_total_insert_eq.
    - rewrite lookup_total_insert_ne by done. unfold d1.
      rewrite classList_add_childNodes. destruct (decide (k = n)) as [->|H2].
      + by rewrite lookup_total_insert_eq.
      + by rewrite lookup_total_insert_ne. }
  assert (childNodes (d2 !!! wrapper) = kids) as Hk.
  { rewrite Hd2, !decide_False by lia. done. }
  rewrite Hk. clearbody d2. clear d1.
  assert (S n ∉ kids) as HSn by (intros H%Hkids; lia).
  assert (NoDup [S n]) as Hnd1 by apply NoDup_singleton.
  assert (∀ l : list NodeId, (∀ x, x ∈ l → x ≠ S n) → filter (λ x, x ∉ [S n]) l = l) as Hf1.
  { intros l Hl. apply filter_all. intros x Hx ->%list_elem_of_singleton. by apply (Hl (S n)). }
  split; [|split; [|split; [|split; [|exact Hfl]]]].
  - rewrite append_childNodes, decide_True by done.
    rewrite append_childNodes, decide_False, Hd2 by (done || lia).
    rewrite decide_False, decide_True by (done || lia). done.
  - rewrite append_childNodes, decide_False by (done || lia).
    rewrite append_childNodes, decide_True, Hd2, decide_True by done.
    cbn. apply Hf1. intros x Hx ->. done.
  - rewrite append_childNodes, decide_False by (done || lia).
    rewrite append_childNodes, decide_False, Hk by (done || lia).
    rewrite (filter_none (λ x, x ∉ kids)) by (intros x Hx Hn; done). done.
  - intros c p Hc. rewrite append_childNodes by done.
    rewrite append_childNodes by done.
    destruct (decide (p = S n)) as [->|Hp1].
    + rewrite decide_False by lia. rewrite Hd2, decide_True by done. cbn.
      rewrite Hf1 by (by intros x Hx ->). done.
    + split; [|done]. intros Hin. exfalso.
      assert (c ∉ filter (λ x, x ∉ kids) (childNodes (d2 !!! p))) as Hnot
        by (rewrite list_elem_of_filter; tauto).
      destruct (decide (p = n)) as [->|Hp2].
      * apply elem_of_app in Hin as [[_ Hin]%list_elem_of_filter|Hin]; [done|].
        apply list_elem_of_singleton in Hin. subst c. done.
      * by apply list_elem_of_filter in Hin as [_ Hin].
Qed.

(** [float_moves_the_subtree] on the mirror of the demo notebook. *)
Lemma float_moves_the_subtree_witness :
  wrapperNode (stickyContent (mirror mirroredWorld 0)) < nextNode mirroredWorld ∧
  ∃ fw fc,
    floatingWindow (mirror (float 0 mirroredWorld) 0) = Some fw ∧
    childNodes (document (float 0 mirroredWorld) !!! FloatingWindow.node fw) = [fc] ∧
    childNodes (document (float 0 mirroredWorld) !!! fc)
    = childNodes (document mirroredWorld !!! wrapperNode (stickyContent (mirror mirroredWorld 0))).
Proof.
  assert (wrapperNode (stickyContent (mirror mirroredWorld 0)) < nextNode mirroredWorld) as H1
    by (vm_compute; lia).
  assert (∀ c, c ∈ childNodes (document mirroredWorld
                                !!! wrapperNode (stickyContent (mirror mirroredWorld 0))) →
               c < nextNode mirroredWorld) as H2
    by (apply list.Forall_forall; apply (bool_decide_unpack _); by vm_compute).
  assert (NoDup (childNodes (document mirroredWorld
                             !!! wrapperNode (stickyContent (mirror mirroredWorld 0))))) as H3
    by (apply (bool_decide_unpack _); by vm_compute).
  split; [exact H1|].
  destruct (float_moves_the_subtree 0 mirroredWorld H1 H2 H3) as (fw & fc & E1 & E2 & E3 & _).
  exists fw, fc. split; [exact E1|]. split; [exact E2|exact E3].
Defined.

(** ** The dropzone *)

(** X16.  The constructor of [Dropzone] ([src/dropzone.ts]).  On a panel node
    that exists, with children that exist, it creates a new node of class
    [dropzone] and makes it the last child of the panel, after the children
    the panel had; the node holds one child, a label of class
    [dropzone-label] with the text of the invitation. *)
Theorem new_Dropzone_appends (panel : NodeId) (w : World) :
  panel < nextNode w →
  (∀ c, c ∈ childNodes (document w !!! panel) → c < nextNode w) →
  let n := (new_Dropzone panel w).1 in
  let w' := (new_Dropzone panel w).2 in
  n = nextNode w ∧
  childNodes (document w' !!! panel) = childNodes (document w !!! panel) ++ [n] ∧
  classList (document w' !!! n) = ["dropzone"] ∧
  ∃ label,
    childNodes (document w' !!! n) = [label] ∧
    classList (document w' !!! label) = ["dropzone-label"] ∧
    innerText (document w' !!! label) = "Create a cell or drag one here".
Proof.
  intros Hp Hkids. destruct w as [d n0 cs ms nb fws mi es ts cl nt tr]. cbn in Hp, Hkids.
  cbv zeta. unfold new_Dropzone. world_lazy. cbn [fst snd].
  set (d1 := Dom.classList_add n0 ["dropzone"] (<[n0:=newElement "div"]> d)).
  set (d2 := Dom.append panel [n0] d1).
  set (d3 := Dom.set_text (S n0) "Create a cell or drag one here"
               (Dom.classList_add (S n0) ["dropzone-label"]
                  (<[S n0:=newElement "span"]> d2))).
  assert (∀ k, childNodes (d1 !!! k) = if decide (k = n0) then [] else childNodes (d !!! k))
    as Hd1.
  { intros k. unfold d1. rewrite classList_add_childNodes.
    destruct (decide (k = n0)) as [->|Hk];
      [by rewrite lookup_total_insert_eq|by rewrite lookup_total_insert_ne]. }
  assert (∀ k, childNodes (d2 !!! k)
               = if decide (k = panel) then childNodes (d !!! panel) ++ [n0]
                 else if decide (k = n0) then [] else filter (λ x, x ∉ [n0]) (childNodes (d !!! k)))
    as Hd2.
  { intros k. unfold d2. rewrite append_childNodes by apply NoDup_singleton.
    rewrite Hd1. destruct (decide (k = panel)) as [->|Hk].
    - rewrite decide_False by lia. f_equal. apply filter_all.
      intros x Hx ->%list_elem_of_singleton. apply Hkids in Hx. lia.
    - destruct (decide (k = n0)); [done|done]. }
  assert (∀ k, childNodes (d3 !!! k) = if decide (k = S n0) then [] else childNodes (d2 !!! k))
    as Hd3.
  { intros k. unfold d3, Dom.set_text, Dom.update.
    rewrite (upd_preserved childNodes) by done. rewrite classList_add_childNodes.
    destruct (decide (k = S n0)) as [->|Hk];
      [by rewrite lookup_total_insert_eq|by rewrite lookup_total_insert_ne]. }
  assert (∀ k, classList (d3 !!! k)
               = if decide (k = S n0) then ["dropzone-label"] else classList (d2 !!! k)) as Hc3.
  { intros k. unfold d3, Dom.set_text, Dom.update.
    rewrite (upd_preserved classList) by done. unfold Dom.classList_add, Dom.update.
    destruct (decide (k = S n0)) as [->|Hk].
    - rewrite upd_lookup_total_eq, lookup_total_insert_eq. done.
    - rewrite upd_lookup_total_ne, lookup_total_insert_ne by done. done. }
  split; [done|].
  assert (NoDup [S n0]) as Hnd by apply NoDup_singleton.
  split; [|split].
  - rewrite append_childNodes, Hd3, Hd2 by done.
    rewrite !decide_False, decide_True by (done || lia).
    apply filter_all. intros x Hx ->%list_elem_of_singleton.
    apply elem_of_app in Hx as [Hx%Hkids|Hx%list_elem_of_singleton]; lia.
  - assert (classList (Dom.append n0 [S n0] d3 !!! n0) = classList (d3 !!! n0)) as ->.
    { cbn. unfold Dom.appendChild, Dom.update. rewrite (upd_preserved classList) by done.
      apply detach_classList. }
    rewrite Hc3, decide_False by lia. unfold d2. cbn.
    unfold Dom.appendChild, Dom.update. rewrite (upd_preserved classList) by done.
    rewrite detach_classList. unfold d1, Dom.classList_add, Dom.update.
    by rewrite upd_lookup_total_eq, lookup_total_insert_eq.
  - exists (S n0). split; [|split].
    + rewrite append_childNodes, decide_True, Hd3, Hd2 by done.
      rewrite !decide_False, decide_True by (done || lia). done.
    + assert (classList (Dom.append n0 [S n0] d3 !!! S n0) = classList (d3 !!! S n0)) as ->.
      { cbn. unfold Dom.appendChild, Dom.update. rewrite (upd_preserved classList) by done.
        apply detach_classList. }
      by rewrite Hc3, decide_True.
    + cbn. unfold Dom.appendChild, Dom.update. rewrite (upd_preserved innerText) by done.
      rewrite keeps_text_detach. unfold d3, Dom.set_text, Dom.update.
      by rewrite upd_lookup_total_eq.
Qed.

(** [new_Dropzone_appends] on the content node of the demo panel. *)
Lemma new_Dropzone_appends_witness :
  2 < nextNode mirroredWorld ∧
  childNodes (document (new_Dropzone 2 mirroredWorld).2 !!! 2)
  = childNodes (document mirroredWorld !!! 2) ++ [nextNode mirroredWorld].
Proof.
  assert (2 < nextNode mirroredWorld) as H1 by (vm_compute; lia).
  assert (∀ c, c ∈ childNodes (document mirroredWorld !!! 2) → c < nextNode mirroredWorld)
    as H2 by (apply list.Forall_forall; apply (bool_decide_unpack _); by vm_compute).
  split; [exact H1|].
  pose proof (new_Dropzone_appends 2 mirroredWorld H1 H2) as T. cbv zeta in T.
  destruct T as (Hn & Hch & _). rewrite Hn in Hch. exact Hch.
Defined.

(** ** The factory for a new cell *)

Lemma Notebook_activeCell_lt w a :
  Notebook_activeCell w = Some a →
  (0 ≤ activeCellIndex (notebook w))%Z ∧
  Z.to_nat (activeCellIndex (notebook w)) < length (widgets (notebook w)).
Proof.
  unfold Notebook_activeCell. destruct (Z.ltb_spec (activeCellIndex (notebook w)) 0); [done|].
  intros Hl. split; [done|]. by apply lookup_lt_Some in Hl.
Qed.

(** What [insertBelow] leaves behind when there is an active cell. *)
Lemma NotebookActions_insertBelow_active w a :
  Notebook_activeCell w = Some a →
  let i := Z.to_nat (activeCellIndex (notebook w)) in
  let c := nextNode w in
  let w' := NotebookActions_insertBelow w in
  widgets (notebook w')
  = take (S i) (widgets (notebook w)) ++ c :: drop (S i) (widgets (notebook w)) ∧
  activeCellIndex (notebook w') = (activeCellIndex (notebook w) + 1)%Z ∧
  Notebook_activeCell w' = Some c ∧
  (parts (cells w' !!! c)).*1 = renderedParts ∧
  executionCount (models w' !!! model (cells w' !!! c)) = None ∧
  mirrors w' = mirrors w ∧ trace w' = trace w ∧ timers w' = timers w ∧
  executionScheduled w' = executionScheduled w.
Proof.
  intros Ha. destruct (Notebook_activeCell_lt w a Ha) as [H0 Hlt].
  cbv zeta. unfold NotebookActions_insertBelow. rewrite Ha.
  destruct w as [d n cs ms [ws i] fws mi es ts cl nt tr]. cbn in *.
  split; [done|]. split; [done|]. split; [|split; [|split]].
  - unfold Notebook_activeCell. cbn.
    destruct (Z.ltb_spec (i + 1) 0); [lia|].
    replace (Z.to_nat (i + 1)) with (S (Z.to_nat i)) by lia.
    rewrite lookup_app_r by (rewrite length_take; lia).
    rewrite length_take. replace (S (Z.to_nat i) - _) with 0 by lia. done.
  - rewrite lookup_total_insert_eq. reflexivity.
  - rewrite lookup_total_insert_eq. cbn. by rewrite lookup_total_insert_eq.
  - done.
Qed.

Lemma NotebookActions_insertBelow_idle w :
  Notebook_activeCell w = None → NotebookActions_insertBelow w = w.
Proof. intros Ha. unfold NotebookActions_insertBelow. by rewrite Ha. Qed.

Lemma createFromExistingCell_frame sc c w m w' :
  createFromExistingCell sc c w = Ok m w' →
  notebook w' = notebook w ∧ timers w' = timers w ∧ nextTimer w' = nextTimer w ∧
  clock w' = clock w ∧ floatingWindows w' = floatingWindows w ∧
  executionScheduled w' = executionScheduled w ++ [m].
Proof.
  intros E. apply createFromExistingCell_Ok_inv in E as (Hm & cm & Hw).
  set (cd := fresh (dom (mirrors w))) in *.
  set (w0 := set_mirrors (<[cd:=newStickyCode]> (mirrors w)) w) in *.
  destruct (attach_frame cd sc c w0) as (Hes & _ & Hnb & Htm & Hnt & Hcl & Hfw).
  destruct (bind_frame cd cm (createFromExistingCell_attach cd sc c w0))
    as (Hes' & Hnb' & Htm' & Hnt' & Hcl' & Hfw').
  rewrite Hw, Hm. rewrite Hes', Hnb', Htm', Hnt', Hcl', Hfw', Hes, Hnb, Htm, Hnt, Hcl, Hfw.
  clear. repeat split; reflexivity.
Qed.

(** X17.  The factory for a new cell.  With an active cell in the notebook,
    [createFromNewCell] has the host insert a new cell right below the
    active one, mirrors it, and makes the cell that was active the active
    one again: the mirror is live, its canonical cell is the new cell, which
    is hidden, and its counter shows ["[*]"], the new cell having no count.
    Without an active cell no cell is inserted and the call throws a
    [TypeError]. *)
Theorem createFromNewCell_inserts_below (sc : StickyContent) (w : World) :
  (∀ a, Notebook_activeCell w = Some a →
     let i := Z.to_nat (activeCellIndex (notebook w)) in
     ∃ m w' c,
       createFromNewCell sc w = Ok m w' ∧
       widgets (notebook w')
       = take (S i) (widgets (notebook w)) ++ c :: drop (S i) (widgets (notebook w)) ∧
       activeCellIndex (notebook w') = activeCellIndex (notebook w) ∧
       Notebook_activeCell w' = Some a ∧
       liveMirrorOf c m (mirror w' m) w' ∧
       visibility (cells w' !!! c) = (true, true) ∧
       get_executionCount m w' = None ∧
       innerText (document w' !!! executionCounter (mirror w' m)) = "[*]") ∧
  (Notebook_activeCell w = None →
   ∃ w', createFromNewCell sc w = Throw TypeError w' ∧
         widgets (notebook w') = widgets (notebook w) ∧
         cells w' = cells w ∧ document w' = document w ∧
         executionScheduled w' = executionScheduled w).
Proof.
  split.
  - intros a Ha i.
    destruct (NotebookActions_insertBelow_active w a Ha)
      as (Hws & Hidx & Hact & Hparts & Hcount & _).
    destruct (Notebook_activeCell_lt w a Ha) as [H0 Hlt].
    unfold createFromNewCell, NotebookActions_changeCellType_code. cbv zeta.
    rewrite Hact.
    revert Hws Hidx Hact Hparts Hcount. generalize (NotebookActions_insertBelow w).
    intros w1 Hws Hidx Hact Hparts Hcount.
    set (w2 := Notebook_set_activeCellIndex (activeCellIndex (notebook w1) - 1) w1).
    assert (cells w2 = cells w1 ∧ models w2 = models w1 ∧
            widgets (notebook w2) = widgets (notebook w1) ∧
            activeCellIndex (notebook w2) = activeCellIndex (notebook w)) as (Hc2 & Hm2 & Hw2 & Hi2).
    { split; [done|]. split; [done|]. split; [done|]. cbn. lia. }
    clearbody w2.
    destruct (createFromExistingCell_returns sc (nextNode w) w2) as [w' Hw'].
    { rewrite Hc2, Hparts. apply (bool_decide_unpack _). by vm_compute. }
    destruct (createFromExistingCell_Ok _ _ _ _ _ Hw') as (_ & _ & Hs & Hi & Hv & _).
    destruct (createFromExistingCell_frame _ _ _ _ _ Hw') as (Hnb & _).
    destruct (createFromExistingCell_count _ _ _ _ _ Hw') as (_ & _ & Hcnt & Htxt).
    rewrite Hc2, Hm2, Hcount in Hcnt, Htxt.
    exists (fresh (dom (mirrors w2))), w', (nextNode w). split; [exact Hw'|]. clear Hw'.
    injection Hi as Hoc _ _ Hdis _ _ _.
    rewrite Hnb, Hw2, Hi2, Hws.
    split; [done|]. split; [done|]. split; [|split; [|split; [|split]]]; [| |done|done|done].
    + unfold Notebook_activeCell. rewrite Hnb, Hi2, Hw2, Hws.
      destruct (Z.ltb_spec (activeCellIndex (notebook w)) 0); [lia|].
      rewrite lookup_app_l by (rewrite length_take; lia).
      rewrite lookup_take_lt by lia.
      revert Ha. unfold Notebook_activeCell.
      by destruct (Z.ltb_spec (activeCellIndex (notebook w)) 0); [lia|].
    + by split.
  - intros Hnone. unfold createFromNewCell, NotebookActions_changeCellType_code. cbv zeta.
    rewrite (NotebookActions_insertBelow_idle w Hnone), Hnone. by eexists.
Qed.

(** [createFromNewCell_inserts_below] on the demo notebook, whose first
    cell is active. *)
Lemma createFromNewCell_inserts_below_witness :
  Notebook_activeCell demoWorld = Some 3 ∧
  ∃ m w' c,
    createFromNewCell demoPanel demoWorld = Ok m w' ∧
    widgets (notebook w') = [3; c; 13; 23] ∧
    Notebook_activeCell w' = Some 3.
Proof.
  assert (Notebook_activeCell demoWorld = Some 3) as H by (by vm_compute).
  split; [exact H|].
  destruct (proj1 (createFromNewCell_inserts_below demoPanel demoWorld) 3 H)
    as (m & w' & c & E & Hws & _ & Ha & _).
  exists m, w', c. split; [exact E|]. split; [exact Hws|exact Ha].
Defined.

(** ** Collapsing and expanding *)

Lemma find_agree {A} (f g : A → bool) (l : list A) :
  (∀ x, f x = g x) → find f l = find g l.
Proof. intros H. induction l as [|a l IH]; [done|]. cbn. by rewrite H, IH. Qed.

Lemma same_tree_refl d : same_tree d d.
Proof. done. Qed.

Lemma same_tree_trans d1 d2 d3 : same_tree d1 d2 → same_tree d2 d3 → same_tree d1 d3.
Proof. intros [A1 B1] [A2 B2]. split; [congruence|]. intros k. by rewrite B2. Qed.

Lemma same_tree_update n f d :
  is_Some (d !! n) → (∀ e, childNodes (f e) = childNodes e) → same_tree d (Dom.update n f d).
Proof.
  intros Hn Hf. unfold Dom.update. split.
  - apply set_eq. intros i. rewrite !elem_of_dom. destruct (decide (n = i)) as [<-|Hi].
    + rewrite upd_lookup_eq. split; [done|by eexists].
    + by rewrite upd_lookup_ne.
  - intros k. by apply upd_preserved.
Qed.

Lemma same_tree_classList_add n cls d :
  is_Some (d !! n) → same_tree d (Dom.classList_add n cls d).
Proof. intros. by apply same_tree_update. Qed.

Lemma same_tree_classList_remove n c d :
  is_Some (d !! n) → same_tree d (Dom.classList_remove n c d).
Proof. intros. by apply same_tree_update. Qed.

Lemma same_tree_lookup d d' k : same_tree d d' → is_Some (d' !! k) ↔ is_Some (d !! k).
Proof. intros [Hd _]. by rewrite <- !elem_of_dom, Hd. Qed.

Lemma descendants_same_tree fuel d d' n :
  (∀ k, childNodes (d' !!! k) = childNodes (d !!! k)) →
  DomQuery.descendants fuel d' n = DomQuery.descendants fuel d n.
Proof.
  intros Hch. revert n. induction fuel as [|fuel IH]; intros n; [done|]. cbn.
  rewrite Hch. apply list_bind_ext; [|done]. intros c. by rewrite IH.
Qed.

(** A query for a class gives the same node on a document with the same
    tree in which the same nodes carry that class. *)
Lemma querySelector_same_tree root cls d d' :
  same_tree d d' →
  (∀ k, cls ∈ classList (d' !!! k) ↔ cls ∈ classList (d !!! k)) →
  DomQuery.querySelector root cls d' = DomQuery.querySelector root cls d.
Proof.
  intros [Hdom Hch] Hcls. unfold DomQuery.querySelector.
  rewrite <- (size_dom (D := gset nat) d'), Hdom, size_dom.
  rewrite (descendants_same_tree _ d d') by done. apply find_agree. intros x.
  apply bool_decide_ext, Hcls.
Qed.

Lemma parents_elem b d x :
  x ∈ Dom.parents b d ↔ is_Some (d !! x) ∧ b ∈ childNodes (d !!! x).
Proof.
  unfold Dom.parents. rewrite list_elem_of_fmap. split.
  - intros ([k e] & -> & Hin). apply elem_of_map_to_list in Hin.
    apply map_lookup_filter_Some in Hin as [Hl Hb]. cbn in *.
    split; [by eexists|]. by rewrite lookup_total_alt, Hl.
  - intros [[e Hl] Hb]. exists (x, e). split; [done|].
    apply elem_of_map_to_list, map_lookup_filter_Some. split; [done|]. cbn.
    by rewrite lookup_total_alt, Hl in Hb.
Qed.

Lemma parents_NoDup b d : NoDup (Dom.parents b d).
Proof. apply NoDup_fst_map_to_list. Qed.

Lemma NoDup_singleton_eq {A} (l : list A) (a : A) :
  NoDup l → (∀ x, x ∈ l ↔ x = a) → l = [a].
Proof.
  intros Hnd Hl. destruct l as [|b l].
  { pose proof (proj2 (Hl a) eq_refl) as H. by apply elem_of_nil in H. }
  assert (b = a) as -> by (apply Hl; by left). f_equal.
  destruct l as [|c l]; [done|]. exfalso.
  apply list.NoDup_cons in Hnd as [Hn _]. apply Hn.
  assert (c = a) as -> by (apply Hl; right; by left). by left.
Qed.

(** A node with one parent has the same parent on a document with the
    same tree. *)
Lemma parents_same_tree b d d' p :
  same_tree d d' → Dom.parents b d = [p] → Dom.parents b d' = [p].
Proof.
  intros Hst Hp. apply NoDup_singleton_eq; [apply parents_NoDup|]. intros x.
  rewrite parents_elem, (same_tree_lookup d d') by done. destruct Hst as [_ Hch].
  rewrite Hch, <- parents_elem, Hp. apply list_elem_of_singleton.
Qed.

Lemma parents_is_Some b d p : Dom.parents b d = [p] → is_Some (d !! p).
Proof.
  intros Hp. assert (p ∈ Dom.parents b d) as H by (rewrite Hp; by left).
  by apply parents_elem in H as [? _].
Qed.

(** The toolbar item of a button, when the button is found and has one
    parent. *)
Lemma toolbarItem_found this cls w button item :
  DomQuery.querySelector (headerNode (stickyContent (mirror w this))) cls (document w)
  = Some button →
  Dom.parents button (document w) = [item] →
  toolbarItem this cls w = Some item.
Proof.
  intros Hq Hp. unfold toolbarItem. rewrite Hq. cbn. unfold DomQuery.parentElement.
  by rewrite Hp.
Qed.

(** The class changes of the two handlers keep the toolbar as it is
    found. *)
Lemma toolbarOf_stable this ic ie w w' :
  mirrors w' = mirrors w →
  same_tree (document w) (document w') →
  (∀ k c, c ≠ "no-display" →
          c ∈ classList (document w' !!! k) ↔ c ∈ classList (document w !!! k)) →
  toolbarOf this ic ie w → toolbarOf this ic ie w'.
Proof.
  intros Hm Hst Hcls ((bc & Hqc & Hpc) & (be & Hqe & Hpe) & Hph).
  unfold toolbarOf, mirror. rewrite Hm. fold (mirror w this). cbv zeta.
  split; [|split].
  - exists bc. split; [|by eapply parents_same_tree].
    rewrite <- Hqc. apply querySelector_same_tree; [done|]. intros k. by apply Hcls.
  - exists be. split; [|by eapply parents_same_tree].
    rewrite <- Hqe. apply querySelector_same_tree; [done|]. intros k. by apply Hcls.
  - by apply (same_tree_lookup _ _ _ Hst).
Qed.

Lemma toolbarOf_items this ic ie w :
  toolbarOf this ic ie w →
  toolbarItem this "button-collapse" w = Some ic ∧
  toolbarItem this "button-expand" w = Some ie ∧
  is_Some (document w !! ic) ∧ is_Some (document w !! ie).
Proof.
  intros ((bc & Hqc & Hpc) & (be & Hqe & Hpe) & _).
  split; [by eapply toolbarItem_found|]. split; [by eapply toolbarItem_found|].
  split; by eapply parents_is_Some.
Qed.

Lemma classList_add_other n cls d k c :
  c ∉ cls → c ∈ classList (Dom.classList_add n cls d !!! k) ↔ c ∈ classList (d !!! k).
Proof. intros Hc. rewrite classList_add_elem. tauto. Qed.

Lemma classList_remove_other n c' d k c :
  c ≠ c' → c ∈ classList (Dom.classList_remove n c' d !!! k) ↔ c ∈ classList (d !!! k).
Proof. intros Hc. rewrite classList_remove_elem. tauto. Qed.

(** The document and the cells after [collapseClicked]. *)
Lemma collapseClicked_spec this e ic ie w :
  toolbarOf this ic ie w →
  let w' := (collapseClicked this e w).2 in
  document w'
  = Dom.classList_remove (placeholder (mirror w this)) "no-display"
      (Dom.classList_remove ie "no-display"
         (Dom.classList_add ic ["no-display"] (document w))) ∧
  cells w' = upd (cell (mirror w this)) (set_inputHidden true) (cells w) ∧
  mirrors w' = mirrors w ∧
  toolbarOf this ic ie w'.
Proof.
  intros Htb. destruct (toolbarOf_items this ic ie w Htb) as (Hic & Hie & Sic & Sie).
  cbv zeta. unfold collapseClicked. cbv zeta. cbn [snd].
  set (w0 := Cell_set_inputHidden (cell (mirror w this)) true w).
  assert (toolbarOf this ic ie w0) as Htb0 by exact Htb.
  assert (toolbarItem this "button-collapse" w0 = Some ic) as -> by exact Hic.
  set (w1 := onDocument (Dom.opt (Some ic) _) w0).
  assert (document w1 = Dom.classList_add ic ["no-display"] (document w)) as Hd1
    by reflexivity.
  assert (mirrors w1 = mirrors w) as Hm1 by reflexivity.
  assert (cells w1 = upd (cell (mirror w this)) (set_inputHidden true) (cells w)) as Hc1
    by reflexivity.
  assert (toolbarOf this ic ie w1) as Htb1.
  { apply (toolbarOf_stable this ic ie w); [done| | |done].
    - rewrite Hd1. by apply same_tree_classList_add.
    - intros k c Hc. rewrite Hd1. apply classList_add_other.
      by intros ->%list_elem_of_singleton. }
  clearbody w1. clear w0 Htb0.
  destruct (toolbarOf_items this ic ie w1 Htb1) as (_ & -> & _ & Sie1).
  set (w2 := onDocument (Dom.opt (Some ie) _) w1).
  assert (document w2 = Dom.classList_remove ie "no-display" (document w1)) as Hd2
    by reflexivity.
  assert (mirrors w2 = mirrors w1) as Hm2 by reflexivity.
  assert (cells w2 = cells w1) as Hc2 by reflexivity.
  assert (toolbarOf this ic ie w2) as Htb2.
  { apply (toolbarOf_stable this ic ie w1); [done| | |done].
    - rewrite Hd2. by apply same_tree_classList_remove.
    - intros k c Hc. rewrite Hd2. by apply classList_remove_other. }
  clearbody w2.
  assert (placeholder (mirror w2 this) = placeholder (mirror w this)) as Hph
    by (unfold mirror; by rewrite Hm2, Hm1).
  rewrite Hph. cbn [document onDocument set_document cells mirrors].
  rewrite Hd2, Hd1, Hc2, Hc1, Hm2, Hm1. split; [done|]. split; [done|]. split; [done|].
  apply (toolbarOf_stable this ic ie w2); [reflexivity| | |done].
  - cbn. apply same_tree_classList_remove. destruct Htb2 as (_ & _ & Hp).
    by rewrite Hph in Hp.
  - intros k c Hc. cbn. by apply classList_remove_other.
Qed.

(** The document and the cells after [expandClicked]. *)
Lemma expandClicked_spec this e ic ie w :
  toolbarOf this ic ie w →
  let w' := (expandClicked this e w).2 in
  document w'
  = Dom.classList_add (placeholder (mirror w this)) ["no-display"]
      (Dom.classList_add ie ["no-display"]
         (Dom.classList_remove ic "no-display" (document w))) ∧
  cells w' = upd (cell (mirror w this)) (set_inputHidden false) (cells w) ∧
  mirrors w' = mirrors w ∧
  toolbarOf this ic ie w'.
Proof.
  intros Htb. destruct (toolbarOf_items this ic ie w Htb) as (Hic & Hie & Sic & Sie).
  cbv zeta. unfold expandClicked. cbv zeta. cbn [snd].
  set (w0 := Cell_set_inputHidden (cell (mirror w this)) false w).
  assert (toolbarOf this ic ie w0) as Htb0 by exact Htb.
  assert (toolbarItem this "button-collapse" w0 = Some ic) as -> by exact Hic.
  set (w1 := onDocument (Dom.opt (Some ic) _) w0).
  assert (document w1 = Dom.classList_remove ic "no-display" (document w)) as Hd1
    by reflexivity.
  assert (mirrors w1 = mirrors w) as Hm1 by reflexivity.
  assert (cells w1 = upd (cell (mirror w this)) (set_inputHidden false) (cells w)) as Hc1
    by reflexivity.
  assert (toolbarOf this ic ie w1) as Htb1.
  { apply (toolbarOf_stable this ic ie w); [done| | |done].
    - rewrite Hd1. by apply same_tree_classList_remove.
    - intros k c Hc. rewrite Hd1. by apply classList_remove_other. }
  clearbody w1. clear w0 Htb0.
  destruct (toolbarOf_items this ic ie w1 Htb1) as (_ & -> & _ & Sie1).
  set (w2 := onDocument (Dom.opt (Some ie) _) w1).
  assert (document w2 = Dom.classList_add ie ["no-display"] (document w1)) as Hd2
    by reflexivity.
  assert (mirrors w2 = mirrors w1) as Hm2 by reflexivity.
  assert (cells w2 = cells w1) as Hc2 by reflexivity.
  assert (toolbarOf this ic ie w2) as Htb2.
  { apply (toolbarOf_stable this ic ie w1); [done| | |done].
    - rewrite Hd2. by apply same_tree_classList_add.
    - intros k c Hc. rewrite Hd2. apply classList_add_other.
      by intros ->%list_elem_of_singleton. }
  clearbody w2.
  assert (placeholder (mirror w2 this) = placeholder (mirror w this)) as Hph
    by (unfold mirror; by rewrite Hm2, Hm1).
  rewrite Hph. cbn [document onDocument set_document cells mirrors].
  rewrite Hd2, Hd1, Hc2, Hc1, Hm2, Hm1. split; [done|]. split; [done|]. split; [done|].
  apply (toolbarOf_stable this ic ie w2); [reflexivity| | |done].
  - cbn. apply same_tree_classList_add. destruct Htb2 as (_ & _ & Hp).
    by rewrite Hph in Hp.
  - intros k c Hc. cbn. apply classList_add_other. by intros ->%list_elem_of_singleton.
Qed.

Lemma contains_add_same n c d : Dom.classList_contains n c (Dom.classList_add n [c] d) = true.
Proof. apply classList_contains_elem, classList_add_elem. right. split; [done|by left]. Qed.

Lemma contains_add_ne n k cls c d :
  k ≠ n → Dom.classList_contains k c (Dom.classList_add n cls d) = Dom.classList_contains k c d.
Proof.
  intros Hk. rewrite classList_contains_add, bool_decide_eq_false_2 by (by intros [? _]).
  apply orb_false_r.
Qed.

Lemma contains_remove_same n c d :
  Dom.classList_contains n c (Dom.classList_remove n c d) = false.
Proof.
  rewrite classList_contains_remove, bool_decide_eq_true_2 by done. apply andb_false_r.
Qed.

Lemma contains_remove_ne n k c' c d :
  k ≠ n →
  Dom.classList_contains k c (Dom.classList_remove n c' d) = Dom.classList_contains k c d.
Proof.
  intros Hk. rewrite classList_contains_remove, bool_decide_eq_false_2 by (by intros [? _]).
  apply andb_true_r.
Qed.

(** X18.  Collapsing and expanding the input of a mirror.  With the toolbar of
    the mirror in place, [collapseClicked] hides the input of the clone,
    hides the collapse button, shows the expand button and shows the
    placeholder; [expandClicked] after it shows the input again and puts
    the three displays back.  Both touch the clone only, never another
    cell, and both suppress the default action and the propagation of the
    click. *)
Theorem collapse_then_expand (this : MirrorId) (e e' : Event) (ic ie : NodeId)
    (w : World) :
  toolbarOf this ic ie w →
  ic ≠ ie → placeholder (mirror w this) ≠ ic → placeholder (mirror w this) ≠ ie →
  let ph := placeholder (mirror w this) in
  let collapsed := (collapseClicked this e w).2 in
  let expanded := (expandClicked this e' collapsed).2 in
  (inputHidden (cells collapsed !!! cell (mirror w this)) = true ∧
   Dom.classList_contains ic "no-display" (document collapsed) = true ∧
   Dom.classList_contains ie "no-display" (document collapsed) = false ∧
   Dom.classList_contains ph "no-display" (document collapsed) = false) ∧
  (inputHidden (cells expanded !!! cell (mirror w this)) = false ∧
   Dom.classList_contains ic "no-display" (document expanded) = false ∧
   Dom.classList_contains ie "no-display" (document expanded) = true ∧
   Dom.classList_contains ph "no-display" (document expanded) = true) ∧
  (∀ c, c ≠ cell (mirror w this) →
        cells collapsed !! c = cells w !! c ∧ cells expanded !! c = cells w !! c) ∧
  defaultPrevented (collapseClicked this e w).1 = true ∧
  propagationStopped (collapseClicked this e w).1 = true ∧
  defaultPrevented (expandClicked this e' collapsed).1 = true ∧
  propagationStopped (expandClicked this e' collapsed).1 = true.
Proof.
  intros Htb Hne Hpc Hpe ph collapsed expanded.
  destruct (collapseClicked_spec this e ic ie w Htb) as (Hd1 & Hc1 & Hm1 & Htb1).
  fold collapsed in Hd1, Hc1, Hm1, Htb1. fold ph in Hd1.
  destruct (expandClicked_spec this e' ic ie collapsed Htb1) as (Hd2 & Hc2 & Hm2 & _).
  fold expanded in Hd2, Hc2, Hm2.
  assert (mirror collapsed this = mirror w this) as Hmi by (unfold mirror; by rewrite Hm1).
  rewrite Hmi in Hd2, Hc2. fold ph in Hd2.
  assert (defaultPrevented (collapseClicked this e w).1 = true ∧
          propagationStopped (collapseClicked this e w).1 = true ∧
          defaultPrevented (expandClicked this e' collapsed).1 = true ∧
          propagationStopped (expandClicked this e' collapsed).1 = true) as Hev by done.
  clearbody collapsed expanded. rewrite Hd2, Hc2, Hd1, Hc1. clear Hd2 Hc2 Hd1 Hc1.
  split; [|split; [|split; [|exact Hev]]].
  - split; [by rewrite upd_lookup_total_eq|]. split; [|split].
    + rewrite !contains_remove_ne by done. apply contains_add_same.
    + rewrite contains_remove_ne by done. apply contains_remove_same.
    + apply contains_remove_same.
  - split; [by rewrite !upd_lookup_total_eq|]. split; [|split].
    + rewrite !contains_add_ne by done. apply contains_remove_same.
    + rewrite contains_add_ne by done. apply contains_add_same.
    + apply contains_add_same.
  - intros c Hc. by rewrite !upd_lookup_ne.
Qed.

(** [collapse_then_expand] on the mirror of the demo notebook: the items
    of the two buttons are the nodes 50 and 53, the placeholder is node
    64. *)
Lemma collapse_then_expand_witness :
  toolbarOf 0 50 53 mirroredWorld ∧
  inputHidden (cells (collapseClicked 0 plainEnter mirroredWorld).2 !!! 33) = true ∧
  inputHidden (cells (expandClicked 0 plainEnter
                        (collapseClicked 0 plainEnter mirroredWorld).2).2 !!! 33) = false.
Proof.
  assert (toolbarOf 0 50 53 mirroredWorld) as H1.
  { split; [|split].
    - exists 51. by vm_compute.
    - exists 54. by vm_compute.
    - by eexists; vm_compute. }
  assert (50 ≠ 53) as H2 by lia.
  assert (placeholder (mirror mirroredWorld 0) ≠ 50) as H3 by (vm_compute; lia).
  assert (placeholder (mirror mirroredWorld 0) ≠ 53) as H4 by (vm_compute; lia).
  split; [exact H1|].
  pose proof (collapse_then_expand 0 plainEnter plainEnter 50 53 mirroredWorld H1 H2 H3 H4)
    as T.
  split; [exact (proj1 (proj1 T))|exact (proj1 (proj1 (proj2 T)))].
Defined.

(** ** What never shows a hidden cell *)



































(** The click on the close button is the one that shows the cell. *)
Example close_shows_the_cell :
  visibility (cells (perform (Dispatch (CloseClicked 0) plainEnter) mirroredWorld) !!! 3)
  = (false, false).
Proof. by vm_compute. Qed.
